(** * HDF4 compressed-element layer (hcomp.c) and HDmemfill (hdfalloc.c)

    A shallow embedding of the routines of [hdf/src/hcomp.c] and of
    [HDmemfill] from [hdf/src/hdfalloc.c], together with the properties
    the library specification states about them.

    Conventions.
    - C integers are [Z]; every assignment to a fixed-width variable is
      written with its wrap-around ([to_int32], [to_uint16], [to_uint32]).
    - Pointers into the byte memory are addresses ([Z]); pointers to
      heap records are keys of a finite map.
    - Functions that return [FAIL] or [SUCCEED] return that [Z]; the HDF
      error stack is part of the state.  [None] is reserved for C
      undefined behaviour (a null or dangling pointer, an uninitialised
      function pointer). *)

From Stdlib Require Import ZArith List Lia Bool.
From stdpp Require Import base option list gmap.

Local Open Scope Z_scope.

(** ** Fixed-width integers *)

Definition to_uint16 (z : Z) : Z := z mod 2 ^ 16.
Definition to_uint32 (z : Z) : Z := z mod 2 ^ 32.
Definition to_int32 (z : Z) : Z := (z + 2 ^ 31) mod 2 ^ 32 - 2 ^ 31.
Definition to_int16 (z : Z) : Z := (z + 2 ^ 15) mod 2 ^ 16 - 2 ^ 15.

Definition is_uint16 (z : Z) : Prop := 0 <= z < 2 ^ 16.
Definition is_uint32 (z : Z) : Prop := 0 <= z < 2 ^ 32.
Definition is_int32 (z : Z) : Prop := - 2 ^ 31 <= z < 2 ^ 31.

(** * hdfalloc.c: HDmemfill *)

Module HDFalloc.

(** The byte memory: a flat array of bytes; a pointer is an index. *)
Definition memory := list Z.

(** [HDmemcpy(d, s, n)]: the [n] bytes at address [s] are read and stored
    at address [d]. *)
Definition HDmemcpy (mem : memory) (d s n : Z) : memory :=
  let chunk := take (Z.to_nat n) (drop (Z.to_nat s) mem) in
  take (Z.to_nat d) mem ++ chunk ++ drop (Z.to_nat d + length chunk)%nat mem.







(** The bytes of [mem] in the address range [[a, a + n)]. *)
Definition region (mem : memory) (a n : Z) : list Z :=
  take (Z.to_nat n) (drop (Z.to_nat a) mem).

(** ** HIstrncpy -- string copy with termination *)

(** [*p] and [*p = v] on the byte memory; an access outside of the
    memory is undefined. *)
Definition load (mem : memory) (p : Z) : option Z :=
  if p <? 0 then None else (mem : list Z) !! Z.to_nat p.

Definition store (mem : memory) (p : Z) (v : Z) : option memory :=
  if (0 <=? p) && (p <? Z.of_nat (length mem))
  then Some (<[Z.to_nat p := v]> (mem : list Z))
  else None.

(** The [for] loop, which stores [*source] at [dest] and advances both
    while [len > 1] and [*source] is not NUL, [len] counting down; the
    result is the memory and the value of [dest] it ends with.  [None]
    is an undefined access, or fuel that ran out before the loop
    condition became false. *)
Fixpoint strncpy_loop (fuel : nat) (mem : memory) (dest source len : Z)
  : option (memory * Z) :=
  if len >? 1 then
    match load mem source with
    | None => None
    | Some c =>
        if c =? 0 then Some (mem, dest)
        else
          match fuel with
          | O => None
          | S fuel' =>
              match store mem dest c with
              | None => None
              | Some mem' =>
                  strncpy_loop fuel' mem' (dest + 1) (source + 1) (to_int32 (len - 1))
              end
          end
    end
  else Some (mem, dest).

(** [HIstrncpy(dest, source, len)]: the returned pointer and the memory
    it leaves. *)
Definition HIstrncpy (fuel : nat) (mem : memory) (dest source len : Z)
  : option (Z * memory) :=
  let destp := dest in
  if len =? 0 then Some (destp, mem)
  else
    match strncpy_loop fuel mem dest source len with
    | None => None
    | Some (mem1, dest1) =>
        match store mem1 dest1 0 with
        | None => None
        | Some mem2 => Some (destp, mem2)
        end
    end.

(** The memory after [k] characters of [s] have been stored from
    address [d] on. *)
Definition copied (mem : list Z) (d : nat) (s : list Z) (k : nat) : list Z :=
  take d mem ++ take k s ++ drop (d + k) mem.

(** ** memcpy_big, memset_big, memcmp_big

    The routines of the 16-bit PC builds, and their WIN3 twins
    [fmemcpy_big], [fmemset_big] and [fmemcmp_big], which differ in the
    names of the library routines they call only. *)

(** [memset(s, c, n)]: the [n] bytes at address [s] are set to [c],
    converted to [unsigned char]. *)
Definition memset (mem : memory) (s c n : Z) : memory :=
  let chunk := take (Z.to_nat n) (drop (Z.to_nat s) mem) in
  take (Z.to_nat s) mem ++ replicate (length chunk) (c mod 256)
    ++ drop (Z.to_nat s + length chunk)%nat mem.

(** What [memcmp] returns on two byte sequences: 0 when they agree, and
    otherwise a value with the sign of the difference of the first
    bytes that differ; the difference itself is taken for it. *)
Fixpoint compare_bytes (a b : list Z) : Z :=
  match a, b with
  | x :: a', y :: b' => if x =? y then compare_bytes a' b' else x - y
  | _, _ => 0
  end.

(** [memcmp(s1, s2, n)]. *)
Definition memcmp (mem : memory) (s1 s2 n : Z) : Z :=
  compare_bytes (region mem s1 n) (region mem s2 n).

Section Big.

(** [UINT_MAX] of limits.h, the largest [size_t] of the compiler. *)
Variable UINT_MAX : Z.

(** The loop [while (len > UINT_MAX)] of [memcpy_big]; the result is
    the memory and the values of [d], [s] and [len] it ends with. *)
Fixpoint memcpy_big_loop (fuel : nat) (mem : memory) (d s len : Z)
  : option (memory * (Z * Z * Z)) :=
  if len >? UINT_MAX then
    match fuel with
    | O => None
    | S fuel' =>
        memcpy_big_loop fuel' (HDmemcpy mem d s UINT_MAX)
                        (d + UINT_MAX) (s + UINT_MAX) (to_uint32 (len - UINT_MAX))
    end
  else Some (mem, (d, s, len)).

Definition memcpy_big (fuel : nat) (mem : memory) (dst src len : Z)
  : option (Z * memory) :=
  if len <=? UINT_MAX then Some (dst, HDmemcpy mem dst src len)
  else
    match memcpy_big_loop fuel mem dst src len with
    | None => None
    | Some (mem1, (d, s, len1)) =>
        Some (dst, if len1 >? 0 then HDmemcpy mem1 d s len1 else mem1)
    end.

(** The loop of [memset_big]. *)
Fixpoint memset_big_loop (fuel : nat) (mem : memory) (s c len : Z)
  : option (memory * (Z * Z)) :=
  if len >? UINT_MAX then
    match fuel with
    | O => None
    | S fuel' =>
        memset_big_loop fuel' (memset mem s c UINT_MAX)
                        (s + UINT_MAX) c (to_uint32 (len - UINT_MAX))
    end
  else Some (mem, (s, len)).

Definition memset_big (fuel : nat) (mem : memory) (src c len : Z)
  : option (Z * memory) :=
  if len <=? UINT_MAX then Some (src, memset mem src c len)
  else
    match memset_big_loop fuel mem src c len with
    | None => None
    | Some (mem1, (s, len1)) =>
        Some (src, if len1 >? 0 then memset mem1 s c len1 else mem1)
    end.

(** The loop of [memcmp_big]: it returns from the function ([inl]) at
    the first block that differs, or ends with [t1], [t2] and [len]. *)
Fixpoint memcmp_big_loop (fuel : nat) (mem : memory) (t1 t2 len : Z)
  : option (Z + Z * Z * Z) :=
  if len >? UINT_MAX then
    match fuel with
    | O => None
    | S fuel' =>
        let ret_val := memcmp mem t1 t2 UINT_MAX in
        if negb (ret_val =? 0) then Some (inl ret_val)
        else memcmp_big_loop fuel' mem (t1 + UINT_MAX) (t2 + UINT_MAX)
                             (to_uint32 (len - UINT_MAX))
    end
  else Some (inr (t1, t2, len)).

Definition memcmp_big (fuel : nat) (mem : memory) (s1 s2 len : Z) : option Z :=
  if len <=? UINT_MAX then Some (memcmp mem s1 s2 len)
  else
    match memcmp_big_loop fuel mem s1 s2 len with
    | None => None
    | Some (inl ret_val) => Some ret_val
    | Some (inr (t1, t2, len1)) =>
        if len1 >? 0 then Some (memcmp mem t1 t2 len1) else Some 0
    end.

End Big.


End HDFalloc.

(** * hcomp.c: compressed data elements *)

Module HComp.

(** ** hdf.h, hfile.h, hcomp.h, herr.h

    The headers are not among the sources at hand.  Their constants,
    macros and tables are taken as parameters; the only facts used about
    them are the ones listed as fields below. *)
Class hdf_h := {
  FAIL : Z;
  SUCCEED : Z;
  DF_START : Z;
  DF_CURRENT : Z;
  DF_END : Z;
  DFACC_READ : Z;
  DFACC_WRITE : Z;
  DFACC_RDWR : Z;
  DFTAG_NULL : Z;
  DFTAG_WILDCARD : Z;
  DFREF_WILDCARD : Z;
  SPECIAL_COMP : Z;
  COMP_MODEL_STDIO : Z;
  COMP_CODE_NONE : Z;
  COMP_CODE_RLE : Z;
  COMP_CODE_NBIT : Z;
  COMP_CODE_SKPHUFF : Z;
  SPECIALTAG : Z -> bool;
  MKSPECIALTAG : Z -> Z;
  ASLOT2ID : Z -> Z;
  (* the number-type table of hkit.c / dfkswap.c *)
  DFKNTsize : Z -> Z;
  FAIL_neq_SUCCEED : FAIL <> SUCCEED;
  FAIL_negative : FAIL < 0;
  DF_CURRENT_neq_END : DF_CURRENT <> DF_END;
  DF_START_neq_CURRENT : DF_START <> DF_CURRENT;
  DF_START_neq_END : DF_START <> DF_END;
  COMP_CODE_NBIT_neq_SKPHUFF : COMP_CODE_NBIT <> COMP_CODE_SKPHUFF;
  COMP_MODEL_STDIO_uint16 : is_uint16 COMP_MODEL_STDIO;
  COMP_CODE_NBIT_uint16 : is_uint16 COMP_CODE_NBIT;
  COMP_CODE_SKPHUFF_uint16 : is_uint16 COMP_CODE_SKPHUFF
}.

(** Local defines of hcomp.c. *)
Definition COMP_HEADER_VERSION : Z := 0.
Definition COMP_HEADER_LENGTH : Z := 14.
Definition COMP_START_BLOCK : Z := 1.

(** The error codes hcomp.c reports (herr.h). *)
Inductive hdf_err :=
| DFE_ARGS | DFE_DENIED | DFE_TOOMANY | DFE_CANTMOD | DFE_NOFREEDD
| DFE_NOSPACE | DFE_WRITEERROR | DFE_READERROR | DFE_SEEKERROR
| DFE_MODEL | DFE_CANTDELDD | DFE_CANTDELHASH | DFE_COMPINFO
| DFE_MINIT | DFE_CINIT | DFE_RANGE | DFE_INTERNAL | DFE_CANTUPDATE
| DFE_CANTHASH | DFE_BADNUMTYPE | DFE_BADCODER | DFE_BADMODEL.

(** ** Data structures *)

(** [dd_t]: a data descriptor. *)
Record dd_t := DD {
  dd_tag : Z;       (* uint16 *)
  dd_ref : Z;       (* uint16 *)
  dd_offset : Z;    (* int32 *)
  dd_length : Z     (* int32 *)
}.

(** A [ddblock_t *] is the file and the position of the block in the
    file's chain; a [dd_t *] adds the index in the block's [ddlist]. *)
Definition block_ptr : Type := Z * nat.
Definition dd_ptr : Type := block_ptr * nat.

(** [filerec_t], with the file itself: the bytes of the data area and
    the position of the file pointer. *)
Record filerec_t := FileRec {
  f_refcount : Z;
  f_access : Z;
  f_attach : Z;
  f_maxref : Z;                 (* uint16 *)
  f_ndds : Z;                   (* FILE_NDDS(file_rec) *)
  f_ddblocks : list (list dd_t);
  f_null_block : block_ptr;
  f_null_idx : nat;
  f_pos : Z;
  f_bytes : list Z
}.

(** The function tables [comp_coder_info_t.coder_funcs] can hold; the
    coders are only entered from the modelling layer. *)
Inductive coder_funclist :=
| cnone_funcs | crle_funcs | cnbit_funcs | cskphuff_funcs | junk_coder_funcs.

(** The function tables [comp_model_info_t.model_funcs] can hold. *)
Inductive model_funclist := mstdio_funcs | junk_model_funcs.

(** [comp_coder_nbit_info_t] and [comp_coder_skphuff_info_t], as far as
    hcomp.c assigns them. *)
Record nbit_info_t := NbitInfo {
  nt : Z;          (* int32 *)
  nt_size : Z;     (* intn *)
  sign_ext : Z;    (* intn *)
  fill_one : Z;    (* intn *)
  mask_off : Z;    (* intn *)
  mask_len : Z     (* intn *)
}.

Record skphuff_info_t := SkphuffInfo {
  skip_size : Z    (* intn *)
}.

(** [comp_coder_info_t]; the members of the union [coder_info] are kept
    side by side. *)
Record comp_coder_info_t := CoderInfo {
  coder_type : Z;
  coder_funcs : coder_funclist;
  nbit_info : nbit_info_t;
  skphuff_info : skphuff_info_t
}.

Record comp_model_info_t := ModelInfo {
  model_type : Z;
  model_funcs : model_funclist
}.

(** [compinfo_t]: the special information of a compressed element. *)
Record compinfo_t := CompInfo {
  attached : Z;     (* number of access records attached *)
  ci_length : Z;    (* int32: length of the uncompressed data *)
  comp_ref : Z;     (* uint16 *)
  minfo : comp_model_info_t;
  cinfo : comp_coder_info_t
}.

(** [comp_info]: the coder parameters a caller passes in; the members
    [nbit] and [skphuff] of the union are kept side by side. *)
Record comp_info := CInfo {
  nbit_nt : Z;          (* int32 *)
  nbit_sign_ext : Z;    (* intn *)
  nbit_fill_one : Z;    (* intn *)
  nbit_start_bit : Z;   (* intn *)
  nbit_bit_len : Z;     (* intn *)
  skphuff_skp_size : Z  (* intn *)
}.

(** The one function table [special_func] holds in this file. *)
Inductive funclist_t := comp_funcs.

(** [accrec_t]: an access record. *)
Record accrec_t := AccRec {
  used : bool;
  file_id : Z;
  block : block_ptr;
  idx : nat;
  posn : Z;                         (* int32 *)
  access : Z;
  special : Z;
  special_info : option positive;   (* NULL is None *)
  special_func : option funclist_t;
  appendable : bool;
  flush : bool
}.


(** The state of the library: the error stack, the open files, the
    table of access records, the heap blocks that hold [compinfo_t]
    records, and the state of everything below the interface of the
    modelling layer (model position, coder state, the compressed data).
    [heap_avail] counts the allocations that still succeed;
    [junk_compinfo] and [junk_comp_info] are the indeterminate contents
    of a fresh heap block and of an uninitialised local. *)
Record hdf_state (L : Type) := HdfState {
  errstack : list hdf_err;
  files : gmap Z filerec_t;
  access_records : list accrec_t;
  heap : gmap positive compinfo_t;
  heap_avail : nat;
  junk_compinfo : compinfo_t;
  junk_comp_info : comp_info;
  lower : L
}.

Arguments HdfState {L} _ _ _ _ _ _ _ _.
Arguments errstack {L} _.
Arguments files {L} _.
Arguments access_records {L} _.
Arguments heap {L} _.
Arguments heap_avail {L} _.
Arguments junk_compinfo {L} _.
Arguments junk_comp_info {L} _.
Arguments lower {L} _.

(** ** The modelling layer

    mstdio.c and the coders below it are not among the sources at hand.
    hcomp.c reaches them only through the function table
    [info->minfo.model_funcs]; its entries are taken as parameters.  An
    entry sees the access record and the special information and acts
    on the state below the interface; the [int32] it returns is [FAIL]
    or a success value. *)
Class model_layer (L : Type) := {
  mstdio_stread : accrec_t -> compinfo_t -> L -> Z * L;
  mstdio_stwrite : accrec_t -> compinfo_t -> L -> Z * L;
  mstdio_seek : accrec_t -> compinfo_t -> Z -> Z -> L -> Z * L;
  mstdio_read : accrec_t -> compinfo_t -> Z -> L -> (Z * list Z) * L;
  mstdio_write : accrec_t -> compinfo_t -> Z -> list Z -> L -> Z * L;
  mstdio_endaccess : accrec_t -> compinfo_t -> L -> Z * L
}.

(** ** A state monad with undefined behaviour *)

Definition SM (S A : Type) : Type := S -> option (A * S).

Definition ret {S A : Type} (a : A) : SM S A := fun st => Some (a, st).

Definition bind {S A B : Type} (m : SM S A) (k : A -> SM S B) : SM S B :=
  fun st => match m st with
            | Some (a, st') => k a st'
            | None => None
            end.

Definition undefined {S A : Type} : SM S A := fun _ => None.

Definition gets {S A : Type} (f : S -> A) : SM S A := fun st => Some (f st, st).

Definition modify {S : Type} (f : S -> S) : SM S unit := fun st => Some (tt, f st).

(** Dereferencing a pointer: undefined when it points nowhere. *)
Definition deref {S A : Type} (f : S -> option A) : SM S A :=
  fun st => match f st with
            | Some a => Some (a, st)
            | None => None
            end.

(** A step of a C function body either returns from the function
    ([inl]) or falls through to the next statement ([inr]). *)
Definition Return {S A B : Type} (r : A) : SM S (A + B) := ret (inl r).
Definition Continue {S A B : Type} (b : B) : SM S (A + B) := ret (inr b).

Declare Scope hdf_scope.
Delimit Scope hdf_scope with hdf.

Notation "'let*' x ':=' c1 'in' c2" := (bind c1 (fun x => c2))
  (at level 10, x pattern, c1 at level 100, c2 at level 200) : hdf_scope.
Notation "'let?' x ':=' c1 'in' c2" :=
  (bind c1 (fun r => match r with inl e => ret e | inr x => c2 end))
  (at level 10, x pattern, c1 at level 100, c2 at level 200) : hdf_scope.
Notation "c1 ;; c2" := (bind c1 (fun _ => c2))
  (at level 100, c2 at level 200, right associativity) : hdf_scope.

Local Open Scope hdf_scope.

(** ** Byte encoding (hdfi.h)

    Modelled from the spec: the macros [INT16ENCODE], [UINT16ENCODE],
    [INT32ENCODE], [UINT32ENCODE] and their [DECODE] counterparts are
    defined in a header that is not among the sources at hand.  Per the
    spec they are big-endian, fixed-width encoders and decoders that
    advance a cursor.  An encoder appends at the cursor of the buffer
    being filled; a decoder returns the value and the advanced cursor. *)
Definition byte_of (z : Z) (k : Z) : Z := Z.land (Z.shiftr z (8 * k)) 255.

Definition UINT16ENCODE (p : list Z) (x : Z) : list Z :=
  p ++ [byte_of x 1; byte_of x 0].

Definition INT16ENCODE (p : list Z) (x : Z) : list Z :=
  p ++ [byte_of x 1; byte_of x 0].

Definition UINT32ENCODE (p : list Z) (x : Z) : list Z :=
  p ++ [byte_of x 3; byte_of x 2; byte_of x 1; byte_of x 0].

Definition INT32ENCODE (p : list Z) (x : Z) : list Z :=
  p ++ [byte_of x 3; byte_of x 2; byte_of x 1; byte_of x 0].

Definition byte_at (p : list Z) (i : nat) : Z := nth i p 0.

Definition UINT16DECODE (p : list Z) : Z * list Z :=
  (Z.lor (Z.shiftl (byte_at p 0) 8) (byte_at p 1), drop 2 p).

Definition UINT32DECODE (p : list Z) : Z * list Z :=
  (Z.lor (Z.shiftl (byte_at p 0) 24)
     (Z.lor (Z.shiftl (byte_at p 1) 16)
        (Z.lor (Z.shiftl (byte_at p 2) 8) (byte_at p 3))),
   drop 4 p).

Definition INT32DECODE (p : list Z) : Z * list Z :=
  (to_int32 (fst (UINT32DECODE p)), drop 4 p).


Section Embedding.

Context `{Hh : hdf_h} {L : Type} `{ML : model_layer L}.

Definition M (A : Type) : Type := SM (hdf_state L) A.

(** *** Field updates *)

Definition set_errstack (e : list hdf_err) (st : hdf_state L) : hdf_state L :=
  HdfState e (files st) (access_records st) (heap st) (heap_avail st)
           (junk_compinfo st) (junk_comp_info st) (lower st).

Definition set_files (fs : gmap Z filerec_t) (st : hdf_state L) : hdf_state L :=
  HdfState (errstack st) fs (access_records st) (heap st) (heap_avail st)
           (junk_compinfo st) (junk_comp_info st) (lower st).

Definition set_access_records (ars : list accrec_t) (st : hdf_state L) : hdf_state L :=
  HdfState (errstack st) (files st) ars (heap st) (heap_avail st)
           (junk_compinfo st) (junk_comp_info st) (lower st).

Definition set_heap (h : gmap positive compinfo_t) (n : nat) (st : hdf_state L)
  : hdf_state L :=
  HdfState (errstack st) (files st) (access_records st) h n
           (junk_compinfo st) (junk_comp_info st) (lower st).

Definition set_lower (l : L) (st : hdf_state L) : hdf_state L :=
  HdfState (errstack st) (files st) (access_records st) (heap st) (heap_avail st)
           (junk_compinfo st) (junk_comp_info st) l.

Definition set_used (v : bool) (a : accrec_t) : accrec_t :=
  AccRec v (file_id a) (block a) (idx a) (posn a) (access a) (special a)
         (special_info a) (special_func a) (appendable a) (flush a).

Definition set_file_id (v : Z) (a : accrec_t) : accrec_t :=
  AccRec (used a) v (block a) (idx a) (posn a) (access a) (special a)
         (special_info a) (special_func a) (appendable a) (flush a).

Definition set_block_idx (b : block_ptr) (i : nat) (a : accrec_t) : accrec_t :=
  AccRec (used a) (file_id a) b i (posn a) (access a) (special a)
         (special_info a) (special_func a) (appendable a) (flush a).

Definition set_posn (v : Z) (a : accrec_t) : accrec_t :=
  AccRec (used a) (file_id a) (block a) (idx a) v (access a) (special a)
         (special_info a) (special_func a) (appendable a) (flush a).

Definition set_access (v : Z) (a : accrec_t) : accrec_t :=
  AccRec (used a) (file_id a) (block a) (idx a) (posn a) v (special a)
         (special_info a) (special_func a) (appendable a) (flush a).

Definition set_special (v : Z) (a : accrec_t) : accrec_t :=
  AccRec (used a) (file_id a) (block a) (idx a) (posn a) (access a) v
         (special_info a) (special_func a) (appendable a) (flush a).

Definition set_special_info (v : option positive) (a : accrec_t) : accrec_t :=
  AccRec (used a) (file_id a) (block a) (idx a) (posn a) (access a) (special a)
         v (special_func a) (appendable a) (flush a).

Definition set_special_func (v : option funclist_t) (a : accrec_t) : accrec_t :=
  AccRec (used a) (file_id a) (block a) (idx a) (posn a) (access a) (special a)
         (special_info a) v (appendable a) (flush a).

Definition set_appendable (v : bool) (a : accrec_t) : accrec_t :=
  AccRec (used a) (file_id a) (block a) (idx a) (posn a) (access a) (special a)
         (special_info a) (special_func a) v (flush a).

Definition set_flush (v : bool) (a : accrec_t) : accrec_t :=
  AccRec (used a) (file_id a) (block a) (idx a) (posn a) (access a) (special a)
         (special_info a) (special_func a) (appendable a) v.

Definition set_f_attach (v : Z) (f : filerec_t) : filerec_t :=
  FileRec (f_refcount f) (f_access f) v (f_maxref f) (f_ndds f) (f_ddblocks f)
          (f_null_block f) (f_null_idx f) (f_pos f) (f_bytes f).

Definition set_f_maxref (v : Z) (f : filerec_t) : filerec_t :=
  FileRec (f_refcount f) (f_access f) (f_attach f) v (f_ndds f) (f_ddblocks f)
          (f_null_block f) (f_null_idx f) (f_pos f) (f_bytes f).

Definition set_f_ddblocks (v : list (list dd_t)) (f : filerec_t) : filerec_t :=
  FileRec (f_refcount f) (f_access f) (f_attach f) (f_maxref f) (f_ndds f) v
          (f_null_block f) (f_null_idx f) (f_pos f) (f_bytes f).

Definition set_f_null (b : block_ptr) (i : nat) (f : filerec_t) : filerec_t :=
  FileRec (f_refcount f) (f_access f) (f_attach f) (f_maxref f) (f_ndds f)
          (f_ddblocks f) b i (f_pos f) (f_bytes f).

Definition set_f_pos (v : Z) (f : filerec_t) : filerec_t :=
  FileRec (f_refcount f) (f_access f) (f_attach f) (f_maxref f) (f_ndds f)
          (f_ddblocks f) (f_null_block f) (f_null_idx f) v (f_bytes f).

Definition set_f_bytes (v : list Z) (f : filerec_t) : filerec_t :=
  FileRec (f_refcount f) (f_access f) (f_attach f) (f_maxref f) (f_ndds f)
          (f_ddblocks f) (f_null_block f) (f_null_idx f) (f_pos f) v.

Definition set_attached (v : Z) (i : compinfo_t) : compinfo_t :=
  CompInfo v (ci_length i) (comp_ref i) (minfo i) (cinfo i).

Definition set_ci_length (v : Z) (i : compinfo_t) : compinfo_t :=
  CompInfo (attached i) v (comp_ref i) (minfo i) (cinfo i).

Definition set_comp_ref (v : Z) (i : compinfo_t) : compinfo_t :=
  CompInfo (attached i) (ci_length i) v (minfo i) (cinfo i).

Definition set_minfo (v : comp_model_info_t) (i : compinfo_t) : compinfo_t :=
  CompInfo (attached i) (ci_length i) (comp_ref i) v (cinfo i).

Definition set_cinfo (v : comp_coder_info_t) (i : compinfo_t) : compinfo_t :=
  CompInfo (attached i) (ci_length i) (comp_ref i) (minfo i) v.

(** *** Pointers *)

(** A [filerec_t *] is the key of the file record, or NULL.
    [FID2REC(file_id)] is NULL when no record belongs to the id. *)
Definition FID2REC (file_id : Z) : M (option Z) :=
  gets (fun st => match files st !! file_id with
                  | Some _ => Some file_id
                  | None => None
                  end).

(** [*file_rec]. *)
Definition get_file (file_rec : option Z) : M filerec_t :=
  deref (fun st => match file_rec with
                   | Some k => files st !! k
                   | None => None
                   end).

Definition put_file (file_rec : option Z) (f : filerec_t) : M unit :=
  match file_rec with
  | Some k => modify (fun st => set_files (<[k := f]> (files st)) st)
  | None => undefined
  end.

(** [BADFREC(file_rec)]: NULL, or a record that is not in use. *)
Definition BADFREC (file_rec : option Z) : M bool :=
  match file_rec with
  | Some _ => let* f := get_file file_rec in ret (f_refcount f =? 0)
  | None => ret true
  end.

(** [access_records[slot]]. *)
Definition get_accrec (access_rec : nat) : M accrec_t :=
  deref (fun st => access_records st !! access_rec).

Definition put_accrec (access_rec : nat) (a : accrec_t) : M unit :=
  modify (fun st => set_access_records (<[access_rec := a]> (access_records st)) st).

(** [*info] for the [compinfo_t *] held in [special_info]. *)
Definition get_info (info : option positive) : M compinfo_t :=
  deref (fun st => match info with
                   | Some p => heap st !! p
                   | None => None
                   end).

Definition put_info (info : option positive) (i : compinfo_t) : M unit :=
  match info with
  | Some p => modify (fun st => set_heap (<[p := i]> (heap st)) (heap_avail st) st)
  | None => undefined
  end.

(** [block->ddlist[idx]]. *)
Definition lookup_dd (fs : gmap Z filerec_t) (dd : dd_ptr) : option dd_t :=
  match fs !! (fst (fst dd)) with
  | Some f =>
      match f_ddblocks f !! snd (fst dd) with
      | Some blk => blk !! snd dd
      | None => None
      end
  | None => None
  end.

Definition get_dd (dd : dd_ptr) : M dd_t :=
  deref (fun st => lookup_dd (files st) dd).

Definition put_dd (dd : dd_ptr) (d : dd_t) : M unit :=
  let* _ := get_dd dd in
  let* f := get_file (Some (fst (fst dd))) in
  let blocks := f_ddblocks f in
  let blk := default [] (blocks !! snd (fst dd)) in
  put_file (Some (fst (fst dd)))
           (set_f_ddblocks (<[snd (fst dd) := <[snd dd := d]> blk]> blocks) f).

(** *** The error stack (herr.c) *)

Definition HEclear : M unit := modify (set_errstack []).

Definition HERROR (e : hdf_err) : M unit :=
  modify (fun st => set_errstack (e :: errstack st) st).

Definition HRETURN_ERROR {A : Type} (e : hdf_err) (ret_val : A) : M A :=
  HERROR e ;; ret ret_val.

(** *** The heap (hdfalloc.c)

    [HDmalloc(sizeof(compinfo_t))]: a fresh block with indeterminate
    content, or NULL when no memory is left. *)
Definition HDmalloc : M (option positive) :=
  fun st =>
    match heap_avail st with
    | O => Some (None, st)
    | S n =>
        let p := fresh (dom (heap st)) in
        Some (Some p, set_heap (<[p := junk_compinfo st]> (heap st)) n st)
    end.

Definition HDfree (info : option positive) : M unit :=
  match info with
  | Some p =>
      let* _ := get_info info in
      modify (fun st => set_heap (delete p (heap st)) (S (heap_avail st)) st)
  | None => ret tt
  end.

(** [HDmalloc(n)] and [HDfree] for a byte buffer: [true] is a non-null
    pointer; the content of the buffer is carried by the caller. *)
Definition HDmalloc_bytes (n : Z) : M bool :=
  fun st =>
    match heap_avail st with
    | O => Some (false, st)
    | S k => Some (true, set_heap (heap st) k st)
    end.

Definition HDfree_bytes : M unit :=
  modify (fun st => set_heap (heap st) (S (heap_avail st)) st).

(** *** The H layer (hfile.c)

    hfile.c is not among the sources at hand; the routines of it that
    hcomp.c calls are modelled from the spec. *)

(** Modelled from the spec: [HPseek] is the positional seek of the file
    store (§4.B); it moves the file pointer and fails on a negative
    offset. *)
Definition HPseek (file_rec : option Z) (offset : Z) : M Z :=
  let* f := get_file file_rec in
  if offset <? 0 then ret FAIL
  else put_file file_rec (set_f_pos offset f) ;; ret SUCCEED.

(** Modelled from the spec: [HPread] is the raw read of the file store
    (§4.B); it returns the [n] bytes at the file pointer and advances
    it; a short read fails (§4.F). *)
Definition HPread (file_rec : option Z) (n : Z) : M (Z * list Z) :=
  let* f := get_file file_rec in
  if (n <? 0) || (f_pos f <? 0) || (Z.of_nat (length (f_bytes f)) <? f_pos f + n)
  then ret (FAIL, [])
  else
    put_file file_rec (set_f_pos (f_pos f + n) f) ;;
    ret (SUCCEED, take (Z.to_nat n) (drop (Z.to_nat (f_pos f)) (f_bytes f))).

(** The bytes of a file after [buf] is stored at position [pos]; a gap
    between the end of the file and [pos] is filled with zeros. *)
Definition write_at (bytes : list Z) (pos : nat) (buf : list Z) : list Z :=
  take pos (bytes ++ replicate (pos - length bytes) 0)
    ++ buf ++ drop (pos + length buf) bytes.

(** Modelled from the spec: [HPwrite] is the raw write of the file
    store (§4.B); it stores the first [n] bytes of [buf] at the file
    pointer and advances it; it fails on a file that is not open for
    writing. *)
Definition HPwrite (file_rec : option Z) (buf : list Z) (n : Z) : M Z :=
  let* f := get_file file_rec in
  if (Z.land (f_access f) DFACC_WRITE =? 0) || (n <? 0) || (f_pos f <? 0)
  then ret FAIL
  else
    put_file file_rec
      (set_f_pos (f_pos f + n)
         (set_f_bytes (write_at (f_bytes f) (Z.to_nat (f_pos f))
                                (take (Z.to_nat n) buf)) f)) ;;
    ret SUCCEED.

(** Modelled from the spec: [HPgetdiskblock] is [get_disk_block] of
    §4.B; it allocates [block_size] bytes at the end of the file and
    returns their offset; with [moveto] the file pointer is left
    there. *)
Definition HPgetdiskblock (file_rec : option Z) (block_size : Z) (moveto : bool) : M Z :=
  let* f := get_file file_rec in
  if block_size <? 0 then ret FAIL
  else
    let off := Z.of_nat (length (f_bytes f)) in
    put_file file_rec
      (set_f_pos (if moveto then off else f_pos f)
         (set_f_bytes (f_bytes f ++ replicate (Z.to_nat block_size) 0) f)) ;;
    ret off.

(** The first index at or after [i] whose element satisfies [P]. *)
Fixpoint find_index {A : Type} (P : A -> bool) (l : list A) (i : nat) : option nat :=
  match l with
  | [] => None
  | x :: l' => if P x then Some i else find_index P l' (S i)
  end.

(** The first DD of a chain, in block order, that satisfies [P]. *)
Fixpoint find_dd (P : dd_t -> bool) (blocks : list (list dd_t)) (b : nat)
  : option (nat * nat) :=
  match blocks with
  | [] => None
  | blk :: blocks' =>
      match find_index P blk 0 with
      | Some i => Some (b, i)
      | None => find_dd P blocks' (S b)
      end
  end.

(** Modelled from the spec: [HIget_access_slot] is [acquire_slot] of
    §4.C; it returns the first unused slot of the table, marked used,
    or fails when there is none. *)
Definition HIget_access_slot : M Z :=
  let* ars := gets access_records in
  match find_index (fun a => negb (used a)) ars 0 with
  | Some i =>
      let* a := get_accrec i in
      put_accrec i (set_used true a) ;;
      ret (Z.of_nat i)
  | None => ret FAIL
  end.

(** Modelled from the spec: [HIlookup_dd] is [lookup] of §4.B.  A
    wildcard tag or ref returns the first match in the chain; otherwise
    the DD stored under [(look_tag, look_ref)] is returned, were it made
    special since (§4.E.4, step 2).  [None] is [FAIL]; otherwise the
    block and the index are the values stored through [pblock] and
    [pidx]. *)
Definition HIlookup_dd (file_rec : option Z) (look_tag look_ref : Z)
  : M (option (block_ptr * nat)) :=
  let* f := get_file file_rec in
  let found :=
    if (look_tag =? DFTAG_WILDCARD) || (look_ref =? DFREF_WILDCARD) then
      find_dd (fun d => ((look_tag =? DFTAG_WILDCARD) || (dd_tag d =? look_tag))
                        && ((look_ref =? DFREF_WILDCARD) || (dd_ref d =? look_ref)))
              (f_ddblocks f) 0
    else
      match find_dd (fun d => (dd_tag d =? look_tag) && (dd_ref d =? look_ref))
                    (f_ddblocks f) 0 with
      | Some r => Some r
      | None =>
          if MKSPECIALTAG look_tag =? DFTAG_NULL then None
          else find_dd (fun d => (dd_tag d =? MKSPECIALTAG look_tag)
                                 && (dd_ref d =? look_ref))
                       (f_ddblocks f) 0
      end in
  ret (match found, file_rec with
       | Some (b, i), Some k => Some ((k, b), i)
       | _, _ => None
       end).

(** A free DD slot. *)
Definition free_dd : dd_t := DD DFTAG_NULL 0 0 0.

(** Modelled from the spec: [HInew_dd_block] extends the DD chain with
    a block of [ndds] free slots (§4.B, [allocate_dd]); [ddlast] is then
    the last block of the chain. *)
Definition HInew_dd_block (file_rec : option Z) (ndds : Z) : M Z :=
  let* f := get_file file_rec in
  if ndds <=? 0 then ret FAIL
  else
    put_file file_rec
      (set_f_ddblocks (f_ddblocks f ++ [replicate (Z.to_nat ndds) free_dd]) f) ;;
    ret SUCCEED.

(** [file_rec->ddlast]. *)
Definition ddlast (file_rec : option Z) : M block_ptr :=
  let* f := get_file file_rec in
  let* k := deref (fun _ => file_rec) in
  ret (k, pred (length (f_ddblocks f))).

(** Modelled from the spec: [HIupdate_dd] is [update_dd] of §4.B, which
    writes the DD block back to disk.  The on-disk image of the DD
    chain is not part of this development, so nothing changes here. *)
Definition HIupdate_dd (file_rec : option Z) (blk : block_ptr) (i : nat) : M Z :=
  let* _ := get_file file_rec in
  ret SUCCEED.

(** Modelled from the spec: the hash index is a faithful mirror of the
    non-free DD slots (§3); it is read off the DD chain here, so
    [HIadd_hash_dd] and [HIdel_hash_dd] have nothing to update. *)
Definition HIadd_hash_dd (file_rec : option Z) (tag ref : Z) (blk : block_ptr) (i : nat)
  : M Z :=
  let* _ := get_file file_rec in
  ret SUCCEED.

Definition HIdel_hash_dd (file_rec : option Z) (tag ref : Z) : M Z :=
  let* _ := get_file file_rec in
  ret SUCCEED.

(** Modelled from the spec: [Hnewref] is [new_ref] of §4.B; it returns
    [max_ref + 1], incrementing it, and fails (with ref 0) at
    [0xFFFF]. *)
Definition Hnewref (file_id : Z) : M Z :=
  let* file_rec := FID2REC file_id in
  let* f := get_file file_rec in
  if f_maxref f <? 65535 then
    put_file file_rec (set_f_maxref (f_maxref f + 1) f) ;;
    ret (f_maxref f + 1)
  else ret 0.

(** Modelled from the spec: [Hgetelement] reads the whole payload of
    the regular element [(tag, ref)] (§6); the result is its length, or
    [FAIL]. *)
Definition Hgetelement (file_id : Z) (tag ref : Z) : M (Z * list Z) :=
  let* file_rec := FID2REC file_id in
  let* r := HIlookup_dd file_rec tag ref in
  match r with
  | None => ret (FAIL, [])
  | Some (blk, i) =>
      let* d := get_dd (blk, i) in
      let* s := HPseek file_rec (dd_offset d) in
      if s =? FAIL then ret (FAIL, [])
      else
        let* (r, buf) := HPread file_rec (dd_length d) in
        if r =? FAIL then ret (FAIL, []) else ret (dd_length d, buf)
  end.

(** Modelled from the spec: [Hdeldd] is [delete_dd] of §4.B; it marks
    the slot free. *)
Definition Hdeldd (file_id : Z) (tag ref : Z) : M Z :=
  let* file_rec := FID2REC file_id in
  let* r := HIlookup_dd file_rec tag ref in
  match r with
  | None => ret FAIL
  | Some (blk, i) => put_dd (blk, i) free_dd ;; ret SUCCEED
  end.

(** *** Calls through [info->minfo.model_funcs]

    [model_call access_rec f] is the call of the entry [f] of
    [info->minfo.model_funcs] on [access_rec], with
    [info = access_rec->special_info]: the entry of the table the record
    holds is entered; a call through a table that was never initialised
    is undefined. *)
Definition model_call {A : Type} (access_rec : nat)
    (entry : accrec_t -> compinfo_t -> L -> A * L) : M A :=
  let* ar := get_accrec access_rec in
  let* i := get_info (special_info ar) in
  match model_funcs (minfo i) with
  | mstdio_funcs =>
      fun st => let (r, l) := entry ar i (lower st) in Some (r, set_lower l st)
  | junk_model_funcs => undefined
  end.

(** [access_rec->used = FALSE]. *)
Definition release (access_rec : nat) : M unit :=
  let* ar := get_accrec access_rec in
  put_accrec access_rec (set_used false ar).

(** ** HCIinit_coder -- set the coder function pointers *)
Definition HCIinit_coder (info : option positive) (coder_type : Z) (c_info : comp_info)
  : M Z :=
  let* i := get_info info in
  let ci := cinfo i in
  if coder_type =? COMP_CODE_NONE then
    put_info info
      (set_cinfo (CoderInfo COMP_CODE_NONE cnone_funcs (nbit_info ci) (skphuff_info ci)) i) ;;
    ret SUCCEED
  else if coder_type =? COMP_CODE_RLE then
    put_info info
      (set_cinfo (CoderInfo COMP_CODE_RLE crle_funcs (nbit_info ci) (skphuff_info ci)) i) ;;
    ret SUCCEED
  else if coder_type =? COMP_CODE_NBIT then
    let size := DFKNTsize (nbit_nt c_info) in
    put_info info
      (set_cinfo
         (CoderInfo COMP_CODE_NBIT cnbit_funcs
            (NbitInfo (nbit_nt c_info) size (nbit_sign_ext c_info)
                      (nbit_fill_one c_info) (nbit_start_bit c_info)
                      (nbit_bit_len c_info))
            (skphuff_info ci)) i) ;;
    if size =? FAIL then HRETURN_ERROR DFE_BADNUMTYPE FAIL
    else ret SUCCEED
  else if coder_type =? COMP_CODE_SKPHUFF then
    put_info info
      (set_cinfo
         (CoderInfo COMP_CODE_SKPHUFF cskphuff_funcs (nbit_info ci)
            (SkphuffInfo (skphuff_skp_size c_info))) i) ;;
    ret SUCCEED
  else HRETURN_ERROR DFE_BADCODER FAIL.

(** ** HCIinit_model -- set the model function pointers *)
Definition HCIinit_model (info : option positive) (model_type : Z) : M Z :=
  let* i := get_info info in
  if model_type =? COMP_MODEL_STDIO then
    put_info info (set_minfo (ModelInfo COMP_MODEL_STDIO mstdio_funcs) i) ;;
    ret SUCCEED
  else HRETURN_ERROR DFE_BADMODEL FAIL.

(** The bytes [HCIwrite_header] assembles in [local_ptbuf]. *)
Definition header_bytes (i : compinfo_t) : list Z :=
  let p := INT16ENCODE [] SPECIAL_COMP in
  let p := UINT16ENCODE p COMP_HEADER_VERSION in
  let p := INT32ENCODE p (ci_length i) in
  let p := UINT16ENCODE p (to_uint16 (comp_ref i)) in
  let p := UINT16ENCODE p (to_uint16 (model_type (minfo i))) in
  let p := UINT16ENCODE p (to_uint16 (coder_type (cinfo i))) in
  if coder_type (cinfo i) =? COMP_CODE_NBIT then
    let n := nbit_info (cinfo i) in
    let p := INT32ENCODE p (nt n) in
    let p := UINT16ENCODE p (to_uint16 (sign_ext n)) in
    let p := UINT16ENCODE p (to_uint16 (fill_one n)) in
    let p := INT32ENCODE p (to_int32 (mask_off n)) in
    let p := INT32ENCODE p (to_int32 (mask_len n)) in
    p
  else if coder_type (cinfo i) =? COMP_CODE_SKPHUFF then
    let k := skip_size (skphuff_info (cinfo i)) in
    let p := UINT32ENCODE p (to_uint32 k) in
    let p := UINT32ENCODE p (to_uint32 k) in
    p
  else p.

(** ** HCIwrite_header -- write the compression header info to a file *)
Definition HCIwrite_header (file_rec : option Z) (access_rec : nat)
    (info : option positive) (dd : dd_ptr) (special_tag ref : Z) : M Z :=
  let* i := get_info info in
  let local_ptbuf := header_bytes i in
  let len := Z.of_nat (length local_ptbuf) in
  let* d := get_dd dd in
  put_dd dd (DD special_tag ref (dd_offset d) len) ;;
  let* off := HPgetdiskblock file_rec len true in
  put_dd dd (DD special_tag ref off len) ;;
  if off =? FAIL then
    release access_rec ;; HRETURN_ERROR DFE_INTERNAL FAIL
  else
    let* w := HPwrite file_rec local_ptbuf len in
    if w =? FAIL then
      release access_rec ;; HRETURN_ERROR DFE_WRITEERROR FAIL
    else
      let* ar := get_accrec access_rec in
      let* u := HIupdate_dd file_rec (block ar) (idx ar) in
      if u =? FAIL then
        release access_rec ;; HRETURN_ERROR DFE_CANTUPDATE FAIL
      else
        let* h := HIadd_hash_dd file_rec special_tag ref (block ar) (idx ar) in
        if h =? FAIL then
          release access_rec ;; HRETURN_ERROR DFE_CANTHASH FAIL
        else ret SUCCEED.

(** ** HCIread_header -- read the compression header info from a file

    The result is the return value together with [*c_info]. *)
Definition HCIread_header (file_rec : option Z) (access_rec : nat)
    (info : option positive) (info_dd : dd_ptr) (c_info : comp_info)
  : M (Z * comp_info) :=
  let* d := get_dd info_dd in
  let* s := HPseek file_rec (to_int32 (dd_offset d + 2)) in
  if s =? FAIL then HRETURN_ERROR DFE_SEEKERROR (FAIL, c_info)
  else
    let* (r, local_ptbuf) := HPread file_rec (COMP_HEADER_LENGTH - 2) in
    if r =? FAIL then HRETURN_ERROR DFE_READERROR (FAIL, c_info)
    else
      let p := local_ptbuf in
      let (header_version, p) := UINT16DECODE p in
      let (len, p) := INT32DECODE p in
      let (cref, p) := UINT16DECODE p in
      let (mtype, p) := UINT16DECODE p in
      let (ctype, p) := UINT16DECODE p in
      let* i := get_info info in
      put_info info
        (CompInfo (attached i) len cref
           (ModelInfo mtype (model_funcs (minfo i)))
           (CoderInfo ctype (coder_funcs (cinfo i)) (nbit_info (cinfo i))
                      (skphuff_info (cinfo i)))) ;;
      if ctype =? COMP_CODE_NBIT then
        let* (r, p) := HPread file_rec 16 in
        if r =? FAIL then HRETURN_ERROR DFE_READERROR (FAIL, c_info)
        else
          let (c_nt, p) := INT32DECODE p in
          let (s_ext, p) := UINT16DECODE p in
          let (f_one, p) := UINT16DECODE p in
          let (m_off, p) := INT32DECODE p in
          let (m_len, p) := INT32DECODE p in
          ret (SUCCEED,
               CInfo c_nt s_ext f_one m_off m_len (skphuff_skp_size c_info))
      else if ctype =? COMP_CODE_SKPHUFF then
        let* (r, p) := HPread file_rec 8 in
        if r =? FAIL then HRETURN_ERROR DFE_READERROR (FAIL, c_info)
        else
          let (skp_size, p) := UINT32DECODE p in
          let (comp_size, p) := UINT32DECODE p in
          ret (SUCCEED,
               CInfo (nbit_nt c_info) (nbit_sign_ext c_info) (nbit_fill_one c_info)
                     (nbit_start_bit c_info) (nbit_bit_len c_info)
                     (to_int32 skp_size))
      else ret (SUCCEED, c_info).

(** ** HCPseek -- seek to offset within the data element *)
Definition HCPseek (access_rec : nat) (offset : Z) (origin : Z) : M Z :=
  let* ar := get_accrec access_rec in
  let offset := if origin =? DF_CURRENT then to_int32 (offset + posn ar) else offset in
  let* offset :=
    if origin =? DF_END then
      let* i := get_info (special_info ar) in
      ret (to_int32 (offset + ci_length i))
    else ret offset in
  if offset <? 0 then HRETURN_ERROR DFE_RANGE FAIL
  else
    let* r := model_call access_rec (fun a i => mstdio_seek a i offset origin) in
    if r =? FAIL then HRETURN_ERROR DFE_MODEL FAIL
    else
      let* ar := get_accrec access_rec in
      put_accrec access_rec (set_posn offset ar) ;;
      ret r.

(** ** HCPread -- read in a portion of data from a compressed data element

    The result is the return value together with the bytes left in
    [data]. *)
Definition HCPread (access_rec : nat) (length : Z) (data : list Z) : M (Z * list Z) :=
  if length <? 0 then HRETURN_ERROR DFE_RANGE (FAIL, data)
  else
    let* ar := get_accrec access_rec in
    let info := special_info ar in
    let read_on (length : Z) : M (Z * list Z) :=
      let* (r, data) := model_call access_rec (fun a i => mstdio_read a i length) in
      if r =? FAIL then HRETURN_ERROR DFE_MODEL (FAIL, data)
      else
        let* ar := get_accrec access_rec in
        put_accrec access_rec (set_posn (to_int32 (posn ar + length)) ar) ;;
        ret (length, data) in
    let* i := get_info info in
    if length =? 0 then read_on (to_int32 (ci_length i - posn ar))
    else if (length <? 0) || (to_int32 (posn ar + length) >? ci_length i)
    then HRETURN_ERROR DFE_RANGE (FAIL, data)
    else read_on length.

(** ** HCPwrite -- write out a portion of data to a compressed data element *)
Definition HCPwrite (access_rec : nat) (length : Z) (data : list Z) : M Z :=
  let* ar := get_accrec access_rec in
  let info_dd : dd_ptr := (block ar, idx ar) in
  let* file_rec := FID2REC (file_id ar) in
  if length <? 0 then HRETURN_ERROR DFE_RANGE FAIL
  else
    let info := special_info ar in
    let* r := model_call access_rec (fun a i => mstdio_write a i length data) in
    if r =? FAIL then HRETURN_ERROR DFE_MODEL FAIL
    else
      let* ar := get_accrec access_rec in
      let ar := set_posn (to_int32 (posn ar + length)) ar in
      put_accrec access_rec ar ;;
      let* i := get_info info in
      if posn ar >? ci_length i then
        put_info info (set_ci_length (posn ar) i) ;;
        let local_ptbuf := INT32ENCODE [] (posn ar) in
        let* d := get_dd info_dd in
        let* s := HPseek file_rec (to_int32 (dd_offset d + 4)) in
        if s =? FAIL then HRETURN_ERROR DFE_SEEKERROR FAIL
        else
          let* w := HPwrite file_rec local_ptbuf 4 in
          if w =? FAIL then HRETURN_ERROR DFE_WRITEERROR FAIL
          else ret length
      else ret length.

(** ** HCIstaccess -- start accessing a compressed data element *)
Definition HCIstaccess (access_rec : nat) (acc_mode : Z) : M Z :=
  let* ar := get_accrec access_rec in
  let* file_rec := FID2REC (file_id ar) in
  let* bad := BADFREC file_rec in
  if bad then HRETURN_ERROR DFE_ARGS FAIL
  else
    let* f := get_file file_rec in
    if Z.land (f_access f) acc_mode =? 0 then HRETURN_ERROR DFE_ARGS FAIL
    else
      let ar := set_access (Z.lor acc_mode DFACC_READ)
                  (set_posn 0 (set_special SPECIAL_COMP ar)) in
      put_accrec access_rec ar ;;
      let info_dd : dd_ptr := (block ar, idx ar) in
      let* info := HDmalloc in
      put_accrec access_rec (set_special_info info ar) ;;
      match info with
      | None => HRETURN_ERROR DFE_NOSPACE FAIL
      | Some _ =>
          let* c_info := gets junk_comp_info in
          let* (r, c_info) :=
            HCIread_header file_rec access_rec info info_dd c_info in
          if r =? FAIL then
            HDfree info ;; HRETURN_ERROR DFE_COMPINFO FAIL
          else
            let* i := get_info info in
            put_info info (set_attached 1 i) ;;
            let* m := HCIinit_model info (model_type (minfo i)) in
            if m =? FAIL then
              HDfree info ;; HRETURN_ERROR DFE_MINIT FAIL
            else
              let* c := HCIinit_coder info (coder_type (cinfo i)) c_info in
              if c =? FAIL then
                HDfree info ;; HRETURN_ERROR DFE_CINIT FAIL
              else
                let* f := get_file file_rec in
                put_file file_rec (set_f_attach (to_int32 (f_attach f + 1)) f) ;;
                ret (ASLOT2ID (Z.of_nat access_rec))
      end.

(** ** HCPstread -- start read access on a compressed data element *)
Definition HCPstread (access_rec : nat) : M Z :=
  let* aid := HCIstaccess access_rec DFACC_READ in
  if aid =? FAIL then
    release access_rec ;; HRETURN_ERROR DFE_DENIED FAIL
  else
    let* r := model_call access_rec mstdio_stread in
    if r =? FAIL then
      release access_rec ;; HRETURN_ERROR DFE_MODEL FAIL
    else ret aid.

(** ** HCPstwrite -- start write access on a compressed data element *)
Definition HCPstwrite (access_rec : nat) : M Z :=
  let* aid := HCIstaccess access_rec DFACC_WRITE in
  if aid =? FAIL then
    release access_rec ;; HRETURN_ERROR DFE_DENIED FAIL
  else
    let* r := model_call access_rec mstdio_stwrite in
    if r =? FAIL then
      release access_rec ;; HRETURN_ERROR DFE_MODEL FAIL
    else ret aid.

(** ** HCPinquire -- inquire information about the access record and
    data element; all eight outputs are requested.  [paccess] and
    [pspecial] point to [int16] objects: the access mode is stored as
    [(int16) access_rec->access], and the special code is converted to
    [int16] by the assignment. *)
Definition HCPinquire (access_rec : nat)
  : M (Z * (Z * Z * Z * Z * Z * Z * Z * Z)) :=
  let* ar := get_accrec access_rec in
  let* info_dd := get_dd (block ar, idx ar) in
  let* i := get_info (special_info ar) in
  ret (SUCCEED,
       (file_id ar, dd_tag info_dd, dd_ref info_dd, ci_length i,
        dd_offset info_dd, posn ar, to_int16 (access ar), to_int16 (special ar))).

(** ** HCPcloseAID -- get rid of the compressed data element data
    structures *)
Definition HCPcloseAID (access_rec : nat) : M Z :=
  let* ar := get_accrec access_rec in
  let info := special_info ar in
  let* r := model_call access_rec mstdio_endaccess in
  if r =? FAIL then HRETURN_ERROR DFE_MODEL FAIL
  else
    let* i := get_info info in
    let i := set_attached (to_int32 (attached i - 1)) i in
    put_info info i ;;
    (if attached i =? 0 then HDfree info else ret tt) ;;
    ret SUCCEED.

(** ** HCPendaccess -- close the compressed data element and free the AID *)
Definition HCPendaccess (access_rec : nat) : M Z :=
  let* ar := get_accrec access_rec in
  let* file_rec := FID2REC (file_id ar) in
  let* bad := BADFREC file_rec in
  if bad then HRETURN_ERROR DFE_INTERNAL FAIL
  else
    let* _ := HCPcloseAID access_rec in
    let* f := get_file file_rec in
    put_file file_rec (set_f_attach (to_int32 (f_attach f - 1)) f) ;;
    release access_rec ;;
    ret SUCCEED.

(** ** HCcreate -- create a compressed data element *)
Definition HCcreate (file_id : Z) (tag ref : Z) (model_type : Z)
    (coder_type : Z) (c_info : comp_info) : M Z :=
  HEclear ;;
  let* file_rec := FID2REC file_id in
  let* bad := BADFREC file_rec in
  let special_tag := MKSPECIALTAG tag in
  if bad || SPECIALTAG tag || (special_tag =? DFTAG_NULL)
  then HRETURN_ERROR DFE_ARGS FAIL
  else
  let* f := get_file file_rec in
  if Z.land (f_access f) DFACC_WRITE =? 0 then HRETURN_ERROR DFE_DENIED FAIL
  else
  let* slot := HIget_access_slot in
  if slot =? FAIL then HRETURN_ERROR DFE_TOOMANY FAIL
  else
  let access_rec := Z.to_nat slot in
  (* look for existing data element of the same tag/ref *)
  let? data_dd :=
    let* r := HIlookup_dd file_rec tag ref in
    match r with
    | Some data_dd =>
        let* d := get_dd data_dd in
        if SPECIALTAG (dd_tag d) then
          release access_rec ;; HERROR DFE_CANTMOD ;; Return FAIL
        else Continue (Some data_dd)
    | None => Continue None
    end in
  (* look for empty dd to use *)
  let? _ :=
    let* r := HIlookup_dd file_rec DFTAG_NULL DFREF_WILDCARD in
    match r with
    | None =>
        let* n := HInew_dd_block file_rec (f_ndds f) in
        if n =? FAIL then
          release access_rec ;; HERROR DFE_NOFREEDD ;; Return FAIL
        else
          let* last := ddlast file_rec in
          let* ar := get_accrec access_rec in
          put_accrec access_rec (set_block_idx last 0 ar) ;;
          Continue tt
    | Some (blk, i) =>
        let* f := get_file file_rec in
        put_file file_rec (set_f_null blk i f) ;;
        let* ar := get_accrec access_rec in
        put_accrec access_rec (set_block_idx blk i ar) ;;
        Continue tt
    end in
  let* ar := get_accrec access_rec in
  let dd : dd_ptr := (block ar, idx ar) in
  (* set up the special element information and write it to file *)
  let* info := HDmalloc in
  put_accrec access_rec (set_special_info info ar) ;;
  match info with
  | None => release access_rec ;; HRETURN_ERROR DFE_NOSPACE FAIL
  | Some _ =>
  let* len :=
    match data_dd with
    | Some p => let* d := get_dd p in ret (dd_length d)
    | None => ret COMP_START_BLOCK
    end in
  let* i := get_info info in
  put_info info (set_ci_length len i) ;;
  let* i := get_info info in
  put_info info (set_attached 1 i) ;;
  let* new_ref := Hnewref file_id in
  let* i := get_info info in
  put_info info (set_comp_ref (to_uint16 new_ref) i) ;;
  let* _ := HCIinit_model info model_type in
  let* _ := HCIinit_coder info coder_type c_info in
  let* w := HCIwrite_header file_rec access_rec info dd special_tag ref in
  if w =? FAIL then
    release access_rec ;; HRETURN_ERROR DFE_WRITEERROR FAIL
  else
  (* update access record and file record *)
  let* ar := get_accrec access_rec in
  put_accrec access_rec
    (set_flush false
       (set_appendable false
          (set_file_id file_id
             (set_access DFACC_RDWR
                (set_posn 0
                   (set_special SPECIAL_COMP
                      (set_special_func (Some comp_funcs) ar))))))) ;;
  let* f := get_file file_rec in
  let f := set_f_attach (to_int32 (f_attach f + 1)) f in
  put_file file_rec (if ref >? f_maxref f then set_f_maxref ref f else f) ;;
  (* propagate the initialization down to the modeling layer *)
  let* r := model_call access_rec mstdio_stwrite in
  if r =? FAIL then
    release access_rec ;; HRETURN_ERROR DFE_MODEL FAIL
  else
  (* compress the old DD and get rid of it, if there was one *)
  let? _ :=
    match data_dd with
    | Some data_dd =>
        let* d := get_dd data_dd in
        let* buf := HDmalloc_bytes (to_uint32 (dd_length d)) in
        if negb buf then
          release access_rec ;; HDfree info ;;
          HERROR DFE_NOSPACE ;; Return FAIL
        else
        let* d := get_dd data_dd in
        let* (g, buf) := Hgetelement file_id (dd_tag d) (dd_ref d) in
        if g =? FAIL then
          release access_rec ;; HDfree info ;; HDfree_bytes ;;
          HERROR DFE_READERROR ;; Return FAIL
        else
        let* d := get_dd data_dd in
        let* w := HCPwrite access_rec (dd_length d) buf in
        if w =? FAIL then
          release access_rec ;; HDfree info ;; HDfree_bytes ;;
          HERROR DFE_MODEL ;; Return FAIL
        else
        HDfree_bytes ;;
        let* s := HCPseek access_rec 0 DF_START in
        if s =? FAIL then
          release access_rec ;; HDfree info ;;
          HERROR DFE_MODEL ;; Return FAIL
        else
        let* d := get_dd data_dd in
        let* x := Hdeldd file_id (dd_tag d) (dd_ref d) in
        if x =? FAIL then
          release access_rec ;; HDfree info ;;
          HERROR DFE_CANTDELDD ;; Return FAIL
        else
        let* d := get_dd data_dd in
        let* y := HIdel_hash_dd file_rec (dd_tag d) (dd_ref d) in
        if y =? FAIL then
          release access_rec ;; HDfree info ;;
          HERROR DFE_CANTDELHASH ;; Return FAIL
        else Continue tt
    | None => Continue tt
    end in
  ret (ASLOT2ID slot)
  end.

End Embedding.

(** ** Instances for running the embedding

    The header parameters with the values HDF 4 releases give them. *)
Definition hdf4_SPECIALTAG (t : Z) : bool :=
  negb (Z.testbit t 15) && Z.testbit t 14.

Definition hdf4_MKSPECIALTAG (t : Z) : Z :=
  if Z.testbit t 15 then 1 else Z.lor t 16384.

Definition hdf4_ASLOT2ID (s : Z) : Z :=
  Z.lor (Z.shiftl 2 16) (Z.land s 65535).

Definition hdf4_DFKNTsize (number_type : Z) : Z :=
  if (number_type =? 3) || (number_type =? 4)
     || (number_type =? 20) || (number_type =? 21) then 1
  else if (number_type =? 22) || (number_type =? 23) then 2
  else if (number_type =? 5) || (number_type =? 24) || (number_type =? 25) then 4
  else if number_type =? 6 then 8
  else -1.

Definition hdf4_h : hdf_h.
Proof.
  refine {| FAIL := -1; SUCCEED := 0;
            DF_START := 0; DF_CURRENT := 1; DF_END := 2;
            DFACC_READ := 1; DFACC_WRITE := 2; DFACC_RDWR := 3;
            DFTAG_NULL := 1; DFTAG_WILDCARD := 0; DFREF_WILDCARD := 0;
            SPECIAL_COMP := 3;
            COMP_MODEL_STDIO := 0;
            COMP_CODE_NONE := 0; COMP_CODE_RLE := 1;
            COMP_CODE_NBIT := 2; COMP_CODE_SKPHUFF := 3;
            SPECIALTAG := hdf4_SPECIALTAG;
            MKSPECIALTAG := hdf4_MKSPECIALTAG;
            ASLOT2ID := hdf4_ASLOT2ID;
            DFKNTsize := hdf4_DFKNTsize |};
    unfold is_uint16; lia.
Defined.

(** A modelling layer that keeps the uncompressed bytes in a buffer:
    the stdio model over a coder that stores what it is given.  Reads
    and writes happen at the model position; every entry succeeds. *)
Record buffer_model := BufferModel {
  bm_pos : Z;
  bm_data : list Z
}.

Definition buffer_layer : model_layer buffer_model :=
  {| mstdio_stread := fun _ _ l => (0, BufferModel 0 (bm_data l));
     mstdio_stwrite := fun _ _ l => (0, BufferModel 0 (bm_data l));
     mstdio_seek := fun _ _ offset _ l => (0, BufferModel offset (bm_data l));
     mstdio_read := fun _ _ len l =>
       ((0, take (Z.to_nat len) (drop (Z.to_nat (bm_pos l)) (bm_data l))),
        BufferModel (bm_pos l + len) (bm_data l));
     mstdio_write := fun _ _ len data l =>
       (0, BufferModel (bm_pos l + len)
             (write_at (bm_data l) (Z.to_nat (bm_pos l)) (take (Z.to_nat len) data)));
     mstdio_endaccess := fun _ _ l => (0, l) |}.

(** ** Vocabulary of the properties *)

Section Vocabulary.

Context `{Hh : hdf_h} {L : Type}.

(** The access record [access_rec] of [st] is [ar], attached to the
    special information [i] stored at [p], whose model table was
    initialised. *)
Definition attached_to (st : hdf_state L) (access_rec : nat) (ar : accrec_t)
    (p : positive) (i : compinfo_t) : Prop :=
  access_records st !! access_rec = Some ar
  /\ special_info ar = Some p
  /\ heap st !! p = Some i
  /\ model_funcs (minfo i) = mstdio_funcs.

(** [st] with [access_rec->posn = v]. *)
Definition with_posn (access_rec : nat) (v : Z) (st : hdf_state L) : hdf_state L :=
  match access_records st !! access_rec with
  | Some ar => set_access_records (<[access_rec := set_posn v ar]> (access_records st)) st
  | None => st
  end.

(** [st] with [e] pushed on the error stack. *)
Definition with_error (e : hdf_err) (st : hdf_state L) : hdf_state L :=
  set_errstack (e :: errstack st) st.

(** The position the specification resolves a seek to. *)
Definition seek_target (origin offset position len : Z) : Z :=
  if origin =? DF_START then offset
  else if origin =? DF_CURRENT then position + offset
  else len + offset.

(** [access_rec->posn] in a state. *)
Definition posn_of (st : hdf_state L) (access_rec : nat) : option Z :=
  posn <$> access_records st !! access_rec.

(** [info->length] of the record at [p]. *)
Definition length_of (st : hdf_state L) (p : positive) : option Z :=
  ci_length <$> heap st !! p.

(** The [n] bytes of the file [k] at offset [off]. *)
Definition file_region (st : hdf_state L) (k : Z) (off n : Z) : option (list Z) :=
  (fun f => take (Z.to_nat n) (drop (Z.to_nat off) (f_bytes f))) <$> files st !! k.

(** The state after the update of the length field: [info->length] is
    [v], and in file [k] the big-endian bytes of [v] are stored at
    [off + 4], where the file pointer has moved past them. *)
Definition with_length (p : positive) (k : Z) (off : Z) (v : Z) (st : hdf_state L)
  : hdf_state L :=
  match heap st !! p, files st !! k with
  | Some i, Some f =>
      set_files
        (<[k := set_f_pos (off + 4 + 4)
                  (set_f_bytes (write_at (f_bytes f) (Z.to_nat (off + 4))
                                         (INT32ENCODE [] v))
                     (set_f_pos (off + 4) f))]> (files st))
        (set_heap (<[p := set_ci_length v i]> (heap st)) (heap_avail st) st)
  | _, _ => st
  end.


(** The file record after [HCIwrite_header] has stored the header of
    [i] for the DD at index [j] of block [b]. *)
Definition file_with_header (f : filerec_t) (b j : nat) (blk : list dd_t)
    (special_tag ref : Z) (i : compinfo_t) : filerec_t :=
  let off := Z.of_nat (length (f_bytes f)) in
  let len := Z.of_nat (length (header_bytes i)) in
  FileRec (f_refcount f) (f_access f) (f_attach f) (f_maxref f) (f_ndds f)
          (<[b := <[j := DD special_tag ref off len]> blk]> (f_ddblocks f))
          (f_null_block f) (f_null_idx f) (off + len)
          (f_bytes f ++ header_bytes i).

(** The common part of a header: the special code and the five fields
    that follow it. *)
Definition common_header (code ver len cref mtype ctype : Z) : list Z :=
  [byte_of code 1; byte_of code 0; byte_of ver 1; byte_of ver 0;
   byte_of len 3; byte_of len 2; byte_of len 1; byte_of len 0;
   byte_of cref 1; byte_of cref 0; byte_of mtype 1; byte_of mtype 0;
   byte_of ctype 1; byte_of ctype 0].

(** The special information [HCIread_header] leaves in [*info] after
    the common part of the header. *)
Definition info_read (iq : compinfo_t) (len cref mtype ctype : Z) : compinfo_t :=
  CompInfo (attached iq) (to_int32 len) (to_uint16 cref)
           (ModelInfo (to_uint16 mtype) (model_funcs (minfo iq)))
           (CoderInfo (to_uint16 ctype) (coder_funcs (cinfo iq))
                      (nbit_info (cinfo iq)) (skphuff_info (cinfo iq))).

(** What a routine that works on the special information at [p] may
    change: the access records stay, the other heap records stay, and
    the attach count of the record at [p] stays. *)
Definition info_frame (p : positive) (st st' : hdf_state L) : Prop :=
  access_records st' = access_records st
  /\ (forall q, q <> p -> heap st' !! q = heap st !! q)
  /\ attached <$> heap st' !! p = attached <$> heap st !! p.

End Vocabulary.

(** ** Sample states

    A file with one compressed element: four bytes of another element,
    then the header of [sample_info]; an access record attached to the
    element at position 2 of its 5 bytes, and a free access record. *)
Definition sample_info : compinfo_t :=
  CompInfo 1 5 2 (ModelInfo 0 mstdio_funcs)
           (CoderInfo 1 crle_funcs (NbitInfo 0 0 0 0 0 0) (SkphuffInfo 0)).

Definition sample_file : filerec_t :=
  FileRec 1 3 1 2 16 [[DD 17104 1 4 14; DD 1 0 0 0; DD 1 0 0 0]] (7, 0%nat) 1 0
          [170; 170; 170; 170; 0; 3; 0; 0; 0; 0; 0; 5; 0; 2; 0; 0; 0; 1].

Definition sample_accrec : accrec_t :=
  AccRec true 7 (7, 0%nat) 0 2 3 3 (Some 1%positive) (Some comp_funcs) false false.

Definition blank_accrec : accrec_t :=
  AccRec false 0 (0, 0%nat) 0 0 0 0 None None false false.

Definition sample_junk : compinfo_t :=
  CompInfo 77 88 99 (ModelInfo 55 junk_model_funcs)
           (CoderInfo 66 junk_coder_funcs (NbitInfo 1 2 3 4 5 6) (SkphuffInfo 7)).

Definition sample_state : hdf_state buffer_model :=
  HdfState [] {[ 7 := sample_file ]} [sample_accrec; blank_accrec]
           {[ 1%positive := sample_info ]} 4 sample_junk (CInfo 0 0 0 0 0 0)
           (BufferModel 2 [10; 20; 30; 40; 50]).

(** The same file before any attach: two access records that the H
    layer has bound to the DD of the element, and an empty heap. *)
Definition bound_accrec : accrec_t :=
  AccRec true 7 (7, 0%nat) 0 0 0 0 None None false false.

Definition unattached_state : hdf_state buffer_model :=
  HdfState [] {[ 7 := sample_file ]} [bound_accrec; bound_accrec]
           ∅ 4 sample_junk (CInfo 0 0 0 0 0 0)
           (BufferModel 0 [10; 20; 30; 40; 50]).

(** A file whose compressed element names the coder 99 in its header. *)
Definition bad_coder_file : filerec_t :=
  FileRec 1 3 0 2 16 [[DD 17104 1 0 14]] (7, 0%nat) 0 0
          [0; 3; 0; 0; 0; 0; 0; 5; 0; 2; 0; 0; 0; 99].

Definition bad_coder_state : hdf_state buffer_model :=
  HdfState [] {[ 7 := bad_coder_file ]} [bound_accrec]
           ∅ 4 sample_junk (CInfo 0 0 0 0 0 0) (BufferModel 0 []).



Definition header_state (i : compinfo_t) : hdf_state buffer_model :=
  HdfState [] {[ 7 := sample_file ]} [sample_accrec; blank_accrec]
           {[ 1%positive := i ]} 4 sample_junk (CInfo 0 0 0 0 0 0)
           (BufferModel 0 []).

(** The sample file opened read-only. *)
Definition read_only_file : filerec_t :=
  FileRec 1 1 1 2 16 (f_ddblocks sample_file) (7, 0%nat) 1 0 (f_bytes sample_file).

Definition read_only_state : hdf_state buffer_model :=
  set_files {[ 7 := read_only_file ]} sample_state.

(** The value a run returns and what is observed in the state it
    leaves. *)
Definition returned {A : Type} (run : option (A * hdf_state buffer_model)) : option A :=
  fst <$> run.

Definition final {A : Type} (run : option (A * hdf_state buffer_model))
  : hdf_state buffer_model :=
  default sample_state (snd <$> run).

Definition observed {A B : Type} (f : hdf_state buffer_model -> B)
    (run : option (A * hdf_state buffer_model)) : option B :=
  (fun r => f (snd r)) <$> run.

(** A modelling layer whose every entry fails, and the sample state
    over it. *)
Definition failing_layer : model_layer unit :=
  {| mstdio_stread := fun _ _ l => (@FAIL hdf4_h, l);
     mstdio_stwrite := fun _ _ l => (@FAIL hdf4_h, l);
     mstdio_seek := fun _ _ _ _ l => (@FAIL hdf4_h, l);
     mstdio_read := fun _ _ _ l => ((@FAIL hdf4_h, []), l);
     mstdio_write := fun _ _ _ _ l => (@FAIL hdf4_h, l);
     mstdio_endaccess := fun _ _ l => (@FAIL hdf4_h, l) |}.

Definition failing_state : hdf_state unit :=
  HdfState [] {[ 7 := sample_file ]} [sample_accrec; blank_accrec]
           {[ 1%positive := sample_info ]} 4 sample_junk (CInfo 0 0 0 0 0 0) tt.

Definition failing_unattached_state : hdf_state unit :=
  HdfState [] {[ 7 := sample_file ]} [bound_accrec; bound_accrec]
           ∅ 4 sample_junk (CInfo 0 0 0 0 0 0) tt.

(** The sample state with its file opened read-only. *)
Definition read_only_attached_state : hdf_state buffer_model :=
  HdfState [] {[ 7 := read_only_file ]} [sample_accrec; blank_accrec]
           {[ 1%positive := sample_info ]} 4 sample_junk (CInfo 0 0 0 0 0 0)
           (BufferModel 2 [10; 20; 30; 40; 50]).

(** The sample state with every access record in use. *)
Definition full_state : hdf_state buffer_model :=
  HdfState [] {[ 7 := sample_file ]} [sample_accrec; bound_accrec]
           {[ 1%positive := sample_info ]} 4 sample_junk (CInfo 0 0 0 0 0 0)
           (BufferModel 2 [10; 20; 30; 40; 50]).

Section Vocabulary2.

Context `{Hh : hdf_h} {L : Type}.

(** What reading a header and initialising the special information
    leave alone outside of the heap records: the heap budget, the state
    below the modelling layer, the files other than [k], and the file
    [k] apart from its file pointer. *)
Definition store_frame (k : Z) (st st' : hdf_state L) : Prop :=
  heap_avail st' = heap_avail st
  /\ lower st' = lower st
  /\ (forall k', k' <> k -> files st' !! k' = files st !! k')
  /\ set_f_pos 0 <$> files st' !! k = set_f_pos 0 <$> files st !! k.

(** What a routine that works on the special information at [p] leaves
    alone in any case: the access records and the other heap records. *)
Definition others_frame (p : positive) (st st' : hdf_state L) : Prop :=
  access_records st' = access_records st
  /\ forall q, q <> p -> heap st' !! q = heap st !! q.

End Vocabulary2.

(** The sample file opened read-only, with an access record bound to
    its element. *)
Definition read_only_unattached_state : hdf_state buffer_model :=
  HdfState [] {[ 7 := read_only_file ]} [bound_accrec; bound_accrec]
           ∅ 4 sample_junk (CInfo 0 0 0 0 0 0) (BufferModel 0 []).

(** The state before an attach, with no memory left. *)
Definition no_memory_state : hdf_state buffer_model :=
  HdfState [] {[ 7 := sample_file ]} [bound_accrec; bound_accrec]
           ∅ 0 sample_junk (CInfo 0 0 0 0 0 0) (BufferModel 0 []).

End HComp.

(** * Properties

    ** Wrap-around on values in range *)

Lemma to_int32_id z : is_int32 z -> to_int32 z = z.
Proof.
  unfold is_int32, to_int32. intros Hz.
  rewrite Z.mod_small; lia.
Qed.

Lemma to_uint32_id z : is_uint32 z -> to_uint32 z = z.
Proof. unfold is_uint32, to_uint32. intros Hz. apply Z.mod_small. lia. Qed.

Lemma to_uint16_id z : is_uint16 z -> to_uint16 z = z.
Proof. unfold is_uint16, to_uint16. intros Hz. apply Z.mod_small. lia. Qed.

Lemma to_int32_to_uint32 z : is_int32 z -> to_int32 (to_uint32 z) = z.
Proof.
  unfold is_int32, to_int32, to_uint32. intros Hz.
  rewrite Zplus_mod_idemp_l. rewrite Z.mod_small; lia.
Qed.

(** ** HDmemfill *)

Module HDFallocFacts.

Import HDFalloc.





(** Reading inside the prefix, or inside the suffix, of a split memory
    does not depend on the middle part. *)
Lemma region_outside (A X X' B : list Z) s n :
  length X = length X' ->
  0 <= s -> 0 <= n ->
  (s + n <= Z.of_nat (length A) \/ Z.of_nat (length A + length X) <= s) ->
  region (A ++ X ++ B) s n = region (A ++ X' ++ B) s n.
Proof.
  intros Hlen Hs Hn [Hin|Hout]; unfold region.
  - rewrite !drop_app_le by lia.
    rewrite !take_app_le; [done| |]; rewrite length_drop; lia.
  - rewrite !app_assoc.
    rewrite !drop_app_ge by (rewrite length_app; lia).
    by rewrite !length_app, Hlen.
Qed.













Lemma copied_length (mem : list Z) d s k :
  (d + k <= length mem)%nat -> (k <= length s)%nat ->
  length (copied mem d s k) = length mem.
Proof.
  intros Hd Hk. unfold copied.
  rewrite !length_app, !length_take, length_drop. lia.
Qed.

Lemma copied_lookup_outside (mem : list Z) d s k a :
  (d + k <= length mem)%nat -> (k <= length s)%nat ->
  (a < d \/ d + k <= a)%nat ->
  copied mem d s k !! a = mem !! a.
Proof.
  intros Hd Hk Ha. unfold copied. destruct Ha as [Ha|Ha].
  - rewrite lookup_app_l by (rewrite length_take; lia).
    by rewrite lookup_take_lt.
  - rewrite lookup_app_r by (rewrite length_take; lia).
    rewrite lookup_app_r by (rewrite !length_take; lia).
    rewrite lookup_drop, !length_take. f_equal. lia.
Qed.

Lemma copied_store (mem : list Z) d s k c :
  (d + k < length mem)%nat -> s !! k = Some c ->
  <[(d + k)%nat := c]> (copied mem d s k) = copied mem d s (S k).
Proof.
  intros Hd Hc. unfold copied.
  assert (Hk : (k < length s)%nat) by (by eapply lookup_lt_Some).
  rewrite insert_app_r_alt by (rewrite length_take; lia).
  rewrite insert_app_r_alt by (rewrite !length_take; lia).
  rewrite !length_take.
  replace (d + k - d `min` length mem - k `min` length s)%nat with 0%nat by lia.
  destruct (lookup_lt_is_Some_2 mem (d + k)%nat) as [x Hx]; [lia|].
  rewrite (drop_S _ _ _ Hx). cbn [insert list_insert].
  rewrite (take_S_r _ _ _ Hc), <- !app_assoc. cbn.
  by replace (d + S k)%nat with (S (d + k)) by lia.
Qed.

Section Strncpy.

Variables (mem : list Z) (dest source len : Z) (s rest : list Z).

Hypothesis Hlen : is_int32 len.
Hypothesis Hsource : 0 <= source.
Hypothesis Hdest : 0 <= dest.
Hypothesis Hstring : drop (Z.to_nat source) mem = s ++ 0 :: rest.
Hypothesis Hnonzero : Forall (fun c => c <> 0) s.

Variable n : nat.
Hypothesis Hn : n = Z.to_nat (Z.min (len - 1) (Z.of_nat (length s))).

Hypothesis Hroom : dest + Z.of_nat n + 1 <= Z.of_nat (length mem).
Hypothesis Hoverlap : dest <= source \/ source + Z.of_nat n < dest.

Lemma load_copied k :
  (k <= n)%nat ->
  load (copied mem (Z.to_nat dest) s k) (source + Z.of_nat k) = (s ++ 0 :: rest) !! k.
Proof using Hsource Hdest Hstring Hn Hroom Hoverlap.
  intros Hk. unfold load.
  destruct (Z.ltb_spec (source + Z.of_nat k) 0); [lia|].
  assert (n <= length s)%nat by lia.
  rewrite copied_lookup_outside by lia.
  rewrite <- Hstring, lookup_drop. f_equal. lia.
Qed.

Lemma strncpy_loop_run fuel m k :
  (k + m = n)%nat -> (m <= fuel)%nat ->
  strncpy_loop fuel (copied mem (Z.to_nat dest) s k)
               (dest + Z.of_nat k) (source + Z.of_nat k) (len - Z.of_nat k)
  = Some (copied mem (Z.to_nat dest) s n, dest + Z.of_nat n).
Proof using Hlen Hsource Hdest Hstring Hnonzero Hn Hroom Hoverlap.
  revert fuel k. induction m as [|m IH]; intros fuel k Hkm Hfuel.
  - replace k with n by lia.
    assert (Hcases : len - Z.of_nat n <= 1
                     \/ (s ++ 0 :: rest) !! n = Some 0).
    { destruct (Z.le_gt_cases (len - 1) (Z.of_nat (length s))).
      - left. lia.
      - right. replace n with (length s) by lia.
        by rewrite list_lookup_middle. }
    destruct fuel; cbn [strncpy_loop];
      (destruct (Z.gtb_spec (len - Z.of_nat n) 1) as [Hgt|Hle]; [|done]);
      (destruct Hcases as [?|H0]; [lia|]);
      by rewrite load_copied, H0 by lia.
  - destruct fuel as [|fuel]; [lia|]. cbn [strncpy_loop].
    assert (Hkn : (k < n)%nat) by lia.
    assert (Hks : (k < length s)%nat) by lia.
    destruct (Z.gtb_spec (len - Z.of_nat k) 1) as [_|Hle]; [|lia].
    rewrite load_copied by lia.
    destruct (lookup_lt_is_Some_2 s k Hks) as [c Hc].
    rewrite lookup_app_l, Hc by done.
    assert (Hcnz : c <> 0).
    { rewrite Forall_lookup in Hnonzero. by eapply Hnonzero. }
    destruct (Z.eqb_spec c 0) as [|_]; [done|].
    unfold store. rewrite copied_length by lia.
    destruct (Z.leb_spec 0 (dest + Z.of_nat k)); [|lia].
    destruct (Z.ltb_spec (dest + Z.of_nat k) (Z.of_nat (length mem))); [|lia].
    cbn [andb].
    replace (Z.to_nat (dest + Z.of_nat k)) with (Z.to_nat dest + k)%nat by lia.
    rewrite copied_store by (done || lia).
    rewrite to_int32_id by (unfold is_int32 in *; lia).
    replace (dest + Z.of_nat k + 1) with (dest + Z.of_nat (S k)) by lia.
    replace (source + Z.of_nat k + 1) with (source + Z.of_nat (S k)) by lia.
    replace (len - Z.of_nat k - 1) with (len - Z.of_nat (S k)) by lia.
    apply IH; lia.
Qed.

End Strncpy.

(** X1: HIstrncpy copies the string at [source], cut to [len - 1]
    characters, and ends it with NUL. *)
Theorem HIstrncpy_copies (fuel : nat) (mem : memory) (dest source len : Z)
    (s rest : list Z) :
  is_int32 len -> len <> 0 ->
  0 <= source -> 0 <= dest ->
  drop (Z.to_nat source) mem = s ++ 0 :: rest ->
  Forall (fun c => c <> 0) s ->
  let n := Z.to_nat (Z.min (len - 1) (Z.of_nat (length s))) in
  (n <= fuel)%nat ->
  dest + Z.of_nat n + 1 <= Z.of_nat (length mem) ->
  dest <= source \/ source + Z.of_nat n < dest ->
  HIstrncpy fuel mem dest source len
  = Some (dest,
          take (Z.to_nat dest) mem ++ take n s ++ 0 :: drop (Z.to_nat dest + n + 1) mem).
Proof.
  intros Hlen Hnz Hsource Hdest Hstring Hnonzero n Hfuel Hroom Hoverlap.
  unfold HIstrncpy. destruct (Z.eqb_spec len 0) as [|_]; [done|].
  pose proof (strncpy_loop_run mem dest source len s rest Hlen Hsource Hdest
                Hstring Hnonzero n eq_refl Hroom Hoverlap fuel n 0) as Hrun.
  replace (copied mem (Z.to_nat dest) s 0) with mem in Hrun
    by (unfold copied; rewrite Nat.add_0_r, take_0; cbn [app]; by rewrite take_drop).
  rewrite !Z.add_0_r, Z.sub_0_r in Hrun. rewrite Hrun by lia.
  assert (n <= length s)%nat by lia.
  unfold store. rewrite copied_length by lia.
  destruct (Z.leb_spec 0 (dest + Z.of_nat n)); [|lia].
  destruct (Z.ltb_spec (dest + Z.of_nat n) (Z.of_nat (length mem))); [|lia].
  cbn [andb]. do 2 f_equal. unfold copied.
  replace (Z.to_nat (dest + Z.of_nat n)) with (Z.to_nat dest + n)%nat by lia.
  rewrite insert_app_r_alt by (rewrite length_take; lia).
  rewrite insert_app_r_alt by (rewrite !length_take; lia).
  rewrite !length_take.
  replace (Z.to_nat dest + n - Z.to_nat dest `min` length mem - n `min` length s)%nat
    with 0%nat by lia.
  destruct (lookup_lt_is_Some_2 mem (Z.to_nat dest + n)%nat) as [x Hx]; [lia|].
  rewrite (drop_S _ _ _ Hx). cbn [insert list_insert].
  by replace (Z.to_nat dest + n + 1)%nat with (S (Z.to_nat dest + n)) by lia.
Qed.

Lemma strncpy_loop_bounded (fuel : nat) :
  forall (mem : list Z) (dest source len : Z),
    is_int32 len -> 0 <= dest -> 0 <= source ->
    (Z.to_nat (len - 1) <= fuel)%nat ->
    dest + len - 1 <= Z.of_nat (length mem) ->
    source + len - 1 <= Z.of_nat (length mem) ->
    exists (mem1 : list Z) k,
      strncpy_loop fuel mem dest source len = Some (mem1, dest + k)
      /\ 0 <= k <= Z.max (len - 1) 0
      /\ length mem1 = length mem
      /\ forall a : nat,
           Z.of_nat a < dest \/ dest + k <= Z.of_nat a -> mem1 !! a = mem !! a.
Proof.
  induction fuel as [|fuel IH]; intros mem dest source len Hlen Hdest Hsource Hfuel
                                       Hdroom Hsroom.
  - exists mem, 0. cbn [strncpy_loop].
    destruct (Z.gtb_spec len 1); [lia|]. rewrite Z.add_0_r.
    split; [done|]. split; [lia|]. done.
  - cbn [strncpy_loop]. destruct (Z.gtb_spec len 1) as [Hgt|Hle].
    2:{ exists mem, 0. rewrite Z.add_0_r. split; [done|]. split; [lia|]. done. }
    unfold load. destruct (Z.ltb_spec source 0); [lia|].
    destruct (lookup_lt_is_Some_2 mem (Z.to_nat source)) as [c Hc]; [lia|].
    rewrite Hc. destruct (Z.eqb_spec c 0) as [_|Hcnz].
    { exists mem, 0. rewrite Z.add_0_r. split; [done|]. split; [lia|]. done. }
    unfold store.
    destruct (Z.leb_spec 0 dest); [|lia].
    destruct (Z.ltb_spec dest (Z.of_nat (length mem))); [|lia].
    cbn [andb].
    rewrite to_int32_id by (unfold is_int32 in *; lia).
    destruct (IH (<[Z.to_nat dest := c]> mem) (dest + 1) (source + 1) (len - 1))
      as (mem1 & k & Hrun & Hk & Hlen1 & Hframe);
      try (rewrite ?length_insert; unfold is_int32 in *; lia).
    exists mem1, (1 + k). rewrite Z.add_assoc. split; [done|]. split; [lia|].
    rewrite length_insert in Hlen1. split; [done|].
    intros a Ha. rewrite Hframe by lia.
    apply list_lookup_insert_ne. lia.
Qed.

(** X2: whatever the memory holds, HIstrncpy with room for [len]
    characters stays inside the [len] bytes at [dest] and leaves a
    NUL among them. *)
Theorem HIstrncpy_bounded (fuel : nat) (mem : memory) (dest source len : Z) :
  is_int32 len -> 1 <= len ->
  0 <= dest -> 0 <= source ->
  (Z.to_nat (len - 1) <= fuel)%nat ->
  dest + len <= Z.of_nat (length mem) ->
  source + len - 1 <= Z.of_nat (length mem) ->
  exists (mem' : list Z) n,
    HIstrncpy fuel mem dest source len = Some (dest, mem')
    /\ length mem' = length mem
    /\ 0 <= n < len
    /\ mem' !! Z.to_nat (dest + n) = Some 0
    /\ forall a : nat,
         Z.of_nat a < dest \/ dest + len <= Z.of_nat a -> mem' !! a = mem !! a.
Proof.
  intros Hlen Hpos Hdest Hsource Hfuel Hdroom Hsroom.
  destruct (strncpy_loop_bounded fuel mem dest source len)
    as (mem1 & k & Hrun & Hk & Hlen1 & Hframe); try done; try lia.
  unfold HIstrncpy. destruct (Z.eqb_spec len 0) as [|_]; [lia|].
  rewrite Hrun. unfold store. rewrite Hlen1.
  destruct (Z.leb_spec 0 (dest + k)); [|lia].
  destruct (Z.ltb_spec (dest + k) (Z.of_nat (length mem))); [|lia].
  cbn [andb]. exists (<[Z.to_nat (dest + k) := 0]> mem1), k.
  split; [done|]. split; [by rewrite length_insert|]. split; [lia|]. split.
  - apply list_lookup_insert_eq. lia.
  - intros a Ha. rewrite list_lookup_insert_ne by lia. apply Hframe. lia.
Qed.

(** A string of three characters copied with [len = 3]: two of them
    are copied, and the NUL follows. *)
Lemma HIstrncpy_copies_witness :
  HIstrncpy 8 [104; 105; 33; 0; 7; 7; 7; 7; 7] 4 0 3
  = Some (4, [104; 105; 33; 0; 104; 105; 0; 7; 7]).
Proof.
  apply (HIstrncpy_copies 8 [104; 105; 33; 0; 7; 7; 7; 7; 7] 4 0 3
           [104; 105; 33] [7; 7; 7; 7; 7]);
    try (unfold is_int32; cbn; lia); try reflexivity.
  repeat constructor; lia.
Defined.

(** A source that holds no NUL, cut to [len - 1] characters. *)
Lemma HIstrncpy_bounded_witness :
  exists (mem' : list Z) n,
    HIstrncpy 8 [104; 105; 33; 1; 7; 7; 7; 7; 7] 2 0 4 = Some (2, mem')
    /\ length mem' = 9%nat
    /\ 0 <= n < 4
    /\ mem' !! Z.to_nat (2 + n) = Some 0
    /\ forall a : nat, Z.of_nat a < 2 \/ 2 + 4 <= Z.of_nat a ->
                       mem' !! a = [104; 105; 33; 1; 7; 7; 7; 7; 7] !! a.
Proof.
  apply (HIstrncpy_bounded 8 [104; 105; 33; 1; 7; 7; 7; 7; 7] 2 0 4);
    try (unfold is_int32; cbn; lia).
Defined.

Lemma region_length (mem : list Z) a n :
  0 <= a -> 0 <= n -> a + n <= Z.of_nat (length mem) ->
  length (region mem a n) = Z.to_nat n.
Proof. intros. unfold region. rewrite length_take, length_drop. lia. Qed.

Lemma region_add (mem : list Z) a n m :
  0 <= a -> 0 <= n -> 0 <= m ->
  region mem a (n + m) = region mem a n ++ region mem (a + n) m.
Proof.
  intros. unfold region.
  replace (Z.to_nat (n + m)) with (Z.to_nat n + Z.to_nat m)%nat by lia.
  rewrite <- take_take_drop, drop_drop. do 3 f_equal. lia.
Qed.

Lemma HDmemcpy_in_range (mem : list Z) d s n :
  0 <= d -> 0 <= s -> 0 <= n -> s + n <= Z.of_nat (length mem) ->
  HDmemcpy mem d s n
  = take (Z.to_nat d) mem ++ region mem s n ++ drop (Z.to_nat (d + n)) mem.
Proof.
  intros Hd Hs Hn Hin. unfold HDmemcpy. fold (region mem s n).
  rewrite region_length by done. do 3 f_equal. lia.
Qed.

(** Two copies of adjacent blocks make one copy of the two blocks, for
    ranges that do not overlap. *)
Lemma HDmemcpy_chain (mem : list Z) d s a b :
  0 <= d -> 0 <= s -> 0 <= a -> 0 <= b ->
  d + (a + b) <= Z.of_nat (length mem) ->
  s + (a + b) <= Z.of_nat (length mem) ->
  d + (a + b) <= s \/ s + (a + b) <= d ->
  HDmemcpy (HDmemcpy mem d s a) (d + a) (s + a) b = HDmemcpy mem d s (a + b).
Proof.
  intros Hd Hs Ha Hb Hdin Hsin Hdisj.
  rewrite (HDmemcpy_in_range mem d s a) by lia.
  rewrite (HDmemcpy_in_range mem d s (a + b)) by lia.
  set (A := take (Z.to_nat d) mem).
  set (X := region mem s a).
  set (B := drop (Z.to_nat (d + a)) mem).
  assert (HA : length A = Z.to_nat d) by (unfold A; rewrite length_take; lia).
  assert (HX : length X = Z.to_nat a) by (unfold X; apply region_length; lia).
  assert (Hmem : mem = A ++ take (Z.to_nat a) (drop (Z.to_nat d) mem) ++ B).
  { unfold A, B. replace (Z.to_nat (d + a)) with (Z.to_nat d + Z.to_nat a)%nat by lia.
    by rewrite <- drop_drop, !take_drop. }
  assert (Hsrc : region (A ++ X ++ B) (s + a) b = region mem (s + a) b).
  { rewrite Hmem at 1. apply region_outside.
    - rewrite HX, length_take, length_drop. lia.
    - lia.
    - lia.
    - rewrite HA, HX. lia. }
  rewrite HDmemcpy_in_range; try lia.
  2:{ rewrite !length_app, HA, HX. unfold B. rewrite length_drop. lia. }
  rewrite Hsrc, region_add by lia. fold X.
  replace (Z.to_nat (d + a)) with (length (A ++ X)) at 1
    by (rewrite length_app; lia).
  replace (Z.to_nat (d + a + b)) with (length (A ++ X) + Z.to_nat b)%nat
    by (rewrite length_app; lia).
  rewrite (app_assoc A X B), take_app_length, drop_app_add.
  unfold B. rewrite drop_drop, <- !app_assoc. do 4 f_equal. lia.
Qed.

Lemma memset_in_range (mem : list Z) s c n :
  0 <= s -> 0 <= n -> s + n <= Z.of_nat (length mem) ->
  memset mem s c n
  = take (Z.to_nat s) mem ++ replicate (Z.to_nat n) (c mod 256)
      ++ drop (Z.to_nat (s + n)) mem.
Proof.
  intros Hs Hn Hin. unfold memset.
  rewrite length_take, length_drop.
  replace (Z.to_nat n `min` (length mem - Z.to_nat s))%nat with (Z.to_nat n) by lia.
  do 3 f_equal. lia.
Qed.

Lemma memset_chain (mem : list Z) s c a b :
  0 <= s -> 0 <= a -> 0 <= b ->
  s + (a + b) <= Z.of_nat (length mem) ->
  memset (memset mem s c a) (s + a) c b = memset mem s c (a + b).
Proof.
  intros Hs Ha Hb Hin.
  rewrite (memset_in_range mem s c a) by lia.
  rewrite (memset_in_range mem s c (a + b)) by lia.
  set (A := take (Z.to_nat s) mem).
  set (X := replicate (Z.to_nat a) (c mod 256)).
  assert (HA : length A = Z.to_nat s) by (unfold A; rewrite length_take; lia).
  assert (HX : length X = Z.to_nat a) by (unfold X; apply length_replicate).
  rewrite memset_in_range; try lia.
  2:{ rewrite !length_app, HA, HX, length_drop. lia. }
  replace (Z.to_nat (s + a)) with (length (A ++ X)) at 1
    by (rewrite length_app; lia).
  replace (Z.to_nat (s + a + b)) with (length (A ++ X) + Z.to_nat b)%nat
    by (rewrite length_app; lia).
  rewrite (app_assoc A X), take_app_length, drop_app_add, drop_drop.
  replace (Z.to_nat (a + b)) with (Z.to_nat a + Z.to_nat b)%nat by lia.
  rewrite replicate_add. fold X. rewrite <- !app_assoc. do 4 f_equal. lia.
Qed.

Lemma compare_bytes_app (a1 b1 a2 b2 : list Z) :
  length a1 = length b1 ->
  compare_bytes (a1 ++ a2) (b1 ++ b2)
  = if compare_bytes a1 b1 =? 0 then compare_bytes a2 b2 else compare_bytes a1 b1.
Proof.
  revert b1. induction a1 as [|x a1 IH]; intros [|y b1] Hlen; try done.
  cbn. destruct (Z.eqb_spec x y) as [->|Hne].
  - apply IH. by injection Hlen.
  - destruct (Z.eqb_spec (x - y) 0); [lia|done].
Qed.

Lemma compare_bytes_zero (a b : list Z) :
  length a = length b -> compare_bytes a b = 0 <-> a = b.
Proof.
  revert b. induction a as [|x a IH]; intros [|y b] Hlen; try done.
  cbn. destruct (Z.eqb_spec x y) as [->|Hne].
  - rewrite IH by (by injection Hlen). split; [by intros ->|by intros [= ->]].
  - split; [lia|by intros [= -> _]].
Qed.

Lemma memcmp_chain (mem : list Z) s1 s2 a b :
  0 <= s1 -> 0 <= s2 -> 0 <= a -> 0 <= b ->
  s1 + a <= Z.of_nat (length mem) -> s2 + a <= Z.of_nat (length mem) ->
  memcmp mem s1 s2 (a + b)
  = if memcmp mem s1 s2 a =? 0 then memcmp mem (s1 + a) (s2 + a) b
    else memcmp mem s1 s2 a.
Proof.
  intros. unfold memcmp. rewrite !region_add by lia.
  apply compare_bytes_app. by rewrite !region_length.
Qed.

Section BigFacts.

Variable UINT_MAX : Z.
Hypothesis UINT_MAX_pos : 0 < UINT_MAX.

Lemma memcpy_big_loop_run (mem : list Z) dst src len :
  is_uint32 len -> 0 <= dst -> 0 <= src ->
  dst + len <= Z.of_nat (length mem) ->
  src + len <= Z.of_nat (length mem) ->
  dst + len <= src \/ src + len <= dst ->
  forall fuel c,
    0 <= c <= len ->
    len - c <= (Z.of_nat fuel + 1) * UINT_MAX ->
    exists c',
      memcpy_big_loop UINT_MAX fuel (HDmemcpy mem dst src c) (dst + c) (src + c)
                      (len - c)
      = Some (HDmemcpy mem dst src c', (dst + c', src + c', len - c'))
      /\ c <= c' <= len /\ len - c' <= UINT_MAX.
Proof using UINT_MAX_pos.
  intros Hlen Hdst Hsrc Hdin Hsin Hdisj.
  induction fuel as [|fuel IH]; intros c Hc Hfuel; cbn [memcpy_big_loop].
  - destruct (Z.gtb_spec (len - c) UINT_MAX); [lia|]. exists c. split; [done|lia].
  - destruct (Z.gtb_spec (len - c) UINT_MAX) as [Hgt|Hle].
    2:{ exists c. split; [done|lia]. }
    rewrite HDmemcpy_chain by lia.
    rewrite to_uint32_id by (unfold is_uint32 in *; lia).
    destruct (IH (c + UINT_MAX)) as (c' & Hrun & Hc' & Hrest); [lia|lia|].
    exists c'. replace (dst + c + UINT_MAX) with (dst + (c + UINT_MAX)) by lia.
    replace (src + c + UINT_MAX) with (src + (c + UINT_MAX)) by lia.
    replace (len - c - UINT_MAX) with (len - (c + UINT_MAX)) by lia.
    split; [done|lia].
Qed.

Lemma HDmemcpy_nothing (mem : list Z) d s :
  0 <= d -> HDmemcpy mem d s 0 = mem.
Proof.
  intros. unfold HDmemcpy. cbn. rewrite Nat.add_0_r. apply take_drop.
Qed.

(** X3: [memcpy_big], which copies in blocks of [UINT_MAX] bytes,
    returns [dst] and leaves the memory one copy of all the [len] bytes
    leaves, when the two regions lie in the memory and do not
    overlap. *)
Theorem memcpy_big_whole (fuel : nat) (mem : memory) (dst src len : Z) :
  is_uint32 len -> 0 <= dst -> 0 <= src ->
  dst + len <= Z.of_nat (length mem) ->
  src + len <= Z.of_nat (length mem) ->
  dst + len <= src \/ src + len <= dst ->
  len <= (Z.of_nat fuel + 1) * UINT_MAX ->
  memcpy_big UINT_MAX fuel mem dst src len = Some (dst, HDmemcpy mem dst src len).
Proof using UINT_MAX_pos.
  intros Hlen Hdst Hsrc Hdin Hsin Hdisj Hfuel. unfold memcpy_big.
  destruct (Z.leb_spec len UINT_MAX) as [|Hbig]; [done|].
  destruct (memcpy_big_loop_run mem dst src len Hlen Hdst Hsrc Hdin Hsin Hdisj fuel 0)
    as (c' & Hrun & Hc' & Hrest); [unfold is_uint32 in *; lia|lia|].
  rewrite HDmemcpy_nothing, !Z.add_0_r, Z.sub_0_r in Hrun by done.
  rewrite Hrun. do 2 f_equal.
  destruct (Z.gtb_spec (len - c') 0) as [Hpos|Hzero].
  - rewrite HDmemcpy_chain by lia. f_equal. lia.
  - f_equal. lia.
Qed.

Lemma memset_big_loop_run (mem : list Z) src v len :
  is_uint32 len -> 0 <= src ->
  src + len <= Z.of_nat (length mem) ->
  forall fuel c,
    0 <= c <= len ->
    len - c <= (Z.of_nat fuel + 1) * UINT_MAX ->
    exists c',
      memset_big_loop UINT_MAX fuel (memset mem src v c) (src + c) v (len - c)
      = Some (memset mem src v c', (src + c', len - c'))
      /\ c <= c' <= len /\ len - c' <= UINT_MAX.
Proof using UINT_MAX_pos.
  intros Hlen Hsrc Hin.
  induction fuel as [|fuel IH]; intros c Hc Hfuel; cbn [memset_big_loop].
  - destruct (Z.gtb_spec (len - c) UINT_MAX); [lia|]. exists c. split; [done|lia].
  - destruct (Z.gtb_spec (len - c) UINT_MAX) as [Hgt|Hle].
    2:{ exists c. split; [done|lia]. }
    rewrite memset_chain by lia.
    rewrite to_uint32_id by (unfold is_uint32 in *; lia).
    destruct (IH (c + UINT_MAX)) as (c' & Hrun & Hc' & Hrest); [lia|lia|].
    exists c'. replace (src + c + UINT_MAX) with (src + (c + UINT_MAX)) by lia.
    replace (len - c - UINT_MAX) with (len - (c + UINT_MAX)) by lia.
    split; [done|lia].
Qed.

Lemma memset_nothing (mem : list Z) s v : 0 <= s -> memset mem s v 0 = mem.
Proof.
  intros. unfold memset. cbn. rewrite Nat.add_0_r. apply take_drop.
Qed.

(** X4: memset_big sets exactly the [len] bytes at [src]. *)
Theorem memset_big_whole (fuel : nat) (mem : memory) (src v len : Z) :
  is_uint32 len -> 0 <= src ->
  src + len <= Z.of_nat (length mem) ->
  len <= (Z.of_nat fuel + 1) * UINT_MAX ->
  memset_big UINT_MAX fuel mem src v len
  = Some (src, take (Z.to_nat src) mem ++ replicate (Z.to_nat len) (v mod 256)
                 ++ drop (Z.to_nat (src + len)) mem).
Proof using UINT_MAX_pos.
  intros Hlen Hsrc Hin Hfuel. rewrite <- memset_in_range by (unfold is_uint32 in *; lia).
  unfold memset_big.
  destruct (Z.leb_spec len UINT_MAX) as [|Hbig]; [done|].
  destruct (memset_big_loop_run mem src v len Hlen Hsrc Hin fuel 0)
    as (c' & Hrun & Hc' & Hrest); [unfold is_uint32 in *; lia|lia|].
  rewrite memset_nothing, !Z.add_0_r, Z.sub_0_r in Hrun by done.
  rewrite Hrun. do 2 f_equal.
  destruct (Z.gtb_spec (len - c') 0) as [Hpos|Hzero].
  - rewrite memset_chain by lia. f_equal. lia.
  - f_equal. lia.
Qed.

Lemma memcmp_nothing (mem : list Z) s1 s2 : memcmp mem s1 s2 0 = 0.
Proof. done. Qed.

Lemma memcmp_big_loop_run (mem : list Z) s1 s2 len :
  is_uint32 len -> 0 <= s1 -> 0 <= s2 ->
  s1 + len <= Z.of_nat (length mem) ->
  s2 + len <= Z.of_nat (length mem) ->
  forall fuel c,
    0 <= c <= len ->
    len - c <= (Z.of_nat fuel + 1) * UINT_MAX ->
    memcmp mem s1 s2 c = 0 ->
    (memcmp_big_loop UINT_MAX fuel mem (s1 + c) (s2 + c) (len - c)
     = Some (inl (memcmp mem s1 s2 len))
     /\ memcmp mem s1 s2 len <> 0)
    \/ exists c',
         memcmp_big_loop UINT_MAX fuel mem (s1 + c) (s2 + c) (len - c)
         = Some (inr (s1 + c', s2 + c', len - c'))
         /\ c <= c' <= len /\ len - c' <= UINT_MAX
         /\ memcmp mem s1 s2 c' = 0.
Proof using UINT_MAX_pos.
  intros Hlen Hs1 Hs2 Hin1 Hin2.
  induction fuel as [|fuel IH]; intros c Hc Hfuel Heq; cbn [memcmp_big_loop].
  - destruct (Z.gtb_spec (len - c) UINT_MAX); [lia|].
    right. exists c. split; [done|]. split; [lia|]. split; [lia|done].
  - destruct (Z.gtb_spec (len - c) UINT_MAX) as [Hgt|Hle].
    2:{ right. exists c. split; [done|]. split; [lia|]. split; [lia|done]. }
    cbv zeta.
    pose proof (memcmp_chain mem s1 s2 c UINT_MAX) as Hblock.
    rewrite Heq in Hblock. cbn in Hblock.
    destruct (Z.eqb_spec (memcmp mem (s1 + c) (s2 + c) UINT_MAX) 0) as [Hz|Hnz];
      cbn [negb].
    + rewrite to_uint32_id by (unfold is_uint32 in *; lia).
      rewrite Hz in Hblock.
      destruct (IH (c + UINT_MAX)) as [Hdiff|(c' & Hrun & Hc' & Hrest & Hsame)];
        [lia|lia|apply Hblock; lia| |].
      * left. replace (s1 + c + UINT_MAX) with (s1 + (c + UINT_MAX)) by lia.
        replace (s2 + c + UINT_MAX) with (s2 + (c + UINT_MAX)) by lia.
        by replace (len - c - UINT_MAX) with (len - (c + UINT_MAX)) by lia.
      * right. exists c'.
        replace (s1 + c + UINT_MAX) with (s1 + (c + UINT_MAX)) by lia.
        replace (s2 + c + UINT_MAX) with (s2 + (c + UINT_MAX)) by lia.
        replace (len - c - UINT_MAX) with (len - (c + UINT_MAX)) by lia.
        split; [done|]. split; [lia|]. split; [lia|done].
    + left.
      pose proof (memcmp_chain mem s1 s2 (c + UINT_MAX) (len - (c + UINT_MAX))) as Hall.
      replace (c + UINT_MAX + (len - (c + UINT_MAX))) with len in Hall by lia.
      rewrite Hall, Hblock by lia.
      destruct (Z.eqb_spec (memcmp mem (s1 + c) (s2 + c) UINT_MAX) 0); [done|].
      split; [done|done].
Qed.

(** X5: [memcmp_big], which compares in blocks of [UINT_MAX] bytes,
    returns what one comparison of all the [len] bytes returns, and 0
    exactly when the two regions hold the same bytes. *)
Theorem memcmp_big_whole (fuel : nat) (mem : memory) (s1 s2 len : Z) :
  is_uint32 len -> 0 <= s1 -> 0 <= s2 ->
  s1 + len <= Z.of_nat (length mem) ->
  s2 + len <= Z.of_nat (length mem) ->
  len <= (Z.of_nat fuel + 1) * UINT_MAX ->
  exists r,
    memcmp_big UINT_MAX fuel mem s1 s2 len = Some r
    /\ r = memcmp mem s1 s2 len
    /\ (r = 0 <-> region mem s1 len = region mem s2 len).
Proof using UINT_MAX_pos.
  intros Hlen Hs1 Hs2 Hin1 Hin2 Hfuel.
  exists (memcmp mem s1 s2 len). split; [|split; [done|]].
  - unfold memcmp_big.
    destruct (Z.leb_spec len UINT_MAX) as [|Hbig]; [done|].
    destruct (memcmp_big_loop_run mem s1 s2 len Hlen Hs1 Hs2 Hin1 Hin2 fuel 0)
      as [[Hrun _]|(c' & Hrun & Hc' & Hrest & Hsame)];
      [unfold is_uint32 in *; lia|lia|done| |];
      rewrite !Z.add_0_r, Z.sub_0_r in Hrun; rewrite Hrun; [done|].
    pose proof (memcmp_chain mem s1 s2 c' (len - c')) as Hall.
    replace (c' + (len - c')) with len in Hall by lia.
    rewrite Hsame in Hall. cbn in Hall.
    destruct (Z.gtb_spec (len - c') 0) as [Hpos|Hzero].
    + f_equal. symmetry. apply Hall; lia.
    + f_equal. replace len with c' by lia. done.
  - unfold memcmp. apply compare_bytes_zero.
    rewrite !region_length; unfold is_uint32 in *; lia.
Qed.

End BigFacts.

(** Ten bytes copied in blocks of four. *)
Lemma memcpy_big_whole_witness :
  memcpy_big 4 2 [1; 2; 3; 4; 5; 6; 7; 8; 9; 10; 0; 0; 0; 0; 0; 0; 0; 0; 0; 0; 0] 11 0 10
  = Some (11, HDmemcpy [1; 2; 3; 4; 5; 6; 7; 8; 9; 10; 0; 0; 0; 0; 0; 0; 0; 0; 0; 0; 0]
                       11 0 10).
Proof.
  apply (memcpy_big_whole 4); try (unfold is_uint32; cbn; lia).
Defined.

(** Ten bytes set in blocks of four. *)
Lemma memset_big_whole_witness :
  memset_big 4 2 [1; 2; 3; 4; 5; 6; 7; 8; 9; 10; 11; 12] 1 511 10
  = Some (1, [1; 255; 255; 255; 255; 255; 255; 255; 255; 255; 255; 12]).
Proof.
  apply (memset_big_whole 4 ltac:(lia) 2 [1; 2; 3; 4; 5; 6; 7; 8; 9; 10; 11; 12] 1 511 10);
    try (unfold is_uint32; cbn; lia).
Defined.

(** Ten bytes compared in blocks of four. *)
Lemma memcmp_big_whole_witness :
  exists r,
    memcmp_big 4 2 [1; 2; 3; 4; 5; 6; 7; 8; 9; 10; 1; 2; 3; 4; 5; 6; 7; 8; 9; 11] 0 10 10
    = Some r
    /\ r = memcmp [1; 2; 3; 4; 5; 6; 7; 8; 9; 10; 1; 2; 3; 4; 5; 6; 7; 8; 9; 11] 0 10 10
    /\ (r = 0 <->
        region [1; 2; 3; 4; 5; 6; 7; 8; 9; 10; 1; 2; 3; 4; 5; 6; 7; 8; 9; 11] 0 10
        = region [1; 2; 3; 4; 5; 6; 7; 8; 9; 10; 1; 2; 3; 4; 5; 6; 7; 8; 9; 11] 10 10).
Proof.
  apply (memcmp_big_whole 4); try (unfold is_uint32; cbn; lia).
Defined.

End HDFallocFacts.

(** ** The compressed-element layer *)

Module HCompFacts.

Import HComp.
Local Open Scope hdf_scope.

(** *** Running and inverting a sequence *)

Lemma bind_run {S A B : Type} (m : SM S A) (k : A -> SM S B) st a st' :
  m st = Some (a, st') -> bind m k st = k a st'.
Proof. intros Hm. unfold bind. by rewrite Hm. Qed.

Lemma bind_inv {S A B : Type} (m : SM S A) (k : A -> SM S B) st b st' :
  bind m k st = Some (b, st') ->
  exists a st1, m st = Some (a, st1) /\ k a st1 = Some (b, st').
Proof.
  unfold bind. destruct (m st) as [[a st1]|]; [|done]. intros Hk. by exists a, st1.
Qed.

(** [step H] runs the first command of a sequence with its run
    equation [H]. *)
Ltac step H := rewrite (bind_run _ _ _ _ _ H).


(** ** Byte encoding *)

Lemma testbit_byte_of x k n :
  0 <= k -> 0 <= n ->
  Z.testbit (byte_of x k) n = Z.testbit x (n + 8 * k) && (n <? 8).
Proof.
  intros Hk Hn. unfold byte_of. change 255 with (Z.ones 8).
  rewrite Z.land_spec, Z.shiftr_spec by lia. f_equal.
  destruct (Z.ltb_spec n 8).
  - apply Z.ones_spec_low. lia.
  - apply Z.ones_spec_high. lia.
Qed.

Lemma testbit_shiftl_byte_of x k s n :
  0 <= k -> 0 <= s -> 0 <= n ->
  Z.testbit (Z.shiftl (byte_of x k) s) n
  = Z.testbit x (n - s + 8 * k) && (s <=? n) && (n <? s + 8).
Proof.
  intros Hk Hs Hn. rewrite Z.shiftl_spec by lia.
  destruct (Z.leb_spec s n).
  - rewrite testbit_byte_of by lia.
    rewrite andb_true_r. f_equal.
    destruct (Z.ltb_spec (n - s) 8), (Z.ltb_spec n (s + 8)); lia || done.
  - rewrite Z.testbit_neg_r by lia. by rewrite andb_false_r.
Qed.

(** Two big-endian bytes decode to the value modulo [2^16]. *)
Lemma decode_encode_16 x :
  Z.lor (Z.shiftl (byte_of x 1) 8) (byte_of x 0) = to_uint16 x.
Proof.
  apply Z.bits_inj'. intros n Hn. unfold to_uint16.
  rewrite Z.lor_spec, testbit_shiftl_byte_of, testbit_byte_of by lia.
  destruct (Z.ltb_spec n 16).
  - rewrite Z.mod_pow2_bits_low by lia.
    destruct (Z.leb_spec 8 n), (Z.ltb_spec n (8 + 8)), (Z.ltb_spec n 8); try lia;
      rewrite ?andb_true_r, ?andb_false_r, ?orb_false_r, ?orb_false_l;
      f_equal; lia.
  - rewrite Z.mod_pow2_bits_high by lia.
    destruct (Z.leb_spec 8 n), (Z.ltb_spec n (8 + 8)), (Z.ltb_spec n 8); try lia;
      by rewrite ?andb_true_r, ?andb_false_r.
Qed.

(** Four big-endian bytes decode to the value modulo [2^32]. *)
Lemma decode_encode_32 x :
  Z.lor (Z.shiftl (byte_of x 3) 24)
    (Z.lor (Z.shiftl (byte_of x 2) 16)
       (Z.lor (Z.shiftl (byte_of x 1) 8) (byte_of x 0)))
  = to_uint32 x.
Proof.
  apply Z.bits_inj'. intros n Hn. unfold to_uint32.
  rewrite !Z.lor_spec, !testbit_shiftl_byte_of, testbit_byte_of by lia.
  destruct (Z.ltb_spec n 32).
  - rewrite Z.mod_pow2_bits_low by lia.
    destruct (Z.leb_spec 24 n), (Z.leb_spec 16 n), (Z.leb_spec 8 n),
      (Z.ltb_spec n (24 + 8)), (Z.ltb_spec n (16 + 8)), (Z.ltb_spec n (8 + 8)),
      (Z.ltb_spec n 8); try lia;
      rewrite ?andb_true_r, ?andb_false_r, ?orb_false_r, ?orb_false_l;
      f_equal; lia.
  - rewrite Z.mod_pow2_bits_high by lia.
    destruct (Z.leb_spec 24 n), (Z.leb_spec 16 n), (Z.leb_spec 8 n),
      (Z.ltb_spec n (24 + 8)), (Z.ltb_spec n (16 + 8)), (Z.ltb_spec n (8 + 8)),
      (Z.ltb_spec n 8); try lia;
      by rewrite ?andb_true_r, ?andb_false_r.
Qed.

Lemma to_int32_of_uint32 x : to_int32 (to_uint32 x) = to_int32 x.
Proof. unfold to_int32, to_uint32. by rewrite Zplus_mod_idemp_l. Qed.

Lemma UINT16DECODE_ENCODE x (rest : list Z) :
  UINT16DECODE (byte_of x 1 :: byte_of x 0 :: rest) = (to_uint16 x, rest).
Proof. unfold UINT16DECODE, byte_at. cbn. by rewrite decode_encode_16. Qed.

Lemma UINT32DECODE_ENCODE x (rest : list Z) :
  UINT32DECODE (byte_of x 3 :: byte_of x 2 :: byte_of x 1 :: byte_of x 0 :: rest)
  = (to_uint32 x, rest).
Proof. unfold UINT32DECODE, byte_at. cbn. by rewrite decode_encode_32. Qed.

Lemma INT32DECODE_ENCODE x (rest : list Z) :
  INT32DECODE (byte_of x 3 :: byte_of x 2 :: byte_of x 1 :: byte_of x 0 :: rest)
  = (to_int32 x, rest).
Proof.
  unfold INT32DECODE. rewrite UINT32DECODE_ENCODE. cbn [fst].
  by rewrite to_int32_of_uint32.
Qed.

Section HeaderProperties.

Context `{Hh : hdf_h} {L : Type} `{ML : model_layer L}.

Lemma write_at_end (bytes buf : list Z) :
  write_at (bytes ++ replicate (length buf) 0) (length bytes) buf = bytes ++ buf.
Proof.
  unfold write_at. rewrite length_app, length_replicate.
  replace (length bytes - (length bytes + length buf))%nat with 0%nat by lia.
  cbn [replicate]. rewrite app_nil_r, take_app_length.
  f_equal. rewrite drop_ge; [by rewrite app_nil_r|].
  rewrite length_app, length_replicate. lia.
Qed.

(** *** Running the primitives *)



Lemma get_file_run (st : hdf_state L) k f :
  files st !! k = Some f -> get_file (Some k) st = Some (f, st).
Proof. intros Hf. unfold get_file, deref. by rewrite Hf. Qed.

Lemma get_accrec_run (st : hdf_state L) access_rec ar :
  access_records st !! access_rec = Some ar ->
  get_accrec access_rec st = Some (ar, st).
Proof. intros Har. unfold get_accrec, deref. by rewrite Har. Qed.

Lemma get_info_run (st : hdf_state L) p i :
  heap st !! p = Some i -> get_info (Some p) st = Some (i, st).
Proof. intros Hi. unfold get_info, deref. by rewrite Hi. Qed.

Lemma lookup_dd_Some (fs : gmap Z filerec_t) k f b blk j d :
  fs !! k = Some f -> f_ddblocks f !! b = Some blk -> blk !! j = Some d ->
  lookup_dd fs ((k, b), j) = Some d.
Proof. intros Hf Hb Hj. unfold lookup_dd. cbn. by rewrite Hf, Hb. Qed.

Lemma get_dd_run (st : hdf_state L) dd d :
  lookup_dd (files st) dd = Some d -> get_dd dd st = Some (d, st).
Proof. intros Hd. unfold get_dd, deref. by rewrite Hd. Qed.

Lemma put_dd_run (st : hdf_state L) k f b blk j d d' :
  files st !! k = Some f -> f_ddblocks f !! b = Some blk -> blk !! j = Some d ->
  put_dd ((k, b), j) d' st
  = Some (tt, set_files
                (<[k := set_f_ddblocks (<[b := <[j := d']> blk]> (f_ddblocks f)) f]>
                   (files st)) st).
Proof.
  intros Hf Hb Hj. unfold put_dd.
  rewrite (bind_run _ _ _ _ _ (get_dd_run _ _ _ (lookup_dd_Some _ _ _ _ _ _ _ Hf Hb Hj))).
  cbn [fst snd]. rewrite (bind_run _ _ _ _ _ (get_file_run _ _ _ Hf)).
  by rewrite Hb.
Qed.

Lemma HPseek_run (st : hdf_state L) k f off :
  files st !! k = Some f ->
  HPseek (Some k) off st
  = if off <? 0 then Some (FAIL, st)
    else Some (SUCCEED, set_files (<[k := set_f_pos off f]> (files st)) st).
Proof.
  intros Hf. unfold HPseek. rewrite (bind_run _ _ _ _ _ (get_file_run _ _ _ Hf)).
  by destruct (off <? 0).
Qed.

Lemma HPread_run (st : hdf_state L) k f n :
  files st !! k = Some f ->
  HPread (Some k) n st
  = if (n <? 0) || (f_pos f <? 0) || (Z.of_nat (length (f_bytes f)) <? f_pos f + n)
    then Some ((FAIL, []), st)
    else Some ((SUCCEED, take (Z.to_nat n) (drop (Z.to_nat (f_pos f)) (f_bytes f))),
               set_files (<[k := set_f_pos (f_pos f + n) f]> (files st)) st).
Proof.
  intros Hf. unfold HPread. rewrite (bind_run _ _ _ _ _ (get_file_run _ _ _ Hf)).
  by destruct (_ || _).
Qed.

Lemma HPwrite_run (st : hdf_state L) k f buf n :
  files st !! k = Some f ->
  HPwrite (Some k) buf n st
  = if (Z.land (f_access f) DFACC_WRITE =? 0) || (n <? 0) || (f_pos f <? 0)
    then Some (FAIL, st)
    else Some (SUCCEED,
               set_files
                 (<[k := set_f_pos (f_pos f + n)
                           (set_f_bytes (write_at (f_bytes f) (Z.to_nat (f_pos f))
                                                  (take (Z.to_nat n) buf)) f)]>
                    (files st)) st).
Proof.
  intros Hf. unfold HPwrite. rewrite (bind_run _ _ _ _ _ (get_file_run _ _ _ Hf)).
  by destruct (_ || _).
Qed.

Lemma HPgetdiskblock_run (st : hdf_state L) k f block_size moveto :
  files st !! k = Some f ->
  HPgetdiskblock (Some k) block_size moveto st
  = if block_size <? 0 then Some (FAIL, st)
    else Some (Z.of_nat (length (f_bytes f)),
               set_files
                 (<[k := set_f_pos (if moveto then Z.of_nat (length (f_bytes f))
                                    else f_pos f)
                           (set_f_bytes (f_bytes f ++ replicate (Z.to_nat block_size) 0)
                                        f)]>
                    (files st)) st).
Proof.
  intros Hf. unfold HPgetdiskblock.
  rewrite (bind_run _ _ _ _ _ (get_file_run _ _ _ Hf)).
  by destruct (block_size <? 0).
Qed.

Lemma HIupdate_dd_run (st : hdf_state L) k f blk i :
  files st !! k = Some f -> HIupdate_dd (Some k) blk i st = Some (SUCCEED, st).
Proof. intros Hf. unfold HIupdate_dd. by step (get_file_run _ _ _ Hf). Qed.

Lemma HIadd_hash_dd_run (st : hdf_state L) k f tag ref blk i :
  files st !! k = Some f ->
  HIadd_hash_dd (Some k) tag ref blk i st = Some (SUCCEED, st).
Proof. intros Hf. unfold HIadd_hash_dd. by step (get_file_run _ _ _ Hf). Qed.

Lemma HIdel_hash_dd_run (st : hdf_state L) k f tag ref :
  files st !! k = Some f ->
  HIdel_hash_dd (Some k) tag ref st = Some (SUCCEED, st).
Proof. intros Hf. unfold HIdel_hash_dd. by step (get_file_run _ _ _ Hf). Qed.

Lemma set_files_twice (st : hdf_state L) m m' :
  set_files m (set_files m' st) = set_files m st.
Proof. done. Qed.


Lemma HCIwrite_header_run (st : hdf_state L) k f b j blk d0 access_rec ar p i
    special_tag ref :
  files st !! k = Some f ->
  Z.land (f_access f) DFACC_WRITE <> 0 ->
  f_ddblocks f !! b = Some blk ->
  blk !! j = Some d0 ->
  access_records st !! access_rec = Some ar ->
  heap st !! p = Some i ->
  HCIwrite_header (Some k) access_rec (Some p) ((k, b), j) special_tag ref st
  = Some (SUCCEED,
          set_files (<[k := file_with_header f b j blk special_tag ref i]> (files st)) st).
Proof.
  intros Hf Hw Hblk Hd0 Har Hi.
  pose proof FAIL_neq_SUCCEED as Hfs. pose proof FAIL_negative as Hfneg.
  assert (Hb : (b < length (f_ddblocks f))%nat) by (by eapply lookup_lt_Some).
  assert (Hj : (j < length blk)%nat) by (by eapply lookup_lt_Some).
  unfold HCIwrite_header.
  step (get_info_run _ _ _ Hi). cbv zeta.
  set (hdr := header_bytes i). set (len := Z.of_nat (length hdr)).
  step (get_dd_run _ _ _ (lookup_dd_Some _ _ _ _ _ _ _ Hf Hblk Hd0)).
  step (put_dd_run _ _ _ _ _ _ _ (DD special_tag ref (dd_offset d0) len) Hf Hblk Hd0).
  (* the state after the first assignment to the DD *)
  match goal with |- context [set_files (<[k := ?fa]> _) st] => set (f1 := fa) end.
  assert (Hf1 : files (set_files (<[k := f1]> (files st)) st) !! k = Some f1)
    by (cbn; by rewrite lookup_insert_eq).
  erewrite bind_run; [|rewrite (HPgetdiskblock_run _ _ _ _ _ Hf1);
                       destruct (Z.ltb_spec len 0); [lia|]; reflexivity].
  cbn [files set_files]. rewrite set_files_twice, insert_insert_eq.
  match goal with |- context [set_files (<[k := ?fa]> _) st] => set (f2 := fa) end.
  assert (Hf2 : files (set_files (<[k := f2]> (files st)) st) !! k = Some f2)
    by (cbn; by rewrite lookup_insert_eq).
  erewrite bind_run;
    [|eapply (put_dd_run _ _ _ _ _ _ _ _ Hf2);
      [unfold f2, f1; cbn; by apply list_lookup_insert_eq
      |by apply list_lookup_insert_eq]].
  cbn [files set_files]. rewrite set_files_twice, insert_insert_eq.
  match goal with |- context [set_files (<[k := ?fa]> _) st] => set (f3 := fa) end.
  assert (Hf3 : files (set_files (<[k := f3]> (files st)) st) !! k = Some f3)
    by (cbn; by rewrite lookup_insert_eq).
  destruct (Z.eqb_spec (Z.of_nat (length (f_bytes f1))) FAIL) as [Heq|_]; [lia|].
  assert (Hcond : (Z.land (f_access f3) DFACC_WRITE =? 0) || (len <? 0) || (f_pos f3 <? 0)
                  = false).
  { unfold f3, f2, f1. cbn.
    destruct (Z.eqb_spec (Z.land (f_access f) DFACC_WRITE) 0) as [|_]; [done|].
    destruct (Z.ltb_spec len 0); [lia|].
    by destruct (Z.ltb_spec (Z.of_nat (length (f_bytes f))) 0); [lia|]. }
  erewrite bind_run; [|rewrite (HPwrite_run _ _ _ _ _ Hf3), Hcond; reflexivity].
  destruct (Z.eqb_spec SUCCEED FAIL) as [|_]; [done|].
  cbn [files set_files]. rewrite set_files_twice, insert_insert_eq.
  match goal with |- context [set_files (<[k := ?fa]> _) st] => set (f4 := fa) end.
  assert (Hf4 : files (set_files (<[k := f4]> (files st)) st) !! k = Some f4)
    by (cbn; by rewrite lookup_insert_eq).
  erewrite bind_run; [|by apply get_accrec_run].
  step (HIupdate_dd_run _ _ _ (block ar) (idx ar) Hf4).
  destruct (Z.eqb_spec SUCCEED FAIL) as [|_]; [done|].
  step (HIadd_hash_dd_run _ _ _ special_tag ref (block ar) (idx ar) Hf4).
  destruct (Z.eqb_spec SUCCEED FAIL) as [|_]; [done|].
  unfold ret. do 3 f_equal.
  unfold f4, f3, f2, f1, file_with_header, set_f_pos, set_f_bytes, set_f_ddblocks. cbn.
  fold hdr. fold len. rewrite !list_insert_insert_eq.
  unfold len. rewrite !Nat2Z.id, take_ge by lia. by rewrite write_at_end.
Qed.


Lemma HCIread_header_NBIT (st : hdf_state L) k f info_dd d q iq c0 access_rec
    code ver len cref mtype ctype c_nt s_ext f_one m_off m_len rest :
  files st !! k = Some f ->
  lookup_dd (files st) info_dd = Some d ->
  heap st !! q = Some iq ->
  0 <= dd_offset d -> is_int32 (dd_offset d + 2) ->
  to_uint16 ctype = COMP_CODE_NBIT ->
  drop (Z.to_nat (dd_offset d)) (f_bytes f)
  = common_header code ver len cref mtype ctype
      ++ INT32ENCODE (INT32ENCODE (UINT16ENCODE (UINT16ENCODE (INT32ENCODE [] c_nt)
                                                              s_ext) f_one) m_off) m_len
      ++ rest ->
  HCIread_header (Some k) access_rec (Some q) info_dd c0 st
  = Some ((SUCCEED,
           CInfo (to_int32 c_nt) (to_uint16 s_ext) (to_uint16 f_one)
                 (to_int32 m_off) (to_int32 m_len) (skphuff_skp_size c0)),
          set_files (<[k := set_f_pos (dd_offset d + 30) f]> (files st))
            (set_heap (<[q := info_read iq len cref mtype ctype]> (heap st))
                      (heap_avail st) st)).
Proof.
  intros Hf Hd Hq Hoff Hoff2 Hct Hbytes.
  pose proof FAIL_neq_SUCCEED as Hfs.
  assert (Hlen : (Z.to_nat (dd_offset d) + 30 <= length (f_bytes f))%nat).
  { rewrite <- (take_drop (Z.to_nat (dd_offset d)) (f_bytes f)) at 1.
    rewrite Hbytes, length_app, length_take. cbn. 
    assert (Z.to_nat (dd_offset d) <= length (f_bytes f))%nat; [|lia].
    destruct (Nat.le_gt_cases (Z.to_nat (dd_offset d)) (length (f_bytes f))); [done|].
    rewrite drop_ge in Hbytes by lia. done. }
  unfold HCIread_header.
  step (get_dd_run _ _ _ Hd).
  rewrite (to_int32_id _ Hoff2).
  erewrite bind_run;
    [|rewrite (HPseek_run _ _ _ _ Hf); destruct (Z.ltb_spec (dd_offset d + 2) 0);
      [lia|reflexivity]].
  destruct (Z.eqb_spec SUCCEED FAIL) as [|_]; [done|].
  match goal with |- context [set_files (<[k := ?fa]> _) st] => set (f1 := fa) end.
  assert (Hf1 : files (set_files (<[k := f1]> (files st)) st) !! k = Some f1)
    by (cbn; by rewrite lookup_insert_eq).
  assert (Hc1 : (COMP_HEADER_LENGTH - 2 <? 0) || (f_pos f1 <? 0)
                || (Z.of_nat (length (f_bytes f1)) <? f_pos f1 + (COMP_HEADER_LENGTH - 2))
                = false).
  { unfold f1, COMP_HEADER_LENGTH. cbn [f_pos f_bytes set_f_pos].
    rewrite !orb_false_iff. repeat split; apply Z.ltb_ge; lia. }
  erewrite bind_run; [|rewrite (HPread_run _ _ _ _ Hf1), Hc1; reflexivity].
  cbv beta iota. destruct (Z.eqb_spec SUCCEED FAIL) as [|_]; [done|].
  cbn [files set_files]. rewrite set_files_twice, insert_insert_eq.
  assert (Hhdr : take (Z.to_nat (COMP_HEADER_LENGTH - 2)) (drop (Z.to_nat (f_pos f1)) (f_bytes f1))
                 = drop 2 (common_header code ver len cref mtype ctype)).
  { unfold f1, COMP_HEADER_LENGTH. cbn [f_pos f_bytes set_f_pos].
    replace (Z.to_nat (dd_offset d + 2)) with (Z.to_nat (dd_offset d) + 2)%nat by lia.
    rewrite <- drop_drop, Hbytes. reflexivity. }
  rewrite Hhdr. unfold common_header. cbn [drop].
  rewrite UINT16DECODE_ENCODE, INT32DECODE_ENCODE.
  rewrite !UINT16DECODE_ENCODE.
  match goal with |- context [set_files (<[k := ?fa]> _) st] => set (f2 := fa) end.
  erewrite bind_run; [|by apply get_info_run].
  unfold put_info, modify. unfold bind at 1. cbn [heap set_files heap_avail].
  rewrite Hct, Z.eqb_refl.
  match goal with |- context [let* _ := _ in _] => idtac end.
  match goal with |- _ ?s = _ => set (st2 := s) end.
  assert (Hf2 : files st2 !! k = Some f2)
    by (unfold st2; cbn; by rewrite lookup_insert_eq).
  assert (Hc2 : (16 <? 0) || (f_pos f2 <? 0)
                || (Z.of_nat (length (f_bytes f2)) <? f_pos f2 + 16) = false).
  { unfold f2, f1, COMP_HEADER_LENGTH. cbn [f_pos f_bytes set_f_pos].
    rewrite !orb_false_iff. repeat split; apply Z.ltb_ge; lia. }
  erewrite bind_run; [|rewrite (HPread_run _ _ _ _ Hf2), Hc2; reflexivity].
  cbv beta iota. destruct (Z.eqb_spec SUCCEED FAIL) as [|_]; [done|].
  assert (Htr : take (Z.to_nat 16) (drop (Z.to_nat (f_pos f2)) (f_bytes f2))
                = INT32ENCODE (INT32ENCODE (UINT16ENCODE (UINT16ENCODE
                    (INT32ENCODE [] c_nt) s_ext) f_one) m_off) m_len).
  { unfold f2, f1, COMP_HEADER_LENGTH. cbn [f_pos f_bytes set_f_pos].
    replace (Z.to_nat (dd_offset d + 2 + (14 - 2))) with (Z.to_nat (dd_offset d) + 14)%nat
      by lia.
    rewrite <- drop_drop, Hbytes. reflexivity. }
  rewrite Htr. unfold INT32ENCODE at 1 2 3, UINT16ENCODE at 1 2. cbn [app].
  rewrite INT32DECODE_ENCODE, !UINT16DECODE_ENCODE, !INT32DECODE_ENCODE.
  unfold ret, st2, set_files, set_heap. cbn. rewrite insert_insert_eq.
  assert (Hfin : set_f_pos (dd_offset d + 2 + (COMP_HEADER_LENGTH - 2) + 16) f2
                 = set_f_pos (dd_offset d + 30) f)
    by (unfold f2, f1, set_f_pos, COMP_HEADER_LENGTH; cbn; f_equal; lia).
  rewrite Hfin. unfold info_read. by rewrite Hct.
Qed.

Lemma HCIread_header_SKPHUFF (st : hdf_state L) k f info_dd d q iq c0 access_rec
    code ver len cref mtype ctype skp w3 w2 w1 w0 rest :
  files st !! k = Some f ->
  lookup_dd (files st) info_dd = Some d ->
  heap st !! q = Some iq ->
  0 <= dd_offset d -> is_int32 (dd_offset d + 2) ->
  to_uint16 ctype = COMP_CODE_SKPHUFF ->
  drop (Z.to_nat (dd_offset d)) (f_bytes f)
  = common_header code ver len cref mtype ctype
      ++ UINT32ENCODE [] skp ++ [w3; w2; w1; w0] ++ rest ->
  HCIread_header (Some k) access_rec (Some q) info_dd c0 st
  = Some ((SUCCEED,
           CInfo (nbit_nt c0) (nbit_sign_ext c0) (nbit_fill_one c0)
                 (nbit_start_bit c0) (nbit_bit_len c0) (to_int32 skp)),
          set_files (<[k := set_f_pos (dd_offset d + 22) f]> (files st))
            (set_heap (<[q := info_read iq len cref mtype ctype]> (heap st))
                      (heap_avail st) st)).
Proof.
  intros Hf Hd Hq Hoff Hoff2 Hct Hbytes.
  pose proof FAIL_neq_SUCCEED as Hfs.
  pose proof COMP_CODE_NBIT_neq_SKPHUFF as Hne.
  assert (Hlen : (Z.to_nat (dd_offset d) + 22 <= length (f_bytes f))%nat).
  { rewrite <- (take_drop (Z.to_nat (dd_offset d)) (f_bytes f)) at 1.
    rewrite Hbytes, length_app, length_take. cbn. 
    assert (Z.to_nat (dd_offset d) <= length (f_bytes f))%nat; [|lia].
    destruct (Nat.le_gt_cases (Z.to_nat (dd_offset d)) (length (f_bytes f))); [done|].
    rewrite drop_ge in Hbytes by lia. done. }
  unfold HCIread_header.
  step (get_dd_run _ _ _ Hd).
  rewrite (to_int32_id _ Hoff2).
  erewrite bind_run;
    [|rewrite (HPseek_run _ _ _ _ Hf); destruct (Z.ltb_spec (dd_offset d + 2) 0);
      [lia|reflexivity]].
  destruct (Z.eqb_spec SUCCEED FAIL) as [|_]; [done|].
  match goal with |- context [set_files (<[k := ?fa]> _) st] => set (f1 := fa) end.
  assert (Hf1 : files (set_files (<[k := f1]> (files st)) st) !! k = Some f1)
    by (cbn; by rewrite lookup_insert_eq).
  assert (Hc1 : (COMP_HEADER_LENGTH - 2 <? 0) || (f_pos f1 <? 0)
                || (Z.of_nat (length (f_bytes f1)) <? f_pos f1 + (COMP_HEADER_LENGTH - 2))
                = false).
  { unfold f1, COMP_HEADER_LENGTH. cbn [f_pos f_bytes set_f_pos].
    rewrite !orb_false_iff. repeat split; apply Z.ltb_ge; lia. }
  erewrite bind_run; [|rewrite (HPread_run _ _ _ _ Hf1), Hc1; reflexivity].
  cbv beta iota. destruct (Z.eqb_spec SUCCEED FAIL) as [|_]; [done|].
  cbn [files set_files]. rewrite set_files_twice, insert_insert_eq.
  assert (Hhdr : take (Z.to_nat (COMP_HEADER_LENGTH - 2)) (drop (Z.to_nat (f_pos f1)) (f_bytes f1))
                 = drop 2 (common_header code ver len cref mtype ctype)).
  { unfold f1, COMP_HEADER_LENGTH. cbn [f_pos f_bytes set_f_pos].
    replace (Z.to_nat (dd_offset d + 2)) with (Z.to_nat (dd_offset d) + 2)%nat by lia.
    rewrite <- drop_drop, Hbytes. reflexivity. }
  rewrite Hhdr. unfold common_header. cbn [drop].
  rewrite UINT16DECODE_ENCODE, INT32DECODE_ENCODE.
  rewrite !UINT16DECODE_ENCODE.
  match goal with |- context [set_files (<[k := ?fa]> _) st] => set (f2 := fa) end.
  erewrite bind_run; [|by apply get_info_run].
  unfold put_info, modify. unfold bind at 1. cbn [heap set_files heap_avail].
  rewrite Hct.
  destruct (Z.eqb_spec COMP_CODE_SKPHUFF COMP_CODE_NBIT) as [|_]; [done|].
  rewrite Z.eqb_refl.
  match goal with |- _ ?s = _ => set (st2 := s) end.
  assert (Hf2 : files st2 !! k = Some f2)
    by (unfold st2; cbn; by rewrite lookup_insert_eq).
  assert (Hc2 : (8 <? 0) || (f_pos f2 <? 0)
                || (Z.of_nat (length (f_bytes f2)) <? f_pos f2 + 8) = false).
  { unfold f2, f1, COMP_HEADER_LENGTH. cbn [f_pos f_bytes set_f_pos].
    rewrite !orb_false_iff. repeat split; apply Z.ltb_ge; lia. }
  erewrite bind_run; [|rewrite (HPread_run _ _ _ _ Hf2), Hc2; reflexivity].
  cbv beta iota. destruct (Z.eqb_spec SUCCEED FAIL) as [|_]; [done|].
  assert (Htr : take (Z.to_nat 8) (drop (Z.to_nat (f_pos f2)) (f_bytes f2))
                = UINT32ENCODE [] skp ++ [w3; w2; w1; w0]).
  { unfold f2, f1, COMP_HEADER_LENGTH. cbn [f_pos f_bytes set_f_pos].
    replace (Z.to_nat (dd_offset d + 2 + (14 - 2))) with (Z.to_nat (dd_offset d) + 14)%nat
      by lia.
    rewrite <- drop_drop, Hbytes. reflexivity. }
  rewrite Htr. unfold UINT32ENCODE. cbn [app].
  rewrite UINT32DECODE_ENCODE. cbv beta iota zeta.
  rewrite to_int32_of_uint32.
  unfold ret, st2, set_files, set_heap. cbn. rewrite insert_insert_eq.
  assert (Hfin : set_f_pos (dd_offset d + 2 + (COMP_HEADER_LENGTH - 2) + 8) f2
                 = set_f_pos (dd_offset d + 22) f)
    by (unfold f2, f1, set_f_pos, COMP_HEADER_LENGTH; cbn; f_equal; lia).
  rewrite Hfin. unfold info_read. by rewrite Hct.
Qed.


Lemma write_at_middle (pre a x post buf : list Z) :
  length x = length buf ->
  write_at (pre ++ a ++ x ++ post) (length pre + length a) buf
  = pre ++ a ++ buf ++ post.
Proof.
  intros Hlen. unfold write_at.
  rewrite !length_app.
  replace (length pre + length a - (length pre + (length a + (length x + length post))))%nat
    with 0%nat by lia.
  cbn [replicate]. rewrite app_nil_r.
  rewrite (app_assoc pre a). rewrite <- length_app.
  rewrite take_app_length. rewrite <- app_assoc. do 2 f_equal.
  rewrite <- Hlen.
  replace (length (pre ++ a) + length x)%nat with (length ((pre ++ a) ++ x))
    by (by rewrite length_app).
  rewrite !app_assoc. by rewrite drop_app_length.
Qed.

(** The header of an NBIT element, spelled out. *)
Lemma header_bytes_NBIT i :
  coder_type (cinfo i) = COMP_CODE_NBIT ->
  header_bytes i
  = common_header SPECIAL_COMP COMP_HEADER_VERSION (ci_length i)
      (to_uint16 (comp_ref i)) (to_uint16 (model_type (minfo i)))
      (to_uint16 COMP_CODE_NBIT)
      ++ INT32ENCODE (INT32ENCODE (UINT16ENCODE (UINT16ENCODE
           (INT32ENCODE [] (nt (nbit_info (cinfo i))))
           (to_uint16 (sign_ext (nbit_info (cinfo i)))))
           (to_uint16 (fill_one (nbit_info (cinfo i)))))
           (to_int32 (mask_off (nbit_info (cinfo i)))))
           (to_int32 (mask_len (nbit_info (cinfo i)))).
Proof. intros Hc. unfold header_bytes. rewrite Hc, Z.eqb_refl. reflexivity. Qed.

(** The header of a SKPHUFF element, spelled out. *)
Lemma header_bytes_SKPHUFF i :
  coder_type (cinfo i) = COMP_CODE_SKPHUFF ->
  header_bytes i
  = common_header SPECIAL_COMP COMP_HEADER_VERSION (ci_length i)
      (to_uint16 (comp_ref i)) (to_uint16 (model_type (minfo i)))
      (to_uint16 COMP_CODE_SKPHUFF)
      ++ UINT32ENCODE [] (to_uint32 (skip_size (skphuff_info (cinfo i))))
      ++ UINT32ENCODE [] (to_uint32 (skip_size (skphuff_info (cinfo i)))).
Proof.
  intros Hc. unfold header_bytes. rewrite Hc, Z.eqb_refl.
  pose proof COMP_CODE_NBIT_neq_SKPHUFF.
  destruct (Z.eqb_spec COMP_CODE_SKPHUFF COMP_CODE_NBIT) as [|_]; [done|].
  reflexivity.
Qed.




End HeaderProperties.


Section AccessProperties.

Context `{Hh : hdf_h} {L : Type} `{ML : model_layer L}.

Lemma model_call_run {A : Type} (st : hdf_state L) access_rec ar p i
    (entry : accrec_t -> compinfo_t -> L -> A * L) :
  attached_to st access_rec ar p i ->
  model_call access_rec entry st
  = Some (fst (entry ar i (lower st)), set_lower (snd (entry ar i (lower st))) st).
Proof.
  intros (Har & Hp & Hi & Hm).
  unfold model_call, bind, get_accrec, get_info, deref.
  rewrite Har, Hp, Hi, Hm. by destruct (entry ar i (lower st)).
Qed.

Lemma HCPread_run (st : hdf_state L) access_rec ar p i len data :
  attached_to st access_rec ar p i ->
  HCPread access_rec len data st
  = if len <? 0 then Some ((FAIL, data), with_error DFE_RANGE st)
    else
      let finish (n : Z) :=
        let '((r, d), l) := mstdio_read ar i n (lower st) in
        if r =? FAIL then Some ((FAIL, d), with_error DFE_MODEL (set_lower l st))
        else Some ((n, d), with_posn access_rec (to_int32 (posn ar + n)) (set_lower l st)) in
      if len =? 0 then finish (to_int32 (ci_length i - posn ar))
      else if to_int32 (posn ar + len) >? ci_length i
           then Some ((FAIL, data), with_error DFE_RANGE st)
           else finish len.
Proof.
  intros Hatt. pose proof Hatt as (Har & Hp & Hi & Hm).
  unfold HCPread. destruct (len <? 0) eqn:Hneg; [done|].
  unfold bind at 1. unfold get_accrec at 1, deref. rewrite Har.
  unfold bind at 1. unfold get_info at 1, deref. rewrite Hp, Hi.
  assert (Hfin : forall n,
    (let* (r, data0) := model_call access_rec (fun a i0 => mstdio_read a i0 n) in
     if r =? FAIL then HRETURN_ERROR DFE_MODEL (FAIL, data0)
     else let* ar0 := get_accrec access_rec in
          put_accrec access_rec (set_posn (to_int32 (posn ar0 + n)) ar0) ;;
          ret (n, data0)) st
    = let '((r, d), l) := mstdio_read ar i n (lower st) in
      if r =? FAIL then Some ((FAIL, d), with_error DFE_MODEL (set_lower l st))
      else Some ((n, d), with_posn access_rec (to_int32 (posn ar + n)) (set_lower l st))).
  { intros n. unfold bind at 1. rewrite (model_call_run _ _ _ _ _ _ Hatt).
    destruct (mstdio_read ar i n (lower st)) as [[r d] l]. cbn [fst snd].
    destruct (r =? FAIL); [done|].
    unfold bind, get_accrec, deref, put_accrec, modify, ret, with_posn. cbn.
    by rewrite Har. }
  cbn zeta. destruct (len =? 0); [apply Hfin|].
  cbn [orb]. destruct (to_int32 (posn ar + len) >? ci_length i); [done|apply Hfin].
Qed.




(** *** HCPseek *)

Lemma HCPseek_run (st : hdf_state L) access_rec ar p i offset origin :
  attached_to st access_rec ar p i ->
  HCPseek access_rec offset origin st
  = let o1 := if origin =? DF_CURRENT then to_int32 (offset + posn ar) else offset in
    let o2 := if origin =? DF_END then to_int32 (o1 + ci_length i) else o1 in
    if o2 <? 0 then Some (FAIL, with_error DFE_RANGE st)
    else
      let '(r, l) := mstdio_seek ar i o2 origin (lower st) in
      if r =? FAIL then Some (FAIL, with_error DFE_MODEL (set_lower l st))
      else Some (r, with_posn access_rec o2 (set_lower l st)).
Proof.
  intros Hatt. pose proof Hatt as (Har & Hp & Hi & Hm).
  unfold HCPseek. unfold bind at 1. unfold get_accrec at 1, deref. rewrite Har.
  cbn zeta. set (o1 := if origin =? DF_CURRENT then _ else _).
  unfold bind at 1.
  assert (Ho2 : (if origin =? DF_END
                 then let* i0 := get_info (special_info ar) in
                      ret (to_int32 (o1 + ci_length i0))
                 else ret o1) st
                = Some (if origin =? DF_END then to_int32 (o1 + ci_length i) else o1, st)).
  { destruct (origin =? DF_END); [|done].
    unfold bind, get_info, deref. by rewrite Hp, Hi. }
  rewrite Ho2. set (o2 := if origin =? DF_END then _ else _).
  destruct (o2 <? 0); [done|].
  unfold bind at 1. rewrite (model_call_run _ _ _ _ _ _ Hatt).
  destruct (mstdio_seek ar i o2 origin (lower st)) as [r l]. cbn [fst snd].
  destruct (r =? FAIL); [done|].
  unfold bind, get_accrec, deref, put_accrec, modify, ret, with_posn. cbn.
  by rewrite Har.
Qed.

Lemma posn_of_with_posn (st : hdf_state L) access_rec ar v :
  access_records st !! access_rec = Some ar ->
  posn_of (with_posn access_rec v st) access_rec = Some v.
Proof.
  intros Har. unfold posn_of, with_posn. rewrite Har. cbn.
  rewrite list_lookup_insert_eq; [done|]. by eapply lookup_lt_Some.
Qed.



(** *** HCPwrite *)

Lemma take_write_at (bytes buf : list Z) (pos : nat) :
  take (length buf) (drop pos (write_at bytes pos buf)) = buf.
Proof.
  unfold write_at.
  assert (Hlen : length (take pos (bytes ++ replicate (pos - length bytes) 0)) = pos).
  { rewrite length_take, length_app, length_replicate. lia. }
  rewrite <- Hlen at 1. rewrite drop_app_length. apply take_app_length.
Qed.

Lemma HCPwrite_run (st : hdf_state L) access_rec ar p i n data :
  attached_to st access_rec ar p i ->
  HCPwrite access_rec n data st
  = if n <? 0 then Some (FAIL, with_error DFE_RANGE st)
    else
      let '(r, l) := mstdio_write ar i n data (lower st) in
      if r =? FAIL then Some (FAIL, with_error DFE_MODEL (set_lower l st))
      else
        let new_posn := to_int32 (posn ar + n) in
        let st1 := with_posn access_rec new_posn (set_lower l st) in
        if new_posn >? ci_length i then
          let st2 := set_heap (<[p := set_ci_length new_posn i]> (heap st1))
                              (heap_avail st1) st1 in
          let file_rec := match files st !! file_id ar with
                          | Some _ => Some (file_id ar)
                          | None => None
                          end in
          (let* d := get_dd (block ar, idx ar) in
           let* s := HPseek file_rec (to_int32 (dd_offset d + 4)) in
           if s =? FAIL then HRETURN_ERROR DFE_SEEKERROR FAIL
           else
             let* w := HPwrite file_rec (INT32ENCODE [] new_posn) 4 in
             if w =? FAIL then HRETURN_ERROR DFE_WRITEERROR FAIL
             else ret n) st2
        else Some (n, st1).
Proof.
  intros Hatt. pose proof Hatt as (Har & Hp & Hi & Hm).
  unfold HCPwrite. unfold bind at 1. unfold get_accrec at 1, deref. rewrite Har.
  cbn zeta. unfold bind at 1. unfold FID2REC at 1, gets.
  destruct (n <? 0); [done|].
  unfold bind at 1. rewrite (model_call_run _ _ _ _ _ _ Hatt).
  destruct (mstdio_write ar i n data (lower st)) as [r l]. cbn [fst snd].
  destruct (r =? FAIL); [done|].
  unfold bind at 1. unfold get_accrec at 1, deref. cbn [access_records set_lower].
  rewrite Har.
  unfold bind at 1. unfold put_accrec at 1, modify.
  unfold bind at 1. unfold get_info at 1, deref.
  cbn [heap set_access_records set_lower access_records].
  rewrite Hp, Hi. cbn [posn set_posn].
  replace (set_access_records _ (set_lower l st))
    with (with_posn access_rec (to_int32 (posn ar + n)) (set_lower l st))
    by (unfold with_posn; cbn; by rewrite Har).
  destruct (to_int32 (posn ar + n) >? ci_length i); [|done].
  unfold bind at 1. unfold put_info at 1, modify. done.
Qed.

(** What a successful [HCPwrite] leaves: the position has advanced by
    [n]; when it does not exceed the length, nothing else but the state
    of the modelling layer has changed; when it does, the length is the
    new position and its bytes are in the file of the descriptor. *)
Lemma HCPwrite_success (st : hdf_state L) access_rec ar p i n data r st' :
  attached_to st access_rec ar p i ->
  is_int32 (posn ar + n) ->
  0 <= n ->
  HCPwrite access_rec n data st = Some (r, st') ->
  r <> FAIL ->
  exists l,
    r = n
    /\ fst (mstdio_write ar i n data (lower st)) <> FAIL
    /\ l = snd (mstdio_write ar i n data (lower st))
    /\ ((posn ar + n <= ci_length i
         /\ st' = with_posn access_rec (posn ar + n) (set_lower l st))
        \/ (posn ar + n > ci_length i
            /\ exists d f,
                 lookup_dd (files st) (block ar, idx ar) = Some d
                 /\ files st !! file_id ar = Some f
                 /\ 0 <= to_int32 (dd_offset d + 4)
                 /\ st' = with_length p (file_id ar) (to_int32 (dd_offset d + 4) - 4)
                            (posn ar + n)
                            (with_posn access_rec (posn ar + n) (set_lower l st)))).
Proof.
  intros Hatt Hsum Hn Hrun Hok. pose proof Hatt as (Har & Hp & Hi & Hm).
  rewrite (HCPwrite_run _ _ _ _ _ _ _ Hatt) in Hrun. revert Hrun.
  destruct (Z.ltb_spec n 0); [lia|].
  destruct (mstdio_write ar i n data (lower st)) as [rm l] eqn:Hw.
  cbv beta iota zeta.
  destruct (Z.eqb_spec rm FAIL) as [|Hrm]; [by intros [= <- <-]|].
  exists l. cbn [fst snd]. revert Hrun. rewrite (to_int32_id _ Hsum).
  destruct (Z.gtb_spec (posn ar + n) (ci_length i)) as [Hgt|Hle].
  - unfold bind at 1. unfold get_dd at 1, deref.
    cbn [files set_heap with_posn set_lower].
    assert (Hfiles : files (with_posn access_rec (posn ar + n) (set_lower l st)) = files st).
    { unfold with_posn. cbn. by rewrite Har. }
    assert (Hheap : heap (with_posn access_rec (posn ar + n) (set_lower l st)) = heap st).
    { unfold with_posn. cbn. by rewrite Har. }
    rewrite Hfiles.
    destruct (lookup_dd (files st) (block ar, idx ar)) as [d|] eqn:Hd; [|by intros [=]].
    destruct (files st !! file_id ar) as [f|] eqn:Hf.
    2:{ unfold bind, HPseek, get_file, deref. cbn. by intros [=]. }
    unfold bind at 1. unfold HPseek at 1.
    unfold bind at 1. unfold get_file at 1, deref.
    cbn [files set_heap]. rewrite Hfiles, Hf.
    pose proof FAIL_neq_SUCCEED as Hfs.
    destruct (Z.ltb_spec (to_int32 (dd_offset d + 4)) 0) as [|Hoff].
    { cbn. rewrite Z.eqb_refl. cbn. by intros [= <- <-]. }
    cbn.
    destruct (Z.eqb_spec SUCCEED FAIL) as [|_]; [done|].
    unfold bind at 1. unfold HPwrite at 1.
    unfold bind at 1. unfold get_file at 1, deref.
    cbn. rewrite lookup_insert_eq. cbn.
    destruct (Z.land (f_access f) DFACC_WRITE =? 0).
    { cbn. rewrite Z.eqb_refl. cbn. by intros [= <- <-]. }
    cbn. destruct (Z.ltb_spec (to_int32 (dd_offset d + 4)) 0); [lia|].
    cbn. destruct (Z.eqb_spec SUCCEED FAIL) as [|_]; [done|].
    cbn. intros Hrun. injection Hrun as <- <-.
    repeat split; [done|]. right. split; [lia|]. exists d, f. repeat split; [done|].
    unfold with_length. rewrite Hfiles, Hf, Hheap, Hi.
    replace (to_int32 (dd_offset d + 4) - 4 + 4) with (to_int32 (dd_offset d + 4)) by lia.
    unfold set_files, set_heap. cbn. rewrite insert_insert_eq. done.
  - intros Hrun. injection Hrun as <- <-. repeat split; [done|]. left. split; [lia|done].
Qed.


Lemma with_posn_files (st : hdf_state L) access_rec v :
  files (with_posn access_rec v st) = files st.
Proof. unfold with_posn. by destruct (access_records st !! access_rec). Qed.

Lemma with_posn_heap (st : hdf_state L) access_rec v :
  heap (with_posn access_rec v st) = heap st.
Proof. unfold with_posn. by destruct (access_records st !! access_rec). Qed.

Lemma with_length_access_records (st : hdf_state L) p k off v :
  access_records (with_length p k off v st) = access_records st.
Proof.
  unfold with_length. by destruct (heap st !! p), (files st !! k).
Qed.

Lemma length_of_with_length (st : hdf_state L) p k off v i f :
  heap st !! p = Some i -> files st !! k = Some f ->
  length_of (with_length p k off v st) p = Some v.
Proof.
  intros Hi Hf. unfold length_of, with_length. rewrite Hi, Hf. cbn.
  by rewrite lookup_insert_eq.
Qed.

Lemma file_region_with_length (st : hdf_state L) p k off v i f :
  heap st !! p = Some i -> files st !! k = Some f -> 0 <= off + 4 ->
  file_region (with_length p k off v st) k (off + 4) 4
  = Some (INT32ENCODE [] v).
Proof.
  intros Hi Hf Hoff. unfold file_region, with_length. rewrite Hi, Hf. cbn.
  rewrite lookup_insert_eq. cbn. f_equal.
  apply (take_write_at (f_bytes f) (INT32ENCODE [] v)).
Qed.

(** C2: for a successful [HCPwrite] of [n >= 0] bytes on an access
    record attached to a compressed element, the position has advanced
    by [n]; if the new position exceeds the stored length, the length
    is the new position and the four bytes at descriptor offset + 4 of
    the file are its big-endian encoding.  A negative [n] fails with
    [DFE_RANGE], and nothing but the error stack changes. *)
Theorem HCPwrite_spec (st : hdf_state L) access_rec ar p i n data :
  attached_to st access_rec ar p i ->
  is_int32 (posn ar + n) ->
  (n < 0 ->
   HCPwrite access_rec n data st = Some (FAIL, with_error DFE_RANGE st))
  /\ (0 <= n ->
      forall r st',
        HCPwrite access_rec n data st = Some (r, st') ->
        r <> FAIL ->
        r = n
        /\ posn_of st' access_rec = Some (posn ar + n)
        /\ (posn ar + n > ci_length i ->
            length_of st' p = Some (posn ar + n)
            /\ exists d,
                 lookup_dd (files st) (block ar, idx ar) = Some d
                 /\ (is_int32 (dd_offset d + 4) ->
                     file_region st' (file_id ar) (dd_offset d + 4) 4
                     = Some (INT32ENCODE [] (posn ar + n))))).
Proof.
  intros Hatt Hsum. pose proof Hatt as (Har & Hp & Hi & Hm). split.
  - intros Hneg. rewrite (HCPwrite_run _ _ _ _ _ _ _ Hatt).
    by destruct (Z.ltb_spec n 0); [|lia].
  - intros Hn r st' Hrun Hok.
    destruct (HCPwrite_success _ _ _ _ _ _ _ _ _ Hatt Hsum Hn Hrun Hok)
      as (l & -> & _ & _ & [[Hle ->] | (Hgt & d & f & Hd & Hf & Hoff & ->)]).
    + split; [done|]. split; [|lia].
      by apply (posn_of_with_posn _ _ ar).
    + split; [done|]. split.
      * unfold posn_of. rewrite with_length_access_records.
        by apply (posn_of_with_posn _ _ ar).
      * intros _. split.
        -- eapply length_of_with_length; [by rewrite with_posn_heap|].
           by rewrite with_posn_files.
        -- exists d. split; [done|]. intros Hd4.
           rewrite (to_int32_id _ Hd4) in *.
           replace (dd_offset d + 4) with (dd_offset d + 4 - 4 + 4) at 2 by lia.
           eapply file_region_with_length; [by rewrite with_posn_heap| |lia].
           by rewrite with_posn_files.
Qed.

(** C3, as the code has it: a successful [HCPwrite] of 0 bytes leaves
    the special information and the files as they were when the
    position does not exceed the stored length; at a position past the
    end of the element it sets the length to the position and stores
    its big-endian bytes at descriptor offset + 4. *)
Theorem HCPwrite_zero_spec (st : hdf_state L) access_rec ar p i data r st' :
  attached_to st access_rec ar p i ->
  is_int32 (posn ar) ->
  HCPwrite access_rec 0 data st = Some (r, st') ->
  r <> FAIL ->
  (posn ar <= ci_length i -> heap st' = heap st /\ files st' = files st)
  /\ (posn ar > ci_length i ->
      length_of st' p = Some (posn ar)
      /\ exists d,
           lookup_dd (files st) (block ar, idx ar) = Some d
           /\ (is_int32 (dd_offset d + 4) ->
               file_region st' (file_id ar) (dd_offset d + 4) 4
               = Some (INT32ENCODE [] (posn ar)))).
Proof.
  intros Hatt Hposn Hrun Hok. pose proof Hatt as (Har & Hp & Hi & Hm).
  assert (Hsum : is_int32 (posn ar + 0)) by (by rewrite Z.add_0_r).
  destruct (HCPwrite_success _ _ _ _ _ _ _ _ _ Hatt Hsum (Z.le_refl 0) Hrun Hok)
    as (l & _ & _ & _ & [[Hle ->] | (Hgt & d & f & Hd & Hf & Hoff & ->)]);
    rewrite Z.add_0_r in *.
  - split; [|lia]. intros _. by rewrite with_posn_heap, with_posn_files.
  - split; [lia|]. intros _. split.
    + eapply length_of_with_length; [by rewrite with_posn_heap|].
      by rewrite with_posn_files.
    + exists d. split; [done|]. intros Hd4.
      rewrite (to_int32_id _ Hd4) in *.
      replace (dd_offset d + 4) with (dd_offset d + 4 - 4 + 4) at 2 by lia.
      eapply file_region_with_length; [by rewrite with_posn_heap| |lia].
      by rewrite with_posn_files.
Qed.

End AccessProperties.


Section LifecycleProperties.

Context `{Hh : hdf_h} {L : Type} `{ML : model_layer L}.


Lemma info_frame_refl p (st : hdf_state L) : info_frame p st st.
Proof. done. Qed.

Lemma info_frame_trans p (st1 st2 st3 : hdf_state L) :
  info_frame p st1 st2 -> info_frame p st2 st3 -> info_frame p st1 st3.
Proof.
  intros (Ha & Hq & Hp) (Ha' & Hq' & Hp'). split; [congruence|]. split.
  - intros q Hne. rewrite Hq', Hq; done.
  - congruence.
Qed.

Lemma info_frame_errstack p e (st : hdf_state L) : info_frame p st (set_errstack e st).
Proof. done. Qed.

Lemma info_frame_files p fs (st : hdf_state L) : info_frame p st (set_files fs st).
Proof. done. Qed.

Lemma info_frame_put_gen p i i' (st : hdf_state L) h n :
  heap st !! p = Some i -> attached i' = attached i ->
  h = <[p := i']> (heap st) ->
  info_frame p st (set_heap h n st).
Proof.
  intros Hi Hatt ->. split; [done|]. split.
  - intros q Hne. cbn. by rewrite lookup_insert_ne.
  - cbn. rewrite lookup_insert_eq, Hi. cbn. by rewrite Hatt.
Qed.

Lemma info_frame_put p i i' (st : hdf_state L) :
  heap st !! p = Some i -> attached i' = attached i ->
  info_frame p st (set_heap (<[p := i']> (heap st)) (heap_avail st) st).
Proof. intros Hi Hatt. by eapply info_frame_put_gen. Qed.

Lemma HCIinit_model_frame p model_type (st : hdf_state L) r st' :
  HCIinit_model (Some p) model_type st = Some (r, st') -> info_frame p st st'.
Proof.
  unfold HCIinit_model. intros H.
  apply bind_inv in H as (i & st1 & Hget & H).
  unfold get_info, deref in Hget. destruct (heap st !! p) as [i0|] eqn:Hi; [|done].
  injection Hget as <- <-.
  destruct (model_type =? COMP_MODEL_STDIO).
  - cbn in H. injection H as <- <-. by eapply info_frame_put.
  - cbn in H. injection H as <- <-. apply info_frame_errstack.
Qed.

Lemma HCIinit_coder_frame p coder_type c_info (st : hdf_state L) r st' :
  HCIinit_coder (Some p) coder_type c_info st = Some (r, st') -> info_frame p st st'.
Proof.
  unfold HCIinit_coder. intros H.
  apply bind_inv in H as (i & st1 & Hget & H).
  unfold get_info, deref in Hget. destruct (heap st !! p) as [i0|] eqn:Hi; [|done].
  injection Hget as <- <-. cbv zeta in H.
  repeat match type of H with
         | (if ?c then _ else _) _ = _ => destruct c
         end;
    cbn in H;
    repeat match type of H with
           | (if ?c then _ else _) _ = _ => destruct c; cbn in H
           end;
    injection H as <- <-;
    try (by eapply info_frame_put); try apply info_frame_errstack.
Qed.


Lemma set_files_same (st : hdf_state L) : set_files (files st) st = st.
Proof. by destruct st. Qed.

Lemma get_file_inv fr (st : hdf_state L) f st' :
  get_file fr st = Some (f, st') -> st' = st.
Proof.
  unfold get_file, deref. destruct fr as [k|]; [|done].
  destruct (files st !! k); [|done]. by intros [= _ <-].
Qed.

Lemma get_dd_inv dd (st : hdf_state L) d st' :
  get_dd dd st = Some (d, st') -> st' = st /\ lookup_dd (files st) dd = Some d.
Proof.
  unfold get_dd, deref. destruct (lookup_dd (files st) dd); [|done].
  by intros [= <- <-].
Qed.

Lemma get_info_inv p (st : hdf_state L) i st' :
  get_info (Some p) st = Some (i, st') -> st' = st /\ heap st !! p = Some i.
Proof.
  unfold get_info, deref. destruct (heap st !! p); [|done]. by intros [= <- <-].
Qed.

Lemma get_accrec_inv access_rec (st : hdf_state L) ar st' :
  get_accrec access_rec st = Some (ar, st') ->
  st' = st /\ access_records st !! access_rec = Some ar.
Proof.
  unfold get_accrec, deref. destruct (access_records st !! access_rec); [|done].
  by intros [= <- <-].
Qed.

Lemma HPseek_inv fr off (st : hdf_state L) r st' :
  HPseek fr off st = Some (r, st') -> exists fs, st' = set_files fs st.
Proof.
  unfold HPseek. intros H. apply bind_inv in H as (f & st1 & Hf & H).
  apply get_file_inv in Hf as ->.
  destruct (off <? 0).
  - injection H as <- <-. exists (files st). by rewrite set_files_same.
  - destruct fr as [k|]; [|done]. cbn in H. injection H as <- <-. by eexists.
Qed.

Lemma HPread_inv fr n (st : hdf_state L) r st' :
  HPread fr n st = Some (r, st') -> exists fs, st' = set_files fs st.
Proof.
  unfold HPread. intros H. apply bind_inv in H as (f & st1 & Hf & H).
  apply get_file_inv in Hf as ->.
  destruct (_ || _).
  - injection H as <- <-. exists (files st). by rewrite set_files_same.
  - destruct fr as [k|]; [|done]. cbn in H. injection H as <- <-. by eexists.
Qed.

Lemma HCIread_header_frame fr access_rec p info_dd c_info (st : hdf_state L) r st' :
  HCIread_header fr access_rec (Some p) info_dd c_info st = Some (r, st') ->
  info_frame p st st'.
Proof.
  unfold HCIread_header. intros H.
  apply bind_inv in H as (d & st1 & Hd & H). apply get_dd_inv in Hd as [-> _].
  apply bind_inv in H as (s & st1 & Hs & H). apply HPseek_inv in Hs as [fs1 ->].
  eapply info_frame_trans; [apply (info_frame_files p fs1)|].
  destruct (s =? FAIL); [cbn in H; injection H as <- <-; apply info_frame_errstack|].
  apply bind_inv in H as ([r1 buf] & st1 & Hr & H). apply HPread_inv in Hr as [fs2 ->].
  eapply info_frame_trans; [apply (info_frame_files p fs2)|].
  destruct (r1 =? FAIL); [cbn in H; injection H as <- <-; apply info_frame_errstack|].
  destruct (UINT16DECODE buf) as [header_version p1].
  destruct (INT32DECODE p1) as [len p2].
  destruct (UINT16DECODE p2) as [cref p3].
  destruct (UINT16DECODE p3) as [mtype p4].
  destruct (UINT16DECODE p4) as [ctype p5].
  apply bind_inv in H as (i & st1 & Hi & H). apply get_info_inv in Hi as [-> Hi].
  apply bind_inv in H as ([] & st1 & Hput & H).
  unfold put_info, modify in Hput. injection Hput as <-.
  match type of H with
  | _ ?s = _ =>
      apply (info_frame_trans _ _ s);
        [eapply info_frame_put_gen; [exact Hi| |reflexivity]; done|]
  end.
  destruct (ctype =? COMP_CODE_NBIT).
  { apply bind_inv in H as ([r2 buf2] & st3 & Hr & H).
    apply HPread_inv in Hr as [fs3 ->].
    eapply info_frame_trans; [apply (info_frame_files p fs3)|].
    destruct (r2 =? FAIL); [cbn in H; injection H as <- <-; apply info_frame_errstack|].
    destruct (INT32DECODE buf2) as [? q1]. destruct (UINT16DECODE q1) as [? q2].
    destruct (UINT16DECODE q2) as [? q3]. destruct (INT32DECODE q3) as [? q4].
    destruct (INT32DECODE q4) as [? q5].
    injection H as <- <-. apply info_frame_refl. }
  destruct (ctype =? COMP_CODE_SKPHUFF).
  { apply bind_inv in H as ([r2 buf2] & st3 & Hr & H).
    apply HPread_inv in Hr as [fs3 ->].
    eapply info_frame_trans; [apply (info_frame_files p fs3)|].
    destruct (r2 =? FAIL); [cbn in H; injection H as <- <-; apply info_frame_errstack|].
    destruct (UINT32DECODE buf2) as [? q1]. destruct (UINT32DECODE q1) as [? q2].
    injection H as <- <-. apply info_frame_refl. }
  injection H as <- <-. apply info_frame_refl.
Qed.


Lemma HRETURN_ERROR_inv {A : Type} e (v : A) (st : hdf_state L) r st' :
  HRETURN_ERROR e v st = Some (r, st') -> r = v.
Proof. cbn. by intros [= <- _]. Qed.

Lemma seq_HRETURN_ERROR_inv {A B : Type} (m : M B) e (v : A) (st : hdf_state L) r st' :
  (m ;; HRETURN_ERROR e v) st = Some (r, st') -> r = v.
Proof.
  intros H. apply bind_inv in H as (? & ? & _ & H). by eapply HRETURN_ERROR_inv.
Qed.

Lemma BADFREC_inv fr (st : hdf_state L) b st' :
  BADFREC fr st = Some (b, st') -> st' = st.
Proof.
  unfold BADFREC. destruct fr as [k|]; [|by intros [= _ <-]].
  intros H. apply bind_inv in H as (f & st1 & Hf & H).
  apply get_file_inv in Hf as ->. by injection H as _ <-.
Qed.

Lemma HDmalloc_inv (st : hdf_state L) info st' :
  HDmalloc st = Some (info, st') ->
  (info = None /\ st' = st)
  \/ (exists p n, info = Some p /\ heap st !! p = None
                  /\ st' = set_heap (<[p := junk_compinfo st]> (heap st)) n st).
Proof.
  unfold HDmalloc. destruct (heap_avail st) as [|n].
  - intros [= <- <-]. by left.
  - intros [= <- <-]. right. eexists _, _. split; [done|]. split; [|done].
    apply not_elem_of_dom. apply is_fresh.
Qed.

(** An attach that succeeds leaves the access record with a special
    information record of its own: freshly allocated, with an attach
    count of 1; the records that existed are as they were. *)
Lemma HCIstaccess_fresh access_rec acc_mode (st : hdf_state L) r st' :
  HCIstaccess access_rec acc_mode st = Some (r, st') ->
  r <> FAIL ->
  exists p i',
    heap st !! p = None
    /\ heap st' !! p = Some i'
    /\ attached i' = 1
    /\ special_info <$> access_records st' !! access_rec = Some (Some p)
    /\ forall q, q <> p -> heap st' !! q = heap st !! q.
Proof.
  unfold HCIstaccess. intros H Hok.
  apply bind_inv in H as (ar & st1 & Har & H). apply get_accrec_inv in Har as [-> Har].
  apply bind_inv in H as (file_rec & st1 & Hfr & H). injection Hfr as <- <-.
  apply bind_inv in H as (bad & st1 & Hbad & H). apply BADFREC_inv in Hbad as ->.
  destruct bad; [by apply HRETURN_ERROR_inv in H|].
  apply bind_inv in H as (f & st1 & Hf & H). apply get_file_inv in Hf as ->.
  destruct (Z.land (f_access f) acc_mode =? 0); [by apply HRETURN_ERROR_inv in H|].
  cbv zeta in H.
  apply bind_inv in H as ([] & st1 & Hput & H). injection Hput as <-.
  apply bind_inv in H as (info & st1 & Hmalloc & H).
  apply HDmalloc_inv in Hmalloc as [[-> ->] | (p & n & -> & Hfresh & ->)].
  { apply bind_inv in H as ([] & st1 & _ & H). by apply HRETURN_ERROR_inv in H. }
  apply bind_inv in H as ([] & st1 & Hput & H). injection Hput as <-.
  apply bind_inv in H as (c0 & st1 & Hj & H). injection Hj as <- <-.
  apply bind_inv in H as ([r1 c_info] & st1 & Hread & H).
  apply HCIread_header_frame in Hread as (Hars1 & Hothers1 & Hatt1).
  destruct (r1 =? FAIL); [by apply seq_HRETURN_ERROR_inv in H|].
  apply bind_inv in H as (i & st2 & Hi & H). apply get_info_inv in Hi as [-> Hi].
  apply bind_inv in H as ([] & st2 & Hput & H).
  unfold put_info, modify in Hput. injection Hput as <-.
  apply bind_inv in H as (m & st3 & Hm & H).
  apply HCIinit_model_frame in Hm as (Hars3 & Hothers3 & Hatt3).
  destruct (m =? FAIL); [by apply seq_HRETURN_ERROR_inv in H|].
  apply bind_inv in H as (c & st4 & Hc & H).
  apply HCIinit_coder_frame in Hc as (Hars4 & Hothers4 & Hatt4).
  destruct (c =? FAIL); [by apply seq_HRETURN_ERROR_inv in H|].
  apply bind_inv in H as (f' & st5 & Hf & H). apply get_file_inv in Hf as ->.
  apply bind_inv in H as ([] & st5 & Hput & H).
  assert (Hst5 : exists fs, st5 = set_files fs st4).
  { destruct (files st !! file_id ar); [|done]. cbn in Hput.
    injection Hput as <-. by eexists. }
  destruct Hst5 as [fs ->]. injection H as _ <-.
  cbn [heap access_records set_files set_heap set_access_records] in *.
  rewrite Hatt3, lookup_insert_eq in Hatt4. cbn in Hatt4.
  destruct (heap st4 !! p) as [i'|] eqn:Hi'; [|done].
  exists p, i'. split; [done|]. split; [done|]. split; [by injection Hatt4|]. split.
  - rewrite Hars4, Hars3, Hars1. cbn.
    rewrite list_insert_insert_eq, list_lookup_insert_eq; [done|].
    by eapply lookup_lt_Some.
  - intros q Hne. rewrite Hothers4, Hothers3 by done. cbn.
    rewrite lookup_insert_ne, Hothers1 by done. cbn. by rewrite lookup_insert_ne.
Qed.

(** [HCPcloseAID] on an attached record, the modelling layer ending its
    access without failure: the attach count is decremented, and the
    record is freed exactly when the count has dropped to zero. *)
Lemma HCPcloseAID_run access_rec ar p i (st : hdf_state L) :
  access_records st !! access_rec = Some ar ->
  special_info ar = Some p ->
  heap st !! p = Some i ->
  model_funcs (minfo i) = mstdio_funcs ->
  is_int32 (attached i - 1) ->
  fst (mstdio_endaccess ar i (lower st)) <> FAIL ->
  HCPcloseAID access_rec st
  = Some (SUCCEED,
          set_heap
            (if attached i - 1 =? 0 then delete p (heap st)
             else <[p := set_attached (attached i - 1) i]> (heap st))
            (if attached i - 1 =? 0 then S (heap_avail st) else heap_avail st)
            (set_lower (snd (mstdio_endaccess ar i (lower st))) st)).
Proof.
  intros Har Hp Hi Hm Hrange Hok. unfold HCPcloseAID, model_call.
  unfold bind at 1. unfold get_accrec at 1, deref. rewrite Har.
  unfold bind at 1. unfold bind at 1. unfold get_accrec at 1, deref. rewrite Har.
  unfold bind at 1. unfold get_info at 1, deref. rewrite Hp, Hi, Hm.
  destruct (mstdio_endaccess ar i (lower st)) as [r l]. cbn [fst snd] in *.
  apply Z.eqb_neq in Hok. rewrite Hok.
  unfold bind at 1. unfold get_info at 1, deref. cbn [heap set_lower]. rewrite Hi.
  rewrite (to_int32_id _ Hrange).
  unfold bind at 1. unfold put_info at 1, modify.
  cbn [attached set_attached].
  destruct (attached i - 1 =? 0).
  - unfold bind at 1. unfold HDfree. unfold bind at 1.
    unfold get_info at 1, deref. cbn [heap set_heap]. rewrite lookup_insert_eq.
    unfold modify, ret. cbn. by rewrite delete_insert_eq.
  - done.
Qed.


(** C9, as the code has it: every attach ([HCIstaccess]) that succeeds
    gives the access record a special information record of its own,
    freshly allocated and with [attached = 1], and leaves the records of
    the other access records as they were: records are not shared and
    no attach increments a count.  Every [HCPcloseAID] on an attached
    record (the modelling layer ending its access without failure)
    decrements [attached], and the record is freed exactly when the
    count has dropped to zero. *)
Theorem special_info_lifecycle access_rec (st : hdf_state L) :
  (forall acc_mode r st',
     HCIstaccess access_rec acc_mode st = Some (r, st') ->
     r <> FAIL ->
     exists p i',
       heap st !! p = None
       /\ heap st' !! p = Some i'
       /\ attached i' = 1
       /\ special_info <$> access_records st' !! access_rec = Some (Some p)
       /\ forall q, q <> p -> heap st' !! q = heap st !! q)
  /\ (forall ar p i,
        access_records st !! access_rec = Some ar ->
        special_info ar = Some p ->
        heap st !! p = Some i ->
        model_funcs (minfo i) = mstdio_funcs ->
        is_int32 (attached i - 1) ->
        fst (mstdio_endaccess ar i (lower st)) <> FAIL ->
        exists st',
          HCPcloseAID access_rec st = Some (SUCCEED, st')
          /\ (attached i - 1 = 0 -> heap st' !! p = None)
          /\ (attached i - 1 <> 0 ->
              heap st' !! p = Some (set_attached (attached i - 1) i))
          /\ forall q, q <> p -> heap st' !! q = heap st !! q).
Proof.
  split.
  - intros acc_mode r st' Hrun Hok. by eapply HCIstaccess_fresh.
  - intros ar p i Har Hp Hi Hm Hrange Hok.
    eexists. split; [by apply HCPcloseAID_run|]. cbn [heap set_heap].
    split; [|split].
    + intros Hz. apply Z.eqb_eq in Hz. rewrite Hz. apply lookup_delete_eq.
    + intros Hnz. apply Z.eqb_neq in Hnz. rewrite Hnz. apply lookup_insert_eq.
    + intros q Hne. destruct (attached i - 1 =? 0).
      * by rewrite lookup_delete_ne.
      * by rewrite lookup_insert_ne.
Qed.

End LifecycleProperties.


Section CreateProperties.

Context `{Hh : hdf_h} {L : Type} `{ML : model_layer L}.

Lemma find_index_Some {A : Type} (P : A -> bool) (l : list A) (n i : nat) :
  find_index P l n = Some i ->
  exists a, (n <= i)%nat /\ l !! (i - n)%nat = Some a /\ P a = true.
Proof.
  revert n. induction l as [|x l IH]; intros n; cbn; [done|].
  destruct (P x) eqn:HP.
  - intros [= <-]. exists x. rewrite Nat.sub_diag. done.
  - intros H. apply IH in H as (a & Hle & Ha & HPa). exists a.
    split; [lia|]. split; [|done].
    replace (i - n)%nat with (S (i - S n)) by lia. done.
Qed.

Lemma set_used_restore a : used a = false -> set_used false (set_used true a) = a.
Proof. destruct a. cbn. by intros ->. Qed.

(** [BADFREC(FID2REC(file_id))] never dereferences a null pointer. *)
Lemma BADFREC_FID2REC_run (st : hdf_state L) file_id :
  BADFREC (match files st !! file_id with
           | Some _ => Some file_id
           | None => None
           end) st
  = Some (match files st !! file_id with
          | Some f => f_refcount f =? 0
          | None => true
          end, st).
Proof.
  destruct (files st !! file_id) as [f|] eqn:Hf; [|done].
  unfold BADFREC, bind, get_file, deref. by rewrite Hf.
Qed.

(** The result of [HIlookup_dd] is read off the files alone. *)
Lemma HIlookup_dd_files (st st2 : hdf_state L) fr tag ref x :
  files st2 = files st ->
  HIlookup_dd fr tag ref st = Some (x, st) ->
  HIlookup_dd fr tag ref st2 = Some (x, st2).
Proof.
  intros Hfiles. unfold HIlookup_dd, bind, get_file, deref. rewrite Hfiles.
  destruct fr as [k|]; [|done]. destruct (files st !! k); [|done].
  cbn. by intros [= ->].
Qed.

(** C5: [HCcreate] fails
    - with [DFE_ARGS] when the tag is already special;
    - with [DFE_DENIED] when, the arguments being valid, the file is not
      open for writing;
    - with [DFE_CANTMOD] when, the file being writable and an access
      record free, the element found at [(tag, ref)] is special;
    and in each case the state is the one [HCcreate] was entered with,
    apart from the error stack: no element is created. *)
Theorem HCcreate_failures (st : hdf_state L) file_id tag ref model_type coder_type
    c_info :
  (SPECIALTAG tag = true ->
   HCcreate file_id tag ref model_type coder_type c_info st
   = Some (FAIL, set_errstack [DFE_ARGS] st))
  /\ (forall f,
        files st !! file_id = Some f ->
        f_refcount f <> 0 ->
        SPECIALTAG tag = false ->
        MKSPECIALTAG tag <> DFTAG_NULL ->
        (Z.land (f_access f) DFACC_WRITE = 0 ->
         HCcreate file_id tag ref model_type coder_type c_info st
         = Some (FAIL, set_errstack [DFE_DENIED] st))
        /\ (forall slot data_dd d,
              Z.land (f_access f) DFACC_WRITE <> 0 ->
              find_index (fun a => negb (used a)) (access_records st) 0 = Some slot ->
              HIlookup_dd (Some file_id) tag ref st = Some (Some data_dd, st) ->
              lookup_dd (files st) data_dd = Some d ->
              SPECIALTAG (dd_tag d) = true ->
              HCcreate file_id tag ref model_type coder_type c_info st
              = Some (FAIL, set_errstack [DFE_CANTMOD] st))).
Proof.
  split.
  - intros Hspecial. unfold HCcreate.
    unfold bind at 1. unfold HEclear at 1, modify.
    unfold bind at 1. unfold FID2REC at 1, gets. cbn [files set_errstack].
    step (BADFREC_FID2REC_run (set_errstack [] st) file_id).
    rewrite Hspecial, orb_true_r. reflexivity.
  - intros f Hf Hrefcount Htag Hmk.
    apply Z.eqb_neq in Hrefcount, Hmk.
    split.
    + intros Hro. unfold HCcreate.
      unfold bind at 1. unfold HEclear at 1, modify.
      unfold bind at 1. unfold FID2REC at 1, gets. cbn [files set_errstack].
      step (BADFREC_FID2REC_run (set_errstack [] st) file_id).
      cbn [files set_errstack]. rewrite Hf, Hrefcount, Htag, Hmk. cbn [orb].
      unfold bind at 1. unfold get_file at 1, deref. cbn [files set_errstack].
      rewrite Hf, Hro, Z.eqb_refl. reflexivity.
    + intros slot data_dd d Hrw Hslot Hlook Hd Hsp.
      apply Z.eqb_neq in Hrw.
      apply find_index_Some in Hslot as Hslot'.
      destruct Hslot' as (a & _ & Ha & Hunused).
      rewrite Nat.sub_0_r in Ha. apply negb_true_iff in Hunused.
      unfold HCcreate.
      unfold bind at 1. unfold HEclear at 1, modify.
      unfold bind at 1. unfold FID2REC at 1, gets. cbn [files set_errstack].
      step (BADFREC_FID2REC_run (set_errstack [] st) file_id).
      cbn [files set_errstack]. rewrite Hf, Hrefcount, Htag, Hmk. cbn [orb].
      unfold bind at 1. unfold get_file at 1, deref. cbn [files set_errstack].
      rewrite Hf, Hrw.
      (* HIget_access_slot *)
      unfold bind at 1. unfold HIget_access_slot at 1.
      unfold bind at 1. unfold gets at 1. cbn [access_records set_errstack].
      rewrite Hslot.
      unfold bind at 1. unfold get_accrec at 1, deref. cbn [access_records set_errstack].
      rewrite Ha.
      unfold bind at 1. unfold put_accrec at 1, modify. unfold ret at 1.
      pose proof FAIL_negative.
      destruct (Z.eqb_spec (Z.of_nat slot) FAIL) as [|_]; [lia|].
      rewrite Nat2Z.id.
      (* the element found at (tag, ref) *)
      unfold bind at 1. unfold bind at 1.
      erewrite (HIlookup_dd_files st); [|done|done].
      unfold bind at 1. unfold get_dd at 1, deref.
      cbn [files set_access_records set_errstack]. rewrite Hd, Hsp.
      unfold bind at 1. unfold release at 1.
      unfold bind at 1. unfold get_accrec at 1, deref.
      cbn [access_records set_access_records set_errstack].
      rewrite list_lookup_insert_eq by (by eapply lookup_lt_Some).
      unfold put_accrec, modify. cbn.
      rewrite list_insert_insert_eq, set_used_restore by done.
      by rewrite list_insert_id.
Qed.

End CreateProperties.


(** ** The properties on the sample states *)

Section Examples.

#[local] Existing Instance hdf4_h.
#[local] Existing Instance buffer_layer.

Lemma sample_attached : attached_to sample_state 0 sample_accrec 1 sample_info.
Proof. repeat split; vm_compute; reflexivity. Defined.



Lemma HCPwrite_spec_witness :
  let st' := final (HCPwrite 0 4 [1; 2; 3; 4] sample_state) in
  HCPwrite 0 4 [1; 2; 3; 4] sample_state = Some (4, st')
  /\ posn_of st' 0 = Some 6
  /\ length_of st' 1 = Some 6
  /\ file_region st' 7 8 4 = Some [0; 0; 0; 6].
Proof.
  intros st'.
  assert (Hrun : HCPwrite 0 4 [1; 2; 3; 4] sample_state = Some (4, st'))
    by (vm_compute; reflexivity).
  split; [exact Hrun|].
  destruct (proj2 (HCPwrite_spec sample_state 0 sample_accrec 1 sample_info 4
                     [1; 2; 3; 4] sample_attached
                     ltac:(unfold is_int32; cbn; lia))
              ltac:(lia) 4 st' Hrun ltac:(cbn; lia))
    as (_ & Hposn & Hgrow).
  split; [exact Hposn|].
  destruct (Hgrow ltac:(cbn; lia)) as (Hlen & d & Hd & Hbytes).
  split; [exact Hlen|].
  assert (Hd' : d = DD 17104 1 4 14) by (vm_compute in Hd; congruence).
  subst d. exact (Hbytes ltac:(unfold is_int32; cbn; lia)).
Defined.

(** C3 fails on the code: after a seek past the end of the 5-byte
    element, a write of 0 bytes sets the stored length to the position
    and rewrites the length field of the descriptor. *)
Lemma HCPwrite_zero_extends :
  let st1 := with_posn 0 10 (set_lower (BufferModel 10 [10; 20; 30; 40; 50])
                                       sample_state) in
  let st2 := final (HCPwrite 0 0 [] st1) in
  HCPseek 0 10 DF_START sample_state = Some (0, st1)
  /\ HCPwrite 0 0 [] st1 = Some (0, st2)
  /\ length_of st1 1 = Some 5
  /\ length_of st2 1 = Some 10
  /\ file_region st1 7 8 4 = Some [0; 0; 0; 5]
  /\ file_region st2 7 8 4 = Some [0; 0; 0; 10].
Proof. repeat split; vm_compute; reflexivity. Qed.

Lemma HCPwrite_zero_spec_witness :
  let st' := with_posn 0 2 (set_lower (BufferModel 2 [10; 20; 30; 40; 50])
                                      sample_state) in
  HCPwrite 0 0 [] sample_state = Some (0, st')
  /\ heap st' = heap sample_state
  /\ files st' = files sample_state.
Proof.
  intros st'.
  assert (Hrun : HCPwrite 0 0 [] sample_state = Some (0, st'))
    by (vm_compute; reflexivity).
  split; [exact Hrun|].
  exact (proj1 (HCPwrite_zero_spec sample_state 0 sample_accrec 1 sample_info []
                  0 st' sample_attached ltac:(unfold is_int32; cbn; lia)
                  Hrun ltac:(cbn; lia))
           ltac:(cbn; lia)).
Defined.

Lemma HCcreate_failures_witness :
  HCcreate 7 17104 1 0 1 (CInfo 0 0 0 0 0 0) sample_state
  = Some (FAIL, set_errstack [DFE_ARGS] sample_state)
  /\ HCcreate 7 720 1 0 1 (CInfo 0 0 0 0 0 0) read_only_state
     = Some (FAIL, set_errstack [DFE_DENIED] read_only_state)
  /\ HCcreate 7 720 1 0 1 (CInfo 0 0 0 0 0 0) sample_state
     = Some (FAIL, set_errstack [DFE_CANTMOD] sample_state).
Proof.
  split; [|split].
  - exact (proj1 (HCcreate_failures sample_state 7 17104 1 0 1 (CInfo 0 0 0 0 0 0))
             eq_refl).
  - refine (proj1 (proj2 (HCcreate_failures read_only_state 7 720 1 0 1
                            (CInfo 0 0 0 0 0 0))
                     read_only_file ltac:(vm_compute; reflexivity) _ eq_refl _)
              ltac:(vm_compute; reflexivity));
      vm_compute; discriminate.
  - refine (proj2 (proj2 (HCcreate_failures sample_state 7 720 1 0 1
                            (CInfo 0 0 0 0 0 0))
                     sample_file ltac:(vm_compute; reflexivity) _ eq_refl _)
              1%nat ((7, 0%nat), 0%nat) (DD 17104 1 4 14) _ eq_refl
              ltac:(vm_compute; reflexivity) ltac:(vm_compute; reflexivity) eq_refl);
      vm_compute; discriminate.
Defined.

(** C6 fails on the code in [HCcreate]: with the coder 99,
    [HCIinit_coder] reports [DFE_BADCODER], but [HCcreate] goes on: it
    writes a header with the coder type found in the fresh heap block
    (66 here), creates the DD and returns the AID of the access
    record. *)
Lemma HCcreate_ignores_bad_coder :
  let run := HCcreate 7 721 1 0 99 (CInfo 0 0 0 0 0 0) sample_state in
  returned run = Some (ASLOT2ID 1)
  /\ ASLOT2ID 1 <> FAIL
  /\ observed errstack run = Some [DFE_BADCODER]
  /\ observed (fun st => lookup_dd (files st) ((7, 0%nat), 1%nat)) run
     = Some (Some (DD 17105 1 18 14))
  /\ observed (fun st => file_region st 7 18 14) run
     = Some (Some [0; 3; 0; 0; 0; 0; 0; 1; 0; 3; 0; 0; 0; 66]).
Proof. repeat split; by vm_compute. Qed.

(** The same for an NBIT coder with a number type that has no size. *)
Lemma HCcreate_ignores_bad_number_type :
  let run := HCcreate 7 721 1 0 COMP_CODE_NBIT (CInfo 999 1 0 15 8 0) sample_state in
  returned run = Some (ASLOT2ID 1)
  /\ ASLOT2ID 1 <> FAIL
  /\ observed errstack run = Some [DFE_BADNUMTYPE].
Proof. repeat split; by vm_compute. Qed.

(** An attach does check: on a header that names the coder 99,
    [HCPstread] fails, [DFE_BADCODER] being the innermost error, and
    the special information is freed. *)
Lemma HCPstread_bad_coder :
  let run := HCPstread 0 bad_coder_state in
  returned run = Some FAIL
  /\ observed errstack run = Some [DFE_DENIED; DFE_CINIT; DFE_BADCODER]
  /\ observed heap run = Some ∅.
Proof. repeat split; by vm_compute. Qed.




(** C9 fails on the code: two access records attached to the same
    element do not share a record; each attach allocates one, with an
    attach count of 1. *)
Lemma attach_twice_not_shared :
  let run := (HCPstread 0 ;; HCPstread 1) unattached_state in
  returned run = Some (ASLOT2ID 1)
  /\ ASLOT2ID 1 <> FAIL
  /\ observed (fun st => special_info <$> access_records st !! 0%nat) run
     = Some (Some (Some 1%positive))
  /\ observed (fun st => special_info <$> access_records st !! 1%nat) run
     = Some (Some (Some 2%positive))
  /\ observed (fun st => attached <$> heap st !! 1%positive) run = Some (Some 1)
  /\ observed (fun st => attached <$> heap st !! 2%positive) run = Some (Some 1).
Proof. repeat split; by vm_compute. Qed.

Lemma special_info_lifecycle_witness :
  (exists p i' st',
     HCIstaccess 0 DFACC_READ unattached_state = Some (ASLOT2ID 0, st')
     /\ heap unattached_state !! p = None
     /\ heap st' !! p = Some i'
     /\ attached i' = 1)
  /\ (exists st',
        HCPcloseAID 0 sample_state = Some (SUCCEED, st')
        /\ heap st' !! 1%positive = None).
Proof.
  split.
  - pose (st' := default unattached_state
                   (snd <$> HCIstaccess 0 DFACC_READ unattached_state)).
    assert (Hrun : HCIstaccess 0 DFACC_READ unattached_state = Some (ASLOT2ID 0, st'))
      by (vm_compute; reflexivity).
    destruct (proj1 (special_info_lifecycle 0 unattached_state) DFACC_READ
                (ASLOT2ID 0) st' Hrun ltac:(vm_compute; discriminate))
      as (p & i' & Hfresh & Hi' & Hatt & _).
    exists p, i', st'. split; [exact Hrun|].
    split; [exact Hfresh|]. split; [exact Hi'|exact Hatt].
  - destruct (proj2 (special_info_lifecycle 0 sample_state) sample_accrec 1%positive sample_info
                eq_refl eq_refl ltac:(vm_compute; reflexivity) eq_refl
                ltac:(unfold is_int32; cbn; lia) ltac:(vm_compute; discriminate))
      as (st' & Hclose & Hfreed & _).
    exists st'. split; [exact Hclose|]. exact (Hfreed eq_refl).
Defined.

End Examples.

Section ErrorProperties.

Context `{Hh : hdf_h} {L : Type} `{ML : model_layer L}.

Lemma seek_target_resolved origin offset position len :
  origin = DF_START \/ origin = DF_CURRENT \/ origin = DF_END ->
  is_int32 position ->
  is_int32 (seek_target origin offset position len) ->
  (if origin =? DF_END
   then to_int32 ((if origin =? DF_CURRENT then to_int32 (offset + position)
                   else offset) + len)
   else if origin =? DF_CURRENT then to_int32 (offset + position) else offset)
  = seek_target origin offset position len.
Proof.
  intros Horigin Hposn Htarget. unfold seek_target in *.
  pose proof DF_CURRENT_neq_END. pose proof DF_START_neq_CURRENT.
  pose proof DF_START_neq_END.
  destruct Horigin as [-> | [-> | ->]].
  - rewrite Z.eqb_refl.
    destruct (Z.eqb_spec DF_START DF_CURRENT); [done|].
    by destruct (Z.eqb_spec DF_START DF_END).
  - rewrite Z.eqb_refl in *.
    destruct (Z.eqb_spec DF_CURRENT DF_START); [done|].
    destruct (Z.eqb_spec DF_CURRENT DF_END); [done|].
    rewrite to_int32_id; [lia|]. by rewrite Z.add_comm.
  - rewrite Z.eqb_refl in *.
    destruct (Z.eqb_spec DF_END DF_START); [done|].
    destruct (Z.eqb_spec DF_END DF_CURRENT); [done|].
    rewrite to_int32_id; [lia|]. by rewrite Z.add_comm.
Qed.

(** X6: a failure of the modelling layer is reported as [DFE_MODEL] by
    [HCPseek], [HCPread] and [HCPwrite], which then leave the access
    record, the special information and the files as they were. *)
Theorem model_failure_reported (st : hdf_state L) access_rec ar p i :
  attached_to st access_rec ar p i ->
  is_int32 (posn ar) ->
  (forall offset origin l,
     origin = DF_START \/ origin = DF_CURRENT \/ origin = DF_END ->
     is_int32 (seek_target origin offset (posn ar) (ci_length i)) ->
     let target := seek_target origin offset (posn ar) (ci_length i) in
     0 <= target ->
     mstdio_seek ar i target origin (lower st) = (FAIL, l) ->
     HCPseek access_rec offset origin st
     = Some (FAIL, with_error DFE_MODEL (set_lower l st)))
  /\ (forall len data d l,
        0 <= len ->
        is_int32 (ci_length i - posn ar) ->
        is_int32 (posn ar + len) ->
        (len <> 0 -> posn ar + len <= ci_length i) ->
        let count := if len =? 0 then ci_length i - posn ar else len in
        mstdio_read ar i count (lower st) = ((FAIL, d), l) ->
        HCPread access_rec len data st
        = Some ((FAIL, d), with_error DFE_MODEL (set_lower l st)))
  /\ (forall n data l,
        0 <= n ->
        mstdio_write ar i n data (lower st) = (FAIL, l) ->
        HCPwrite access_rec n data st
        = Some (FAIL, with_error DFE_MODEL (set_lower l st))).
Proof.
  intros Hatt Hposn. split; [|split].
  - intros offset origin l Horigin Hrange target Htarget Hseek.
    rewrite (HCPseek_run _ _ _ _ _ _ _ Hatt). cbv zeta.
    rewrite (seek_target_resolved _ _ _ _ Horigin Hposn Hrange).
    fold target. destruct (Z.ltb_spec target 0); [lia|].
    by rewrite Hseek, Z.eqb_refl.
  - intros len data d l Hlen Hrest Hsum Hfit count Hread.
    rewrite (HCPread_run _ _ _ _ _ _ _ Hatt).
    destruct (Z.ltb_spec len 0); [lia|]. cbv zeta. unfold count in Hread.
    destruct (Z.eqb_spec len 0) as [->|Hnz].
    + by rewrite (to_int32_id _ Hrest), Hread, Z.eqb_refl.
    + rewrite (to_int32_id _ Hsum).
      destruct (Z.gtb_spec (posn ar + len) (ci_length i)); [lia|].
      by rewrite Hread, Z.eqb_refl.
  - intros n data l Hn Hwrite.
    rewrite (HCPwrite_run _ _ _ _ _ _ _ Hatt).
    destruct (Z.ltb_spec n 0); [lia|].
    by rewrite Hwrite, Z.eqb_refl.
Qed.

(** The update of the length field in [HCPwrite] works on the files
    and the error stack only. *)
Lemma length_update_frame (fr : option Z) (dd : dd_ptr) (v n : Z)
    (st : hdf_state L) r st' :
  0 <= n ->
  (let* d := get_dd dd in
   let* s := HPseek fr (to_int32 (dd_offset d + 4)) in
   if s =? FAIL then HRETURN_ERROR DFE_SEEKERROR FAIL
   else
     let* w := HPwrite fr (INT32ENCODE [] v) 4 in
     if w =? FAIL then HRETURN_ERROR DFE_WRITEERROR FAIL
     else ret n) st = Some (r, st') ->
  access_records st' = access_records st
  /\ heap st' = heap st
  /\ (r = FAIL \/ r = n)
  /\ (r = FAIL ->
      exists e, errstack st' = e :: errstack st
                /\ (e = DFE_SEEKERROR \/ e = DFE_WRITEERROR)).
Proof.
  intros Hn H. pose proof FAIL_negative as Hfneg.
  apply bind_inv in H as (d & st1 & Hd & H). apply get_dd_inv in Hd as [-> _].
  apply bind_inv in H as (s & st1 & Hs & H). apply HPseek_inv in Hs as [fs1 ->].
  destruct (s =? FAIL).
  { cbn in H. injection H as <- <-. repeat split; [by left|].
    intros _. exists DFE_SEEKERROR. split; [done|by left]. }
  apply bind_inv in H as (w & st2 & Hw & H).
  assert (Hst2 : exists fs2, st2 = set_files fs2 st).
  { unfold HPwrite in Hw. apply bind_inv in Hw as (f & st3 & Hf & Hw).
    apply get_file_inv in Hf as ->.
    destruct (_ || _).
    - injection Hw as _ <-. by exists fs1.
    - destruct fr as [k|]; [|done]. cbn in Hw. injection Hw as _ <-. by eexists. }
  destruct Hst2 as [fs2 ->].
  destruct (w =? FAIL).
  - cbn in H. injection H as <- <-. repeat split; [by left|].
    intros _. exists DFE_WRITEERROR. split; [done|by right].
  - injection H as <- <-. repeat split; [by right|]. lia.
Qed.

(** X7: HCPwrite advances the position and the length in memory before
    it updates the length field of the file. *)
Theorem HCPwrite_extends_before_update (st : hdf_state L) access_rec ar p i n data
    r st' :
  attached_to st access_rec ar p i ->
  0 <= n ->
  is_int32 (posn ar + n) ->
  posn ar + n > ci_length i ->
  fst (mstdio_write ar i n data (lower st)) <> FAIL ->
  HCPwrite access_rec n data st = Some (r, st') ->
  posn_of st' access_rec = Some (posn ar + n)
  /\ length_of st' p = Some (posn ar + n)
  /\ (r = FAIL \/ r = n)
  /\ (r = FAIL ->
      exists e, errstack st' = e :: errstack st
                /\ (e = DFE_SEEKERROR \/ e = DFE_WRITEERROR)).
Proof.
  intros Hatt Hn Hsum Hgt Hok Hrun. pose proof Hatt as (Har & Hp & Hi & Hm).
  rewrite (HCPwrite_run _ _ _ _ _ _ _ Hatt) in Hrun. revert Hrun.
  destruct (Z.ltb_spec n 0); [lia|].
  destruct (mstdio_write ar i n data (lower st)) as [rm l]. cbn [fst] in Hok.
  destruct (Z.eqb_spec rm FAIL) as [|_]; [done|]. cbv zeta.
  rewrite (to_int32_id _ Hsum).
  destruct (Z.gtb_spec (posn ar + n) (ci_length i)); [|lia].
  intros Hrun. apply length_update_frame in Hrun as (Hars & Hheap & Hr & He); [|done].
  cbn [access_records heap set_heap errstack] in *.
  split; [|split; [|split; [done|]]].
  - unfold posn_of. rewrite Hars. by apply (posn_of_with_posn _ _ ar).
  - unfold length_of. rewrite Hheap. by rewrite lookup_insert_eq.
  - intros Hfail. destruct (He Hfail) as (e & Hstack & Hcases).
    exists e. split; [|done]. rewrite Hstack.
    unfold with_posn. cbn. by rewrite Har.
Qed.

Lemma lookup_dd_same_blocks (fs : gmap Z filerec_t) k f f' dd :
  fs !! k = Some f -> f_ddblocks f' = f_ddblocks f ->
  lookup_dd (<[k := f']> fs) dd = lookup_dd fs dd.
Proof.
  intros Hf Hblocks. unfold lookup_dd.
  destruct (decide (dd.1.1 = k)) as [->|Hne].
  - by rewrite lookup_insert_eq, Hf, Hblocks.
  - by rewrite lookup_insert_ne.
Qed.

Lemma HCPinquire_run (st : hdf_state L) access_rec ar d p i :
  access_records st !! access_rec = Some ar ->
  lookup_dd (files st) (block ar, idx ar) = Some d ->
  special_info ar = Some p ->
  heap st !! p = Some i ->
  HCPinquire access_rec st
  = Some ((SUCCEED,
           (file_id ar, dd_tag d, dd_ref d, ci_length i, dd_offset d, posn ar,
            to_int16 (access ar), to_int16 (special ar))), st).
Proof.
  intros Har Hd Hp Hi.
  unfold HCPinquire, bind, get_accrec, get_dd, get_info, deref.
  by rewrite Har, Hd, Hp, Hi.
Qed.

(** X8: after a successful write, HCPinquire reports the position
    behind the bytes written and the length the write has left; the
    access mode and the special code are reported narrowed to
    [int16]. *)
Theorem HCPinquire_after_write (st : hdf_state L) access_rec ar p i d n data r st1 :
  attached_to st access_rec ar p i ->
  lookup_dd (files st) (block ar, idx ar) = Some d ->
  0 <= n ->
  is_int32 (posn ar + n) ->
  HCPwrite access_rec n data st = Some (r, st1) ->
  r <> FAIL ->
  HCPinquire access_rec st1
  = Some ((SUCCEED,
           (file_id ar, dd_tag d, dd_ref d, Z.max (ci_length i) (posn ar + n),
            dd_offset d, posn ar + n, to_int16 (access ar), to_int16 (special ar))),
          st1).
Proof.
  intros Hatt Hd Hn Hsum Hrun Hok. pose proof Hatt as (Har & Hp & Hi & Hm).
  assert (Hlt : (access_rec < length (access_records st))%nat)
    by (by eapply lookup_lt_Some).
  destruct (HCPwrite_success _ _ _ _ _ _ _ _ _ Hatt Hsum Hn Hrun Hok)
    as (l & _ & _ & _ & [[Hle ->] | (Hgt & d' & f & Hd' & Hf & Hoff & ->)]).
  - erewrite (HCPinquire_run _ _ (set_posn (posn ar + n) ar) d p i).
    + by rewrite Z.max_l by lia.
    + unfold with_posn. cbn. rewrite Har. cbn. by apply list_lookup_insert_eq.
    + by rewrite with_posn_files.
    + done.
    + by rewrite with_posn_heap.
  - erewrite (HCPinquire_run _ _ (set_posn (posn ar + n) ar) d p
                (set_ci_length (posn ar + n) i)).
    + by rewrite Z.max_r by lia.
    + rewrite with_length_access_records.
      unfold with_posn. cbn. rewrite Har. cbn. by apply list_lookup_insert_eq.
    + unfold with_length. rewrite with_posn_heap, with_posn_files. cbn.
      rewrite Hi, Hf. cbn. by erewrite lookup_dd_same_blocks.
    + done.
    + unfold with_length. rewrite with_posn_heap, with_posn_files. cbn.
      rewrite Hi, Hf. cbn. by rewrite lookup_insert_eq.
Qed.

Lemma HCPcloseAID_fails (st : hdf_state L) access_rec ar p i l :
  attached_to st access_rec ar p i ->
  mstdio_endaccess ar i (lower st) = (FAIL, l) ->
  HCPcloseAID access_rec st = Some (FAIL, with_error DFE_MODEL (set_lower l st)).
Proof.
  intros Hatt Hend. pose proof Hatt as (Har & Hp & Hi & Hm).
  unfold HCPcloseAID. step (get_accrec_run _ _ _ Har). cbv zeta.
  step (model_call_run _ _ _ _ _ mstdio_endaccess Hatt).
  by rewrite Hend, Z.eqb_refl.
Qed.

(** [HCPendaccess] after its call of [HCPcloseAID], whatever that call
    has returned. *)
Lemma HCPendaccess_run (st st1 : hdf_state L) access_rec ar f c :
  access_records st !! access_rec = Some ar ->
  files st !! file_id ar = Some f ->
  f_refcount f <> 0 ->
  HCPcloseAID access_rec st = Some (c, st1) ->
  access_records st1 = access_records st ->
  files st1 = files st ->
  HCPendaccess access_rec st
  = Some (SUCCEED,
          set_access_records (<[access_rec := set_used false ar]> (access_records st))
            (set_files (<[file_id ar := set_f_attach (to_int32 (f_attach f - 1)) f]>
                          (files st)) st1)).
Proof.
  intros Har Hf Href Hclose Hars Hfiles. apply Z.eqb_neq in Href.
  unfold HCPendaccess. step (get_accrec_run _ _ _ Har).
  unfold bind at 1. unfold FID2REC at 1, gets.
  step (BADFREC_FID2REC_run st (file_id ar)). rewrite Hf, Href.
  step Hclose.
  assert (Hf1 : files st1 !! file_id ar = Some f) by (by rewrite Hfiles).
  step (get_file_run _ _ _ Hf1).
  unfold bind at 1. unfold put_file at 1, modify.
  unfold release. unfold bind at 1. unfold bind at 1.
  unfold get_accrec at 1, deref. cbn [access_records set_files].
  rewrite Hars, Har. unfold put_accrec, modify, ret. cbn. by rewrite Hars, Hfiles.
Qed.

(** X9: HCPendaccess closes the element, detaches from the file and
    frees the access record. *)
Theorem HCPendaccess_releases (st : hdf_state L) access_rec ar p i f :
  attached_to st access_rec ar p i ->
  files st !! file_id ar = Some f ->
  f_refcount f <> 0 ->
  is_int32 (f_attach f - 1) ->
  is_int32 (attached i - 1) ->
  fst (mstdio_endaccess ar i (lower st)) <> FAIL ->
  exists st',
    HCPendaccess access_rec st = Some (SUCCEED, st')
    /\ access_records st' = <[access_rec := set_used false ar]> (access_records st)
    /\ files st' = <[file_id ar := set_f_attach (f_attach f - 1) f]> (files st)
    /\ heap st' = (if attached i - 1 =? 0 then delete p (heap st)
                   else <[p := set_attached (attached i - 1) i]> (heap st))
    /\ errstack st' = errstack st.
Proof.
  intros Hatt Hf Href Hattach Hcount Hok. pose proof Hatt as (Har & Hp & Hi & Hm).
  eexists. split.
  - eapply HCPendaccess_run;
      [done|done|done|by apply (HCPcloseAID_run access_rec ar p i st)|done|done].
  - rewrite (to_int32_id _ Hattach). done.
Qed.

(** X10: [HCPendaccess] fails with [DFE_INTERNAL], and changes nothing
    else, when the file of the access record is not open; a failure of
    the modelling layer on close is recorded as [DFE_MODEL] but not
    returned: [HCPendaccess] still returns [SUCCEED], frees the access
    record and detaches from the file, and the special information
    stays in the heap. *)
Theorem HCPendaccess_errors (st : hdf_state L) access_rec ar :
  access_records st !! access_rec = Some ar ->
  ((files st !! file_id ar = None
    \/ exists f, files st !! file_id ar = Some f /\ f_refcount f = 0) ->
   HCPendaccess access_rec st = Some (FAIL, with_error DFE_INTERNAL st))
  /\ (forall p i f l,
        special_info ar = Some p ->
        heap st !! p = Some i ->
        model_funcs (minfo i) = mstdio_funcs ->
        files st !! file_id ar = Some f ->
        f_refcount f <> 0 ->
        is_int32 (f_attach f - 1) ->
        mstdio_endaccess ar i (lower st) = (FAIL, l) ->
        exists st',
          HCPendaccess access_rec st = Some (SUCCEED, st')
          /\ errstack st' = DFE_MODEL :: errstack st
          /\ heap st' = heap st
          /\ access_records st' = <[access_rec := set_used false ar]> (access_records st)
          /\ files st' = <[file_id ar := set_f_attach (f_attach f - 1) f]> (files st)).
Proof.
  intros Har. split.
  - intros Hbad. unfold HCPendaccess. step (get_accrec_run _ _ _ Har).
    unfold bind at 1. unfold FID2REC at 1, gets.
    step (BADFREC_FID2REC_run st (file_id ar)).
    destruct Hbad as [-> | (f & -> & ->)]; [done|]. by rewrite Z.eqb_refl.
  - intros p i f l Hp Hi Hm Hf Href Hattach Hend.
    assert (Hatt : attached_to st access_rec ar p i) by done.
    eexists. split.
    + eapply HCPendaccess_run;
        [done|done|done|by apply (HCPcloseAID_fails st access_rec ar p i l)|done|done].
    + rewrite (to_int32_id _ Hattach). done.
Qed.

(** X11: [HCcreate] fails with [DFE_ARGS] on a file that is not open
    and on a tag that has no special form, and with [DFE_TOOMANY] when
    every access record is in use; the state is left as it was, but for
    the error. *)
Theorem HCcreate_rejects (st : hdf_state L) file_id tag ref model_type coder_type
    c_info :
  ((files st !! file_id = None
    \/ exists f, files st !! file_id = Some f /\ f_refcount f = 0) ->
   HCcreate file_id tag ref model_type coder_type c_info st
   = Some (FAIL, set_errstack [DFE_ARGS] st))
  /\ (MKSPECIALTAG tag = DFTAG_NULL ->
      HCcreate file_id tag ref model_type coder_type c_info st
      = Some (FAIL, set_errstack [DFE_ARGS] st))
  /\ (forall f,
        files st !! file_id = Some f ->
        f_refcount f <> 0 ->
        SPECIALTAG tag = false ->
        MKSPECIALTAG tag <> DFTAG_NULL ->
        Z.land (f_access f) DFACC_WRITE <> 0 ->
        find_index (fun a => negb (used a)) (access_records st) 0 = None ->
        HCcreate file_id tag ref model_type coder_type c_info st
        = Some (FAIL, set_errstack [DFE_TOOMANY] st)).
Proof.
  split; [|split].
  - intros Hbad. unfold HCcreate.
    unfold bind at 1. unfold HEclear at 1, modify.
    unfold bind at 1. unfold FID2REC at 1, gets. cbn [files set_errstack].
    step (BADFREC_FID2REC_run (set_errstack [] st) file_id).
    cbn [files set_errstack].
    destruct Hbad as [-> | (f & -> & ->)]; [done|]. by rewrite Z.eqb_refl.
  - intros Hnull. unfold HCcreate.
    unfold bind at 1. unfold HEclear at 1, modify.
    unfold bind at 1. unfold FID2REC at 1, gets. cbn [files set_errstack].
    step (BADFREC_FID2REC_run (set_errstack [] st) file_id).
    by rewrite Hnull, Z.eqb_refl, orb_true_r.
  - intros f Hf Href Htag Hmk Hrw Hslot.
    apply Z.eqb_neq in Href, Hmk, Hrw. unfold HCcreate.
    unfold bind at 1. unfold HEclear at 1, modify.
    unfold bind at 1. unfold FID2REC at 1, gets. cbn [files set_errstack].
    step (BADFREC_FID2REC_run (set_errstack [] st) file_id).
    cbn [files set_errstack]. rewrite Hf, Href, Htag, Hmk. cbn [orb].
    unfold bind at 1. unfold get_file at 1, deref. cbn [files set_errstack].
    rewrite Hf, Hrw.
    unfold bind at 1. unfold HIget_access_slot at 1.
    unfold bind at 1. unfold gets at 1. cbn [access_records set_errstack].
    rewrite Hslot. unfold ret at 1. by rewrite Z.eqb_refl.
Qed.

Lemma HCIstaccess_bad_mode (st : hdf_state L) access_rec ar f acc_mode :
  access_records st !! access_rec = Some ar ->
  files st !! file_id ar = Some f ->
  Z.land (f_access f) acc_mode = 0 ->
  HCIstaccess access_rec acc_mode st = Some (FAIL, with_error DFE_ARGS st).
Proof.
  intros Har Hf Hmode. unfold HCIstaccess. step (get_accrec_run _ _ _ Har).
  unfold bind at 1. unfold FID2REC at 1, gets.
  step (BADFREC_FID2REC_run st (file_id ar)). rewrite Hf.
  destruct (f_refcount f =? 0); [done|].
  step (get_file_run _ _ _ Hf). by rewrite Hmode, Z.eqb_refl.
Qed.

Lemma HCIstaccess_no_memory (st : hdf_state L) access_rec ar f acc_mode :
  access_records st !! access_rec = Some ar ->
  files st !! file_id ar = Some f ->
  f_refcount f <> 0 ->
  Z.land (f_access f) acc_mode <> 0 ->
  heap_avail st = 0%nat ->
  HCIstaccess access_rec acc_mode st
  = Some (FAIL,
          with_error DFE_NOSPACE
            (set_access_records
               (<[access_rec := set_special_info None
                                  (set_access (Z.lor acc_mode DFACC_READ)
                                     (set_posn 0 (set_special SPECIAL_COMP ar)))]>
                  (access_records st)) st)).
Proof.
  intros Har Hf Href Hmode Hheap. apply Z.eqb_neq in Href, Hmode.
  unfold HCIstaccess. step (get_accrec_run _ _ _ Har).
  unfold bind at 1. unfold FID2REC at 1, gets.
  step (BADFREC_FID2REC_run st (file_id ar)). rewrite Hf, Href.
  step (get_file_run _ _ _ Hf). rewrite Hmode. cbv zeta.
  unfold bind at 1. unfold put_accrec at 1, modify.
  unfold bind at 1. unfold HDmalloc at 1. cbn [heap_avail set_access_records].
  rewrite Hheap.
  unfold bind at 1. unfold put_accrec at 1, modify.
  cbn. by rewrite list_insert_insert_eq.
Qed.

(** X12: [HCPstwrite] on a file that is not writable fails with
    [DFE_ARGS] and then [DFE_DENIED] and releases the access record;
    [HCPstread] with no memory left for the special information fails
    with [DFE_NOSPACE] and then [DFE_DENIED], allocates nothing and
    leaves the files alone, and releases the access record, whose
    other fields the attach has already set. *)
Theorem attach_refused (st : hdf_state L) access_rec ar f :
  access_records st !! access_rec = Some ar ->
  files st !! file_id ar = Some f ->
  (Z.land (f_access f) DFACC_WRITE = 0 ->
   HCPstwrite access_rec st
   = Some (FAIL,
           set_access_records (<[access_rec := set_used false ar]> (access_records st))
             (set_errstack (DFE_DENIED :: DFE_ARGS :: errstack st) st)))
  /\ (f_refcount f <> 0 ->
      Z.land (f_access f) DFACC_READ <> 0 ->
      heap_avail st = 0%nat ->
      exists st',
        HCPstread access_rec st = Some (FAIL, st')
        /\ errstack st' = DFE_DENIED :: DFE_NOSPACE :: errstack st
        /\ heap st' = heap st
        /\ files st' = files st
        /\ access_records st' !! access_rec
           = Some (set_used false
                     (set_special_info None
                        (set_access (Z.lor DFACC_READ DFACC_READ)
                           (set_posn 0 (set_special SPECIAL_COMP ar)))))).
Proof.
  intros Har Hf.
  assert (Hlt : (access_rec < length (access_records st))%nat)
    by (by eapply lookup_lt_Some).
  split.
  - intros Hro. unfold HCPstwrite.
    step (HCIstaccess_bad_mode _ _ _ _ _ Har Hf Hro). rewrite Z.eqb_refl.
    unfold release. unfold bind at 1. unfold bind at 1.
    unfold get_accrec at 1, deref. cbn [access_records with_error set_errstack].
    rewrite Har. done.
  - intros Href Hmode Hheap. unfold HCPstread.
    step (HCIstaccess_no_memory _ _ _ _ _ Har Hf Href Hmode Hheap).
    rewrite Z.eqb_refl.
    unfold release. unfold bind at 1. unfold bind at 1.
    unfold get_accrec at 1, deref.
    cbn [access_records with_error set_errstack set_access_records].
    rewrite list_lookup_insert_eq by done.
    eexists. split; [reflexivity|]. cbn.
    rewrite list_insert_insert_eq. repeat split; [done..|].
    by rewrite list_lookup_insert_eq.
Qed.

End ErrorProperties.

Section AttachProperties.

Context `{Hh : hdf_h} {L : Type} `{ML : model_layer L}.

Lemma store_frame_refl k (st : hdf_state L) : store_frame k st st.
Proof. done. Qed.

Lemma store_frame_trans k (st1 st2 st3 : hdf_state L) :
  store_frame k st1 st2 -> store_frame k st2 st3 -> store_frame k st1 st3.
Proof.
  intros (Ha & Hl & Hf & Hk) (Ha' & Hl' & Hf' & Hk'). split; [congruence|].
  split; [congruence|]. split; [|congruence].
  intros k' Hne. by rewrite Hf', Hf.
Qed.

Lemma store_frame_errstack k e (st : hdf_state L) :
  store_frame k st (set_errstack e st).
Proof. done. Qed.

Lemma store_frame_heap k h (st : hdf_state L) :
  store_frame k st (set_heap h (heap_avail st) st).
Proof. done. Qed.

Lemma store_frame_access_records k ars (st : hdf_state L) :
  store_frame k st (set_access_records ars st).
Proof. done. Qed.

Lemma store_frame_pos k f v (st : hdf_state L) :
  files st !! k = Some f ->
  store_frame k st (set_files (<[k := set_f_pos v f]> (files st)) st).
Proof.
  intros Hf. split; [done|]. split; [done|]. cbn. split.
  - intros k' Hne. by rewrite lookup_insert_ne.
  - by rewrite lookup_insert_eq, Hf.
Qed.

Lemma HPseek_store k off (st : hdf_state L) r st' :
  HPseek (Some k) off st = Some (r, st') ->
  store_frame k st st' /\ exists fs, st' = set_files fs st.
Proof.
  unfold HPseek. intros H. apply bind_inv in H as (f & st1 & Hf & H).
  unfold get_file, deref in Hf. destruct (files st !! k) as [f0|] eqn:Hk; [|done].
  injection Hf as <- <-.
  destruct (off <? 0).
  - injection H as <- <-. split; [done|]. exists (files st). by rewrite set_files_same.
  - cbn in H. injection H as <- <-. split; [by apply store_frame_pos|by eexists].
Qed.

Lemma HPread_store k n (st : hdf_state L) r st' :
  HPread (Some k) n st = Some (r, st') ->
  store_frame k st st' /\ exists fs, st' = set_files fs st.
Proof.
  unfold HPread. intros H. apply bind_inv in H as (f & st1 & Hf & H).
  unfold get_file, deref in Hf. destruct (files st !! k) as [f0|] eqn:Hk; [|done].
  injection Hf as <- <-.
  destruct (_ || _).
  - injection H as <- <-. split; [done|]. exists (files st). by rewrite set_files_same.
  - cbn in H. injection H as <- <-. split; [by apply store_frame_pos|by eexists].
Qed.

(** [HCIread_header] leaves the error stack as it was when it
    succeeds. *)
Lemma HCIread_header_store k access_rec p info_dd c_info (st : hdf_state L) r st' :
  HCIread_header (Some k) access_rec (Some p) info_dd c_info st = Some (r, st') ->
  store_frame k st st' /\ (r.1 <> FAIL -> errstack st' = errstack st).
Proof.
  unfold HCIread_header. intros H.
  apply bind_inv in H as (d & st1 & Hd & H). apply get_dd_inv in Hd as [-> _].
  apply bind_inv in H as (s & st1 & Hs & H).
  apply HPseek_store in Hs as [Hs1 [fs1 ->]].
  destruct (Z.eqb_spec s FAIL).
  { cbn in H. injection H as <- <-. split; [done|]. by intros []. }
  apply bind_inv in H as ([r1 buf] & st1 & Hr & H).
  apply HPread_store in Hr as [Hs2 [fs2 ->]].
  pose proof (store_frame_trans _ _ _ _ Hs1 Hs2) as Hs12.
  destruct (Z.eqb_spec r1 FAIL).
  { cbn in H. injection H as <- <-. split; [done|]. by intros []. }
  destruct (UINT16DECODE buf) as [header_version p1].
  destruct (INT32DECODE p1) as [len p2].
  destruct (UINT16DECODE p2) as [cref p3].
  destruct (UINT16DECODE p3) as [mtype p4].
  destruct (UINT16DECODE p4) as [ctype p5].
  apply bind_inv in H as (i & st1 & Hi & H). apply get_info_inv in Hi as [-> Hi].
  apply bind_inv in H as ([] & st1 & Hput & H).
  unfold put_info, modify in Hput. injection Hput as <-.
  destruct (ctype =? COMP_CODE_NBIT).
  { apply bind_inv in H as ([r2 buf2] & st3 & Hr & H).
    apply HPread_store in Hr as [Hs3 [fs3 ->]].
    destruct (Z.eqb_spec r2 FAIL).
    { cbn in H. injection H as <- <-. split; [|by intros []].
      eapply store_frame_trans; [exact Hs12|]. exact Hs3. }
    destruct (INT32DECODE buf2) as [? q1]. destruct (UINT16DECODE q1) as [? q2].
    destruct (UINT16DECODE q2) as [? q3]. destruct (INT32DECODE q3) as [? q4].
    destruct (INT32DECODE q4) as [? q5].
    injection H as <- <-. split; [|done].
    eapply store_frame_trans; [exact Hs12|]. exact Hs3. }
  destruct (ctype =? COMP_CODE_SKPHUFF).
  { apply bind_inv in H as ([r2 buf2] & st3 & Hr & H).
    apply HPread_store in Hr as [Hs3 [fs3 ->]].
    destruct (Z.eqb_spec r2 FAIL).
    { cbn in H. injection H as <- <-. split; [|by intros []].
      eapply store_frame_trans; [exact Hs12|]. exact Hs3. }
    destruct (UINT32DECODE buf2) as [? q1]. destruct (UINT32DECODE q1) as [? q2].
    injection H as <- <-. split; [|done].
    eapply store_frame_trans; [exact Hs12|]. exact Hs3. }
  injection H as <- <-. done.
Qed.

Lemma HCIinit_model_inv k p model_type (st : hdf_state L) r st' :
  HCIinit_model (Some p) model_type st = Some (r, st') ->
  store_frame k st st'
  /\ (r <> FAIL ->
      errstack st' = errstack st
      /\ exists i', heap st' !! p = Some i' /\ model_funcs (minfo i') = mstdio_funcs).
Proof.
  unfold HCIinit_model. intros H.
  apply bind_inv in H as (i & st1 & Hget & H). apply get_info_inv in Hget as [-> Hi].
  destruct (model_type =? COMP_MODEL_STDIO).
  - cbn in H. injection H as <- <-. split; [done|]. intros _. split; [done|].
    eexists. cbn. by rewrite lookup_insert_eq.
  - cbn in H. injection H as <- <-. split; [done|]. by intros [].
Qed.

Lemma HCIinit_coder_inv k p coder_type c_info (st : hdf_state L) r st' :
  HCIinit_coder (Some p) coder_type c_info st = Some (r, st') ->
  store_frame k st st'
  /\ (r <> FAIL -> errstack st' = errstack st)
  /\ minfo <$> heap st' !! p = minfo <$> heap st !! p.
Proof.
  unfold HCIinit_coder. intros H.
  apply bind_inv in H as (i & st1 & Hget & H). apply get_info_inv in Hget as [-> Hi].
  cbv zeta in H.
  repeat match type of H with
         | (if ?c then _ else _) _ = _ => destruct c
         end;
    cbn in H;
    repeat match type of H with
           | context [?a =? FAIL] => destruct (Z.eqb_spec a FAIL); cbn in H
           end;
    injection H as <- <-; cbn; rewrite ?lookup_insert_eq, ?Hi; cbn;
    (split; [done|]); (split; [done || (by intros [])|done]).
Qed.

Lemma HDfree_inv p (st : hdf_state L) u st' :
  HDfree (Some p) st = Some (u, st') ->
  st' = set_heap (delete p (heap st)) (S (heap_avail st)) st.
Proof.
  unfold HDfree. intros H. apply bind_inv in H as (i & st1 & Hi & H).
  apply get_info_inv in Hi as [-> _]. by injection H as _ <-.
Qed.

Lemma others_frame_trans p (st1 st2 st3 : hdf_state L) :
  others_frame p st1 st2 -> others_frame p st2 st3 -> others_frame p st1 st3.
Proof.
  intros (Ha & Hq) (Ha' & Hq'). split; [congruence|].
  intros q Hne. by rewrite Hq', Hq.
Qed.

Lemma info_frame_others p (st st' : hdf_state L) :
  info_frame p st st' -> others_frame p st st'.
Proof. by intros (Ha & Hq & _). Qed.

Lemma others_frame_put p i (st : hdf_state L) :
  others_frame p st (set_heap (<[p := i]> (heap st)) (heap_avail st) st).
Proof. split; [done|]. intros q Hne. cbn. by rewrite lookup_insert_ne. Qed.

Lemma HDmalloc_fresh (st : hdf_state L) info st' :
  HDmalloc st = Some (info, st') ->
  (info = None /\ st' = st /\ heap_avail st = 0%nat)
  \/ (exists p n, info = Some p /\ heap st !! p = None /\ heap_avail st = S n
                  /\ st' = set_heap (<[p := junk_compinfo st]> (heap st)) n st).
Proof.
  unfold HDmalloc. destruct (heap_avail st) as [|n] eqn:Hn.
  - intros [= <- <-]. by left.
  - intros [= <- <-]. right. eexists _, _. split; [done|]. split; [|done].
    apply not_elem_of_dom. apply is_fresh.
Qed.

(** Freeing the record at [p] after routines that work on it alone
    gives back the heap in which [p] was allocated. *)
Lemma free_restores k p x n (st st0 st1 st2 : hdf_state L) u :
  heap st !! p = None ->
  heap st0 = <[p := x]> (heap st) ->
  heap_avail st = S n -> heap_avail st0 = n ->
  lower st0 = lower st -> files st0 = files st ->
  others_frame p st0 st1 -> store_frame k st0 st1 ->
  HDfree (Some p) st1 = Some (u, st2) ->
  heap st2 = heap st
  /\ store_frame k st st2
  /\ access_records st2 = access_records st0
  /\ errstack st2 = errstack st1.
Proof.
  intros Hfresh Hheap Havail Havail0 Hlower Hfiles (Hars & Hothers)
         (Ha & Hl & Hf & Hk) Hfree.
  apply HDfree_inv in Hfree as ->. cbn. split; [|split; [|done]].
  - apply map_eq. intros q. destruct (decide (q = p)) as [->|Hne].
    + by rewrite lookup_delete_eq.
    + by rewrite lookup_delete_ne, Hothers, Hheap, lookup_insert_ne.
  - split; [cbn; congruence|]. split; [cbn; congruence|]. cbn. split.
    + intros k' Hne. by rewrite Hf, Hfiles.
    + by rewrite Hk, Hfiles.
Qed.

Lemma same_up_to_pos (f f' : filerec_t) v :
  set_f_pos 0 f' = set_f_pos 0 f ->
  set_f_pos 0 (set_f_attach (to_int32 (f_attach f' + v)) f')
  = set_f_pos 0 (set_f_attach (to_int32 (f_attach f + v)) f)
  /\ f_refcount f' = f_refcount f /\ f_attach f' = f_attach f.
Proof. destruct f, f'. cbn. by intros [= -> -> -> -> -> -> -> -> ->]. Qed.

(** What [HCIstaccess] leaves: on a failure the heap as it was, the
    block it had allocated freed again; on a success a fresh record
    for the access record, with the model table set up, and the file
    attached once more. *)
Lemma HCIstaccess_inv access_rec acc_mode (st : hdf_state L) r st' :
  HCIstaccess access_rec acc_mode st = Some (r, st') ->
  exists ar,
    access_records st !! access_rec = Some ar
    /\ ((r = FAIL
         /\ heap st' = heap st
         /\ store_frame (file_id ar) st st'
         /\ exists ar', access_records st' = <[access_rec := ar']> (access_records st)
                        /\ used ar' = used ar)
        \/ (r = ASLOT2ID (Z.of_nat access_rec)
            /\ exists p i' f f',
                 heap st !! p = None
                 /\ heap st' = <[p := i']> (heap st)
                 /\ attached i' = 1
                 /\ model_funcs (minfo i') = mstdio_funcs
                 /\ heap_avail st = S (heap_avail st')
                 /\ lower st' = lower st
                 /\ errstack st' = errstack st
                 /\ files st !! file_id ar = Some f
                 /\ f_refcount f <> 0
                 /\ files st' = <[file_id ar := f']> (files st)
                 /\ set_f_pos 0 f'
                    = set_f_pos 0 (set_f_attach (to_int32 (f_attach f + 1)) f)
                 /\ access_records st'
                    = <[access_rec :=
                          set_special_info (Some p)
                            (set_access (Z.lor acc_mode DFACC_READ)
                               (set_posn 0 (set_special SPECIAL_COMP ar)))]>
                        (access_records st))).
Proof.
  unfold HCIstaccess. intros H.
  apply bind_inv in H as (ar & st1 & Har & H). apply get_accrec_inv in Har as [-> Har].
  exists ar. split; [done|].
  assert (Hlt : (access_rec < length (access_records st))%nat)
    by (by eapply lookup_lt_Some).
  apply bind_inv in H as (file_rec & st1 & Hfr & H). injection Hfr as <- <-.
  rewrite (bind_run _ _ _ _ _ (BADFREC_FID2REC_run st (file_id ar))) in H.
  destruct (files st !! file_id ar) as [f|] eqn:Hf.
  2:{ cbn in H. injection H as <- <-. left. split; [done|]. split; [done|].
      split; [done|]. exists ar. by rewrite list_insert_id. }
  destruct (Z.eqb_spec (f_refcount f) 0) as [|Href].
  { cbn in H. injection H as <- <-. left. split; [done|]. split; [done|].
    split; [done|]. exists ar. by rewrite list_insert_id. }
  rewrite (bind_run _ _ _ _ _ (get_file_run _ _ _ Hf)) in H.
  destruct (Z.land (f_access f) acc_mode =? 0).
  { cbn in H. injection H as <- <-. left. split; [done|]. split; [done|].
    split; [done|]. exists ar. by rewrite list_insert_id. }
  cbv zeta in H.
  set (ar1 := set_access (Z.lor acc_mode DFACC_READ)
                (set_posn 0 (set_special SPECIAL_COMP ar))) in *.
  apply bind_inv in H as ([] & st1 & Hput & H). injection Hput as <-.
  apply bind_inv in H as (info & st1 & Hmalloc & H).
  apply HDmalloc_fresh in Hmalloc
    as [(-> & -> & Hzero) | (p & n & -> & Hfresh & Havail & ->)].
  { apply bind_inv in H as ([] & st1 & Hput & H). injection Hput as <-.
    cbn in H. injection H as <- <-. left. split; [done|]. split; [done|].
    split; [done|]. eexists. cbn. by rewrite list_insert_insert_eq. }
  apply bind_inv in H as ([] & st1 & Hput & H). injection Hput as <-.
  cbn [access_records heap heap_avail set_heap set_access_records] in H.
  rewrite list_insert_insert_eq in H.
  match type of H with bind _ _ ?s = _ => set (st0 := s) in * end.
  assert (Hheap0 : heap st0 = <[p := junk_compinfo st]> (heap st)) by done.
  assert (Havail0 : heap_avail st0 = n) by done.
  assert (Hlower0 : lower st0 = lower st) by done.
  assert (Hfiles0 : files st0 = files st) by done.
  assert (Herr0 : errstack st0 = errstack st) by done.
  assert (Hars0 : access_records st0
                  = <[access_rec := set_special_info (Some p) ar1]> (access_records st))
    by done.
  clearbody st0.
  apply bind_inv in H as (c0 & st1 & Hj & H). injection Hj as <- <-.
  apply bind_inv in H as ([r1 c_info] & st1 & Hread & H).
  pose proof (info_frame_others _ _ _ (HCIread_header_frame _ _ _ _ _ _ _ _ Hread))
    as Ho1.
  apply HCIread_header_store in Hread as [Hs1 He1]. cbn [fst] in He1.
  assert (Hfail : forall e (st2 st3 : hdf_state L) u,
            others_frame p st0 st2 -> store_frame (file_id ar) st0 st2 ->
            HDfree (Some p) st2 = Some (u, st3) ->
            heap (with_error e st3) = heap st
            /\ store_frame (file_id ar) st (with_error e st3)
            /\ exists ar', access_records (with_error e st3)
                           = <[access_rec := ar']> (access_records st)
                           /\ used ar' = used ar).
  { intros e st2 st3 u Ho2 Hs2 Hfree.
    destruct (free_restores _ _ _ _ _ _ _ _ _ Hfresh Hheap0 Havail Havail0 Hlower0
                Hfiles0 Ho2 Hs2 Hfree) as (Hh3 & Hs3 & Hars3 & _).
    split; [done|]. split; [done|]. eexists. cbn. split; [by rewrite Hars3, Hars0|done]. }
  destruct (Z.eqb_spec r1 FAIL) as [|Hr1].
  { apply bind_inv in H as (u & st2 & Hfree & H). cbn in H. injection H as <- <-.
    left. split; [done|]. by eapply (Hfail DFE_COMPINFO). }
  specialize (He1 Hr1).
  apply bind_inv in H as (i & st2 & Hi & H). apply get_info_inv in Hi as [-> Hi].
  apply bind_inv in H as ([] & st2 & Hput & H).
  unfold put_info, modify in Hput. injection Hput as <-.
  match type of H with bind _ _ ?s = _ => set (st2 := s) in * end.
  assert (Ho2 : others_frame p st0 st2).
  { eapply others_frame_trans; [exact Ho1|]. apply others_frame_put. }
  assert (Hs2 : store_frame (file_id ar) st0 st2).
  { eapply store_frame_trans; [exact Hs1|]. apply store_frame_heap. }
  assert (He2 : errstack st2 = errstack st) by (unfold st2; cbn; congruence).
  assert (Hp2 : heap st2 !! p = Some (set_attached 1 i))
    by (unfold st2; cbn; by rewrite lookup_insert_eq).
  clearbody st2.
  apply bind_inv in H as (m & st3 & Hm & H).
  pose proof (HCIinit_model_frame _ _ _ _ _ Hm) as Hi3.
  apply (HCIinit_model_inv (file_id ar)) in Hm as [Hs3' Hm3].
  assert (Ho3 : others_frame p st0 st3).
  { eapply others_frame_trans; [exact Ho2|]. by apply info_frame_others. }
  assert (Hs3 : store_frame (file_id ar) st0 st3)
    by (eapply store_frame_trans; [exact Hs2|exact Hs3']).
  destruct (Z.eqb_spec m FAIL) as [|Hmok].
  { apply bind_inv in H as (u & st4 & Hfree & H). cbn in H. injection H as <- <-.
    left. split; [done|]. by eapply (Hfail DFE_MINIT). }
  destruct (Hm3 Hmok) as (He3 & i3 & Hp3 & Hfuncs3).
  apply bind_inv in H as (c & st4 & Hc & H).
  pose proof (HCIinit_coder_frame _ _ _ _ _ _ Hc) as Hi4.
  apply (HCIinit_coder_inv (file_id ar)) in Hc as (Hs4' & He4 & Hminfo4).
  assert (Ho4 : others_frame p st0 st4).
  { eapply others_frame_trans; [exact Ho3|]. by apply info_frame_others. }
  assert (Hs4 : store_frame (file_id ar) st0 st4)
    by (eapply store_frame_trans; [exact Hs3|exact Hs4']).
  destruct (Z.eqb_spec c FAIL) as [|Hcok].
  { apply bind_inv in H as (u & st5 & Hfree & H). cbn in H. injection H as <- <-.
    left. split; [done|]. by eapply (Hfail DFE_CINIT). }
  specialize (He4 Hcok).
  apply bind_inv in H as (f4 & st5 & Hf4 & H).
  unfold get_file, deref in Hf4.
  destruct (files st4 !! file_id ar) as [f4'|] eqn:Hk4; [|done].
  injection Hf4 as <- <-.
  apply bind_inv in H as ([] & st5 & Hput & H). injection Hput as <-.
  injection H as <- <-. right. split; [done|].
  (* the record at [p] *)
  destruct Hi3 as (_ & _ & Hatt3). destruct Hi4 as (_ & _ & Hatt4).
  rewrite Hp2 in Hatt3. rewrite Hatt3 in Hatt4. rewrite Hp3 in Hminfo4.
  destruct (heap st4 !! p) as [i4|] eqn:Hp4; [|done].
  injection Hatt4 as Hatt4. injection Hminfo4 as Hminfo4.
  destruct Hs4 as (Ha4 & Hl4 & Hf4 & Hpos4). destruct Ho4 as (Hars4 & Hothers4).
  rewrite Hfiles0 in Hf4, Hpos4. rewrite Hk4, Hf in Hpos4. cbn in Hpos4. apply (inj Some) in Hpos4.
  destruct (same_up_to_pos f f4' 1 Hpos4) as (Hsame & _ & _).
  cbn in Havail, Hfresh.
  exists p, i4, f, (set_f_attach (to_int32 (f_attach f4' + 1)) f4').
  split; [done|]. split.
  { cbn. apply map_eq. intros q. destruct (decide (q = p)) as [->|Hne].
    - by rewrite lookup_insert_eq.
    - by rewrite lookup_insert_ne, Hothers4, Hheap0, lookup_insert_ne. }
  split; [done|]. split; [by rewrite Hminfo4|].
  split; [cbn; congruence|]. split; [cbn; congruence|].
  split; [cbn; congruence|]. split; [done|]. split; [done|]. split.
  { cbn. apply map_eq. intros k'. destruct (decide (k' = file_id ar)) as [->|Hne].
    - by rewrite !lookup_insert_eq.
    - by rewrite !lookup_insert_ne, Hf4. }
  split; [done|]. cbn. by rewrite Hars4, Hars0.
Qed.

End AttachProperties.

Section AttachProperties2.

Context `{Hh : hdf_h} {L : Type} `{ML : model_layer L}.

(** X13: when [HCIstaccess] fails, whatever the reason, the heap and
    its budget are as before the call (the special information it may
    have allocated is freed again), the modelling layer is not called,
    the files differ in their positions at most, and the access record
    is not released by it. *)
Theorem failed_attach_frees (st : hdf_state L) access_rec acc_mode st' :
  ASLOT2ID (Z.of_nat access_rec) <> FAIL ->
  HCIstaccess access_rec acc_mode st = Some (FAIL, st') ->
  heap st' = heap st
  /\ heap_avail st' = heap_avail st
  /\ lower st' = lower st
  /\ (forall k, set_f_pos 0 <$> files st' !! k = set_f_pos 0 <$> files st !! k)
  /\ used <$> access_records st' !! access_rec = used <$> access_records st !! access_rec.
Proof.
  intros Haid Hrun.
  apply HCIstaccess_inv in Hrun as (ar & Har & [Hfail | [Heq _]]); [|done].
  destruct Hfail as (_ & Hheap & (Ha & Hl & Hf & Hk) & ar' & Hars & Hused).
  split; [done|]. split; [done|]. split; [done|]. split.
  - intros k. destruct (decide (k = file_id ar)) as [->|Hne]; [done|].
    by rewrite Hf.
  - rewrite Hars, Har, list_lookup_insert_eq by (by eapply lookup_lt_Some).
    cbn. by rewrite Hused.
Qed.

(** The state an attach that succeeds leaves to the modelling layer. *)
Lemma HCIstaccess_attached access_rec acc_mode (st : hdf_state L) aid st1 :
  HCIstaccess access_rec acc_mode st = Some (aid, st1) ->
  aid <> FAIL ->
  exists ar ar1 p i' f f',
    access_records st !! access_rec = Some ar
    /\ files st !! file_id ar = Some f
    /\ heap st !! p = None
    /\ attached_to st1 access_rec ar1 p i'
    /\ file_id ar1 = file_id ar
    /\ access_records st1 = <[access_rec := ar1]> (access_records st)
    /\ attached i' = 1
    /\ heap st1 = <[p := i']> (heap st)
    /\ heap_avail st = S (heap_avail st1)
    /\ lower st1 = lower st
    /\ errstack st1 = errstack st
    /\ files st1 = <[file_id ar := f']> (files st)
    /\ f_refcount f' <> 0
    /\ f_attach f' = to_int32 (f_attach f + 1).
Proof.
  intros Hrun Hok.
  apply HCIstaccess_inv in Hrun as (ar & Har & [[Hfail _] | [_ Hsucc]]); [done|].
  destruct Hsucc as (p & i' & f & f' & Hfresh & Hheap & Hatt & Hfuncs & Havail & Hlower
                     & Herr & Hf & Href & Hfiles & Hpos & Hars).
  assert (Hlt : (access_rec < length (access_records st))%nat)
    by (by eapply lookup_lt_Some).
  eexists ar, _, p, i', f, f'. split; [done|]. split; [done|]. split; [done|].
  split.
  { split; [by rewrite Hars, list_lookup_insert_eq|]. split; [done|].
    split; [by rewrite Hheap, lookup_insert_eq|done]. }
  split; [done|]. split; [done|]. split; [done|]. split; [done|]. split; [done|].
  split; [done|]. split; [done|]. split; [done|].
  destruct f, f'. cbn in *. injection Hpos as -> -> -> -> -> -> -> ->. done.
Qed.

(** X14: a failure of the modelling layer in HCPstread releases the
    access record, but neither frees the special information nor
    detaches from the file. *)
Theorem HCPstread_model_failure (st : hdf_state L) access_rec aid st1 :
  HCIstaccess access_rec DFACC_READ st = Some (aid, st1) ->
  aid <> FAIL ->
  (forall a i, (mstdio_stread a i (lower st)).1 = FAIL) ->
  exists st' ar f p i',
    HCPstread access_rec st = Some (FAIL, st')
    /\ errstack st' = DFE_MODEL :: errstack st
    /\ access_records st !! access_rec = Some ar
    /\ used <$> access_records st' !! access_rec = Some false
    /\ heap st !! p = None
    /\ heap st' !! p = Some i'
    /\ files st !! file_id ar = Some f
    /\ f_attach <$> files st' !! file_id ar = Some (to_int32 (f_attach f + 1)).
Proof.
  intros Hrun Hok Hfails.
  destruct (HCIstaccess_attached _ _ _ _ _ Hrun Hok)
    as (ar & ar1 & p & i' & f & f' & Har & Hf & Hfresh & Hatt & Hid & Hars & Hcount
        & Hheap & Havail & Hlower & Herr & Hfiles & Href & Hattach).
  assert (Hlt : (access_rec < length (access_records st))%nat)
    by (by eapply lookup_lt_Some).
  unfold HCPstread. step Hrun.
  destruct (Z.eqb_spec aid FAIL) as [|_]; [done|].
  step (model_call_run _ _ _ _ _ mstdio_stread Hatt).
  rewrite Hlower, Hfails, Z.eqb_refl.
  unfold release. unfold bind at 1. unfold bind at 1.
  unfold get_accrec at 1, deref. cbn [access_records set_lower].
  destruct Hatt as (Har1 & _). rewrite Har1.
  eexists _, ar, f, p, i'. split; [reflexivity|]. cbn.
  split; [by rewrite Herr|]. split; [done|]. split.
  { rewrite Hars, list_insert_insert_eq, list_lookup_insert_eq; done. }
  split; [done|]. split; [by rewrite Hheap, lookup_insert_eq|]. split; [done|].
  by rewrite Hfiles, lookup_insert_eq; cbn; rewrite Hattach.
Qed.

(** X15: an attach followed by HCPendaccess leaves the heap, the heap
    budget and the attach count of the file as they were, and the
    access record free. *)
Theorem attach_endaccess_roundtrip (st : hdf_state L) access_rec ar f aid st1 :
  access_records st !! access_rec = Some ar ->
  files st !! file_id ar = Some f ->
  is_int32 (f_attach f) ->
  is_int32 (f_attach f + 1) ->
  (forall a i l, (mstdio_endaccess a i l).1 <> FAIL) ->
  HCPstread access_rec st = Some (aid, st1) ->
  aid <> FAIL ->
  exists st2,
    HCPendaccess access_rec st1 = Some (SUCCEED, st2)
    /\ heap st2 = heap st
    /\ heap_avail st2 = heap_avail st
    /\ f_attach <$> files st2 !! file_id ar = Some (f_attach f)
    /\ used <$> access_records st2 !! access_rec = Some false
    /\ errstack st2 = errstack st.
Proof.
  intros Har Hf Hattach Hattach1 Hends Hrun Hok.
  assert (Hlt : (access_rec < length (access_records st))%nat)
    by (by eapply lookup_lt_Some).
  unfold HCPstread in Hrun.
  apply bind_inv in Hrun as (aid0 & st0 & Hst & Hrun).
  destruct (Z.eqb_spec aid0 FAIL) as [|Hok0].
  { apply bind_inv in Hrun as (? & ? & _ & Hrun). cbn in Hrun. by injection Hrun as <- _. }
  destruct (HCIstaccess_attached _ _ _ _ _ Hst Hok0)
    as (ar' & ar1 & p & i' & f0 & f' & Har' & Hf0 & Hfresh & Hatt & Hid & Hars & Hcount
        & Hheap & Havail & Hlower & Herr & Hfiles & Href & Hfattach).
  rewrite Har in Har'. injection Har' as <-. rewrite Hf in Hf0. injection Hf0 as <-.
  rewrite (bind_run _ _ _ _ _ (model_call_run _ _ _ _ _ mstdio_stread Hatt)) in Hrun.
  destruct (Z.eqb_spec (mstdio_stread ar1 i' (lower st0)).1 FAIL) as [|_].
  { apply bind_inv in Hrun as (? & ? & _ & Hrun). cbn in Hrun. by injection Hrun as <- _. }
  injection Hrun as <- <-.
  set (l1 := (mstdio_stread ar1 i' (lower st0)).2).
  assert (Hatt1 : attached_to (set_lower l1 st0) access_rec ar1 p i') by done.
  assert (Hf1 : files (set_lower l1 st0) !! file_id ar1 = Some f').
  { cbn. by rewrite Hfiles, Hid, lookup_insert_eq. }
  assert (Hcount1 : is_int32 (attached i' - 1)) by (rewrite Hcount; done).
  destruct Hatt1 as (Ha1 & Hp1 & Hi1 & Hm1).
  eexists. split.
  - eapply HCPendaccess_run;
      [exact Ha1|exact Hf1|done
      |exact (HCPcloseAID_run access_rec ar1 p i' _ Ha1 Hp1 Hi1 Hm1 Hcount1
                (Hends _ _ _))
      |done|done].
  - rewrite Hcount. cbn. rewrite Hheap, Hfiles, Hars, Hid, Hfattach.
    split; [by apply delete_insert_id|]. split; [done|].
    split.
    { rewrite lookup_insert_eq. cbn.
      rewrite (to_int32_id _ Hattach1). f_equal.
      rewrite to_int32_id; [lia|]. by replace (f_attach f + 1 - 1) with (f_attach f) by lia. }
    split; [|done].
    rewrite list_insert_insert_eq, list_lookup_insert_eq; done.
Qed.

End AttachProperties2.

Section HeaderProperties2.

Context `{Hh : hdf_h} {L : Type} `{ML : model_layer L}.

(** [HCIread_header] on a header that names neither the NBIT nor the
    SKPHUFF coder. *)
Lemma HCIread_header_plain (st : hdf_state L) k f info_dd d q iq c0 access_rec
    code ver len cref mtype ctype rest :
  files st !! k = Some f ->
  lookup_dd (files st) info_dd = Some d ->
  heap st !! q = Some iq ->
  0 <= dd_offset d -> is_int32 (dd_offset d + 2) ->
  to_uint16 ctype <> COMP_CODE_NBIT ->
  to_uint16 ctype <> COMP_CODE_SKPHUFF ->
  drop (Z.to_nat (dd_offset d)) (f_bytes f)
  = common_header code ver len cref mtype ctype ++ rest ->
  HCIread_header (Some k) access_rec (Some q) info_dd c0 st
  = Some ((SUCCEED, c0),
          set_files (<[k := set_f_pos (dd_offset d + 14) f]> (files st))
            (set_heap (<[q := info_read iq len cref mtype ctype]> (heap st))
                      (heap_avail st) st)).
Proof.
  intros Hf Hd Hq Hoff Hoff2 Hnbit Hskp Hbytes.
  pose proof FAIL_neq_SUCCEED as Hfs.
  assert (Hlen : (Z.to_nat (dd_offset d) + 14 <= length (f_bytes f))%nat).
  { rewrite <- (take_drop (Z.to_nat (dd_offset d)) (f_bytes f)) at 1.
    rewrite Hbytes, length_app, length_take. cbn.
    assert (Z.to_nat (dd_offset d) <= length (f_bytes f))%nat; [|lia].
    destruct (Nat.le_gt_cases (Z.to_nat (dd_offset d)) (length (f_bytes f))); [done|].
    rewrite drop_ge in Hbytes by lia. done. }
  unfold HCIread_header.
  step (get_dd_run _ _ _ Hd).
  rewrite (to_int32_id _ Hoff2).
  erewrite bind_run;
    [|rewrite (HPseek_run _ _ _ _ Hf); destruct (Z.ltb_spec (dd_offset d + 2) 0);
      [lia|reflexivity]].
  destruct (Z.eqb_spec SUCCEED FAIL) as [|_]; [done|].
  match goal with |- context [set_files (<[k := ?fa]> _) st] => set (f1 := fa) end.
  assert (Hf1 : files (set_files (<[k := f1]> (files st)) st) !! k = Some f1)
    by (cbn; by rewrite lookup_insert_eq).
  assert (Hc1 : (COMP_HEADER_LENGTH - 2 <? 0) || (f_pos f1 <? 0)
                || (Z.of_nat (length (f_bytes f1)) <? f_pos f1 + (COMP_HEADER_LENGTH - 2))
                = false).
  { unfold f1, COMP_HEADER_LENGTH. cbn [f_pos f_bytes set_f_pos].
    rewrite !orb_false_iff. repeat split; apply Z.ltb_ge; lia. }
  erewrite bind_run; [|rewrite (HPread_run _ _ _ _ Hf1), Hc1; reflexivity].
  cbv beta iota. destruct (Z.eqb_spec SUCCEED FAIL) as [|_]; [done|].
  cbn [files set_files]. rewrite set_files_twice, insert_insert_eq.
  assert (Hhdr : take (Z.to_nat (COMP_HEADER_LENGTH - 2))
                      (drop (Z.to_nat (f_pos f1)) (f_bytes f1))
                 = drop 2 (common_header code ver len cref mtype ctype)).
  { unfold f1, COMP_HEADER_LENGTH. cbn [f_pos f_bytes set_f_pos].
    replace (Z.to_nat (dd_offset d + 2)) with (Z.to_nat (dd_offset d) + 2)%nat by lia.
    rewrite <- drop_drop, Hbytes. reflexivity. }
  rewrite Hhdr. unfold common_header. cbn [drop].
  rewrite UINT16DECODE_ENCODE, INT32DECODE_ENCODE.
  rewrite !UINT16DECODE_ENCODE.
  erewrite bind_run; [|by apply get_info_run].
  unfold put_info, modify. unfold bind at 1. cbn [heap set_files heap_avail].
  destruct (Z.eqb_spec (to_uint16 ctype) COMP_CODE_NBIT) as [|_]; [done|].
  destruct (Z.eqb_spec (to_uint16 ctype) COMP_CODE_SKPHUFF) as [|_]; [done|].
  unfold ret, set_files, set_heap, info_read. cbn. do 3 f_equal.
  unfold f1, set_f_pos, COMP_HEADER_LENGTH. cbn. do 2 f_equal. lia.
Qed.

(** Whatever coder a header names, and whether the parameters that
    follow it can be read or not, [HCIread_header] stores the fields of
    the common part in the special information. *)
Lemma HCIread_header_info (st : hdf_state L) k f info_dd d q iq c0 access_rec
    code ver len cref mtype ctype rest :
  files st !! k = Some f ->
  lookup_dd (files st) info_dd = Some d ->
  heap st !! q = Some iq ->
  0 <= dd_offset d -> is_int32 (dd_offset d + 2) ->
  drop (Z.to_nat (dd_offset d)) (f_bytes f)
  = common_header code ver len cref mtype ctype ++ rest ->
  exists r c st',
    HCIread_header (Some k) access_rec (Some q) info_dd c0 st = Some ((r, c), st')
    /\ heap st' = <[q := info_read iq len cref mtype ctype]> (heap st).
Proof.
  intros Hf Hd Hq Hoff Hoff2 Hbytes.
  pose proof FAIL_neq_SUCCEED as Hfs.
  assert (Hlen : (Z.to_nat (dd_offset d) + 14 <= length (f_bytes f))%nat).
  { rewrite <- (take_drop (Z.to_nat (dd_offset d)) (f_bytes f)) at 1.
    rewrite Hbytes, length_app, length_take. cbn.
    assert (Z.to_nat (dd_offset d) <= length (f_bytes f))%nat; [|lia].
    destruct (Nat.le_gt_cases (Z.to_nat (dd_offset d)) (length (f_bytes f))); [done|].
    rewrite drop_ge in Hbytes by lia. done. }
  unfold HCIread_header.
  step (get_dd_run _ _ _ Hd).
  rewrite (to_int32_id _ Hoff2).
  erewrite bind_run;
    [|rewrite (HPseek_run _ _ _ _ Hf); destruct (Z.ltb_spec (dd_offset d + 2) 0);
      [lia|reflexivity]].
  destruct (Z.eqb_spec SUCCEED FAIL) as [|_]; [done|].
  match goal with |- context [set_files (<[k := ?fa]> _) st] => set (f1 := fa) end.
  assert (Hf1 : files (set_files (<[k := f1]> (files st)) st) !! k = Some f1)
    by (cbn; by rewrite lookup_insert_eq).
  assert (Hc1 : (COMP_HEADER_LENGTH - 2 <? 0) || (f_pos f1 <? 0)
                || (Z.of_nat (length (f_bytes f1)) <? f_pos f1 + (COMP_HEADER_LENGTH - 2))
                = false).
  { unfold f1, COMP_HEADER_LENGTH. cbn [f_pos f_bytes set_f_pos].
    rewrite !orb_false_iff. repeat split; apply Z.ltb_ge; lia. }
  erewrite bind_run; [|rewrite (HPread_run _ _ _ _ Hf1), Hc1; reflexivity].
  cbv beta iota. destruct (Z.eqb_spec SUCCEED FAIL) as [|_]; [done|].
  cbn [files set_files]. rewrite set_files_twice, insert_insert_eq.
  assert (Hhdr : take (Z.to_nat (COMP_HEADER_LENGTH - 2))
                      (drop (Z.to_nat (f_pos f1)) (f_bytes f1))
                 = drop 2 (common_header code ver len cref mtype ctype)).
  { unfold f1, COMP_HEADER_LENGTH. cbn [f_pos f_bytes set_f_pos].
    replace (Z.to_nat (dd_offset d + 2)) with (Z.to_nat (dd_offset d) + 2)%nat by lia.
    rewrite <- drop_drop, Hbytes. reflexivity. }
  rewrite Hhdr. unfold common_header. cbn [drop].
  rewrite UINT16DECODE_ENCODE, INT32DECODE_ENCODE.
  rewrite !UINT16DECODE_ENCODE.
  erewrite bind_run; [|by apply get_info_run].
  unfold put_info, modify. unfold bind at 1. cbn [heap set_files heap_avail].
  match goal with |- context [set_files (<[k := ?fa]> _) ?s] => set (f2 := fa) end.
  match goal with |- exists r c st', _ ?s = _ /\ _ => set (st2 := s) end.
  assert (Hf2 : files st2 !! k = Some f2)
    by (unfold st2; cbn; by rewrite lookup_insert_eq).
  destruct (to_uint16 ctype =? COMP_CODE_NBIT).
  { unfold bind at 1. rewrite (HPread_run _ _ _ _ Hf2).
    match goal with
    | |- context [if ?c then Some ((FAIL, []), _) else _] => destruct c
    end; cbv beta iota.
    - rewrite Z.eqb_refl. by eexists _, _, _.
    - destruct (Z.eqb_spec SUCCEED FAIL) as [|_]; [done|].
      repeat match goal with
             | |- context [INT32DECODE ?x] => destruct (INT32DECODE x)
             | |- context [UINT16DECODE ?x] => destruct (UINT16DECODE x)
             end.
      by eexists _, _, _. }
  destruct (to_uint16 ctype =? COMP_CODE_SKPHUFF).
  { unfold bind at 1. rewrite (HPread_run _ _ _ _ Hf2).
    match goal with
    | |- context [if ?c then Some ((FAIL, []), _) else _] => destruct c
    end; cbv beta iota.
    - rewrite Z.eqb_refl. by eexists _, _, _.
    - destruct (Z.eqb_spec SUCCEED FAIL) as [|_]; [done|].
      repeat match goal with
             | |- context [UINT32DECODE ?x] => destruct (UINT32DECODE x)
             end.
      by eexists _, _, _. }
  by eexists _, _, _.
Qed.

(** The header of an element of another coder is the common part
    alone. *)
Lemma header_bytes_plain i :
  coder_type (cinfo i) <> COMP_CODE_NBIT ->
  coder_type (cinfo i) <> COMP_CODE_SKPHUFF ->
  header_bytes i
  = common_header SPECIAL_COMP COMP_HEADER_VERSION (ci_length i)
      (to_uint16 (comp_ref i)) (to_uint16 (model_type (minfo i)))
      (to_uint16 (coder_type (cinfo i))).
Proof.
  intros Hn Hs. unfold header_bytes.
  destruct (Z.eqb_spec (coder_type (cinfo i)) COMP_CODE_NBIT) as [|_]; [done|].
  destruct (Z.eqb_spec (coder_type (cinfo i)) COMP_CODE_SKPHUFF) as [|_]; [done|].
  reflexivity.
Qed.

Lemma info_read_in_range iq i :
  is_int32 (ci_length i) -> is_uint16 (comp_ref i) ->
  is_uint16 (model_type (minfo i)) -> is_uint16 (coder_type (cinfo i)) ->
  info_read iq (ci_length i) (to_uint16 (comp_ref i)) (to_uint16 (model_type (minfo i)))
            (to_uint16 (coder_type (cinfo i)))
  = CompInfo (attached iq) (ci_length i) (comp_ref i)
             (ModelInfo (model_type (minfo i)) (model_funcs (minfo iq)))
             (CoderInfo (coder_type (cinfo i)) (coder_funcs (cinfo iq))
                        (nbit_info (cinfo iq)) (skphuff_info (cinfo iq))).
Proof.
  intros Hl Hr Hm Hc. unfold info_read.
  by rewrite (to_int32_id _ Hl), !(to_uint16_id _ (proj2 (conj I Hr))),
    !(to_uint16_id _ Hm), !(to_uint16_id _ Hc).
Qed.

(** X16: what [HCIwrite_header] writes for the special information
    [i], [HCIread_header] on the same descriptor reads back: it
    succeeds whatever the coder type is, and sets the length, the
    reference number, the model type and the coder type of the
    information it fills to those of [i], leaving its attach count,
    function tables and coder parameters as they were. *)
Theorem common_header_roundtrip (st : hdf_state L) k f b j blk d0 access_rec ar p i
    q iq special_tag ref c0 :
  files st !! k = Some f ->
  Z.land (f_access f) DFACC_WRITE <> 0 ->
  f_ddblocks f !! b = Some blk ->
  blk !! j = Some d0 ->
  access_records st !! access_rec = Some ar ->
  heap st !! p = Some i ->
  heap st !! q = Some iq ->
  is_int32 (Z.of_nat (length (f_bytes f)) + 2) ->
  is_int32 (ci_length i) -> is_uint16 (comp_ref i) ->
  is_uint16 (model_type (minfo i)) -> is_uint16 (coder_type (cinfo i)) ->
  exists st1 c st2,
    HCIwrite_header (Some k) access_rec (Some p) ((k, b), j) special_tag ref st
    = Some (SUCCEED, st1)
    /\ HCIread_header (Some k) access_rec (Some q) ((k, b), j) c0 st1
       = Some ((SUCCEED, c), st2)
    /\ heap st2 !! q
       = Some (CompInfo (attached iq) (ci_length i) (comp_ref i)
                 (ModelInfo (model_type (minfo i)) (model_funcs (minfo iq)))
                 (CoderInfo (coder_type (cinfo i)) (coder_funcs (cinfo iq))
                            (nbit_info (cinfo iq)) (skphuff_info (cinfo iq)))).
Proof.
  intros Hf Hw Hblk Hd0 Har Hi Hq Hoff2 Hlen Hcref Hmt Hct.
  assert (Hb : (b < length (f_ddblocks f))%nat) by (by eapply lookup_lt_Some).
  assert (Hj : (j < length blk)%nat) by (by eapply lookup_lt_Some).
  set (off := Z.of_nat (length (f_bytes f))) in *.
  set (f1 := file_with_header f b j blk special_tag ref i).
  set (st1 := set_files (<[k := f1]> (files st)) st).
  assert (Hf1 : files st1 !! k = Some f1) by (cbn; by rewrite lookup_insert_eq).
  assert (Hdd : lookup_dd (files st1) ((k, b), j)
                = Some (DD special_tag ref off (Z.of_nat (length (header_bytes i))))).
  { eapply lookup_dd_Some; [done| |].
    - unfold f1, file_with_header. cbn. by apply list_lookup_insert_eq.
    - by apply list_lookup_insert_eq. }
  assert (Hq1 : heap st1 !! q = Some iq) by done.
  assert (Hbytes : drop (Z.to_nat off) (f_bytes f1) = header_bytes i).
  { unfold off, f1, file_with_header. cbn [f_bytes].
    by rewrite Nat2Z.id, drop_app_length. }
  exists st1.
  destruct (Z.eqb_spec (coder_type (cinfo i)) COMP_CODE_NBIT) as [Hnbit|Hnbit].
  { eexists _, _. split; [by eapply HCIwrite_header_run|]. split.
    - eapply (HCIread_header_NBIT st1 k f1 _ _ q iq c0 access_rec
                SPECIAL_COMP COMP_HEADER_VERSION (ci_length i) (to_uint16 (comp_ref i))
                (to_uint16 (model_type (minfo i))) (to_uint16 (coder_type (cinfo i)))
                _ _ _ _ _ [] Hf1 Hdd Hq1).
      + cbn. lia.
      + done.
      + by rewrite !(to_uint16_id _ Hct).
      + cbn [dd_offset]. rewrite Hbytes, (header_bytes_NBIT i Hnbit), app_nil_r, Hnbit.
        reflexivity.
    - cbn. rewrite lookup_insert_eq. f_equal. by apply info_read_in_range. }
  destruct (Z.eqb_spec (coder_type (cinfo i)) COMP_CODE_SKPHUFF) as [Hskp|Hskp].
  { eexists _, _. split; [by eapply HCIwrite_header_run|]. split.
    - eapply (HCIread_header_SKPHUFF st1 k f1 _ _ q iq c0 access_rec
                SPECIAL_COMP COMP_HEADER_VERSION (ci_length i) (to_uint16 (comp_ref i))
                (to_uint16 (model_type (minfo i))) (to_uint16 (coder_type (cinfo i)))
                _ _ _ _ _ [] Hf1 Hdd Hq1).
      + cbn. lia.
      + done.
      + by rewrite !(to_uint16_id _ Hct).
      + cbn [dd_offset]. rewrite Hbytes, (header_bytes_SKPHUFF i Hskp), Hskp.
        reflexivity.
    - cbn. rewrite lookup_insert_eq. f_equal. by apply info_read_in_range. }
  eexists _, _. split; [by eapply HCIwrite_header_run|]. split.
  - eapply (HCIread_header_plain st1 k f1 _ _ q iq c0 access_rec
              SPECIAL_COMP COMP_HEADER_VERSION (ci_length i) (to_uint16 (comp_ref i))
              (to_uint16 (model_type (minfo i))) (to_uint16 (coder_type (cinfo i)))
              [] Hf1 Hdd Hq1).
    + cbn. lia.
    + done.
    + by rewrite !(to_uint16_id _ Hct).
    + by rewrite !(to_uint16_id _ Hct).
    + cbn [dd_offset]. by rewrite Hbytes, (header_bytes_plain i Hnbit Hskp), app_nil_r.
  - cbn. rewrite lookup_insert_eq. f_equal. by apply info_read_in_range.
Qed.

(** X17: the length HCPwrite stores in the file is the length
    HCIread_header reads. *)
Theorem written_length_read_back (st : hdf_state L) access_rec ar p i d f n data r st1
    q iq c0 code ver len cref mtype ctype rest :
  attached_to st access_rec ar p i ->
  (block ar).1 = file_id ar ->
  files st !! file_id ar = Some f ->
  lookup_dd (files st) (block ar, idx ar) = Some d ->
  heap st !! q = Some iq ->
  0 <= dd_offset d -> is_int32 (dd_offset d + 4) ->
  drop (Z.to_nat (dd_offset d)) (f_bytes f)
  = common_header code ver len cref mtype ctype ++ rest ->
  0 <= n ->
  is_int32 (posn ar + n) ->
  posn ar + n > ci_length i ->
  HCPwrite access_rec n data st = Some (r, st1) ->
  r <> FAIL ->
  exists r' c st2,
    HCIread_header (Some (file_id ar)) access_rec (Some q) (block ar, idx ar) c0 st1
    = Some ((r', c), st2)
    /\ length_of st2 q = Some (posn ar + n).
Proof.
  intros Hatt Hblock Hf Hd Hq Hoff Hoff4 Hbytes Hn Hsum Hgt Hrun Hok.
  pose proof Hatt as (Har & Hp & Hi & Hm).
  destruct (HCPwrite_success _ _ _ _ _ _ _ _ _ Hatt Hsum Hn Hrun Hok)
    as (l & _ & _ & _ & [[Hle _] | (_ & d' & f' & Hd' & Hf' & _ & ->)]); [lia|].
  rewrite Hd in Hd'. injection Hd' as <-. rewrite Hf in Hf'. injection Hf' as <-.
  rewrite (to_int32_id _ Hoff4).
  replace (dd_offset d + 4 - 4) with (dd_offset d) by lia.
  unfold with_length. rewrite with_posn_heap, with_posn_files. cbn [heap files set_lower].
  rewrite Hi, Hf.
  set (new := posn ar + n).
  set (f1 := set_f_pos _ (set_f_bytes _ _)).
  match goal with |- context [HCIread_header _ _ _ _ _ ?s] => set (st1 := s) end.
  assert (Hf1 : files st1 !! file_id ar = Some f1)
    by (unfold st1; cbn; by rewrite lookup_insert_eq).
  assert (Hd1 : lookup_dd (files st1) (block ar, idx ar) = Some d).
  { unfold st1. cbn [files set_files]. by erewrite lookup_dd_same_blocks. }
  assert (Hq1 : exists iq1, heap st1 !! q = Some iq1).
  { unfold st1. cbn. destruct (decide (q = p)) as [->|Hne].
    - rewrite lookup_insert_eq. by eexists.
    - rewrite lookup_insert_ne by done. by eexists. }
  destruct Hq1 as [iq1 Hq1].
  assert (Hlenb : (Z.to_nat (dd_offset d) <= length (f_bytes f))%nat).
  { destruct (Nat.le_gt_cases (Z.to_nat (dd_offset d)) (length (f_bytes f))); [done|].
    rewrite drop_ge in Hbytes by lia. done. }
  assert (Hbytes1 : drop (Z.to_nat (dd_offset d)) (f_bytes f1)
                    = common_header code ver new cref mtype ctype ++ rest).
  { unfold f1. cbn [f_bytes set_f_pos set_f_bytes].
    rewrite <- (take_drop (Z.to_nat (dd_offset d)) (f_bytes f)) at 1.
    rewrite Hbytes. unfold common_header.
    replace (Z.to_nat (dd_offset d + 4))
      with (length (take (Z.to_nat (dd_offset d)) (f_bytes f))
            + length [byte_of code 1; byte_of code 0; byte_of ver 1; byte_of ver 0])%nat
      by (rewrite length_take; cbn; lia).
    change (take (Z.to_nat (dd_offset d)) (f_bytes f)
            ++ [byte_of code 1; byte_of code 0; byte_of ver 1; byte_of ver 0;
                byte_of len 3; byte_of len 2; byte_of len 1; byte_of len 0;
                byte_of cref 1; byte_of cref 0; byte_of mtype 1; byte_of mtype 0;
                byte_of ctype 1; byte_of ctype 0] ++ rest)
      with (take (Z.to_nat (dd_offset d)) (f_bytes f)
            ++ [byte_of code 1; byte_of code 0; byte_of ver 1; byte_of ver 0]
            ++ [byte_of len 3; byte_of len 2; byte_of len 1; byte_of len 0]
            ++ ([byte_of cref 1; byte_of cref 0; byte_of mtype 1; byte_of mtype 0;
                 byte_of ctype 1; byte_of ctype 0] ++ rest)).
    rewrite write_at_middle by done.
    rewrite drop_app_length' by (rewrite length_take; lia). reflexivity. }
  destruct (HCIread_header_info st1 _ _ _ _ q iq1 c0 access_rec code ver new cref mtype
              ctype rest Hf1 Hd1 Hq1 Hoff ltac:(unfold is_int32 in *; lia) Hbytes1)
    as (r' & c & st2 & Hread & Hheap).
  exists r', c, st2. split; [done|].
  unfold length_of. rewrite Hheap, lookup_insert_eq. cbn. unfold new.
  by rewrite (to_int32_id _ Hsum).
Qed.

End HeaderProperties2.

Section CreateProperties2.

Context `{Hh : hdf_h} {L : Type} `{ML : model_layer L}.

Ltac run_get_info :=
  erewrite bind_run;
  [|apply get_info_run;
    cbn [heap set_heap set_files set_access_records set_errstack];
    apply lookup_insert_eq].

Ltac run_put := erewrite bind_run; [|reflexivity].

(** [HCIinit_coder] returns on every coder type; it works on the coder
    part of the special information and on the error stack. *)
Lemma HCIinit_coder_total p i coder_type c_info (st : hdf_state L) :
  heap st !! p = Some i ->
  exists r ci e,
    HCIinit_coder (Some p) coder_type c_info st
    = Some (r, set_errstack e
                 (set_heap (<[p := set_cinfo ci i]> (heap st)) (heap_avail st) st)).
Proof.
  intros Hi. unfold HCIinit_coder. step (get_info_run _ _ _ Hi). cbv zeta.
  destruct (coder_type =? COMP_CODE_NONE).
  { eexists _, _, (errstack st). reflexivity. }
  destruct (coder_type =? COMP_CODE_RLE).
  { eexists _, _, (errstack st). reflexivity. }
  destruct (coder_type =? COMP_CODE_NBIT).
  { unfold bind, put_info, modify.
    destruct (DFKNTsize (nbit_nt c_info) =? FAIL).
    - eexists _, _, (DFE_BADNUMTYPE :: errstack st). reflexivity.
    - eexists _, _, (errstack st). reflexivity. }
  destruct (coder_type =? COMP_CODE_SKPHUFF).
  { eexists _, _, (errstack st). reflexivity. }
  eexists FAIL, (cinfo i), (DFE_BADCODER :: errstack st).
  cbn. rewrite insert_id; [|by destruct i]. 
  destruct st; reflexivity.
Qed.

Lemma Hnewref_run (st : hdf_state L) k f :
  files st !! k = Some f ->
  f_maxref f < 65535 ->
  Hnewref k st
  = Some (f_maxref f + 1,
          set_files (<[k := set_f_maxref (f_maxref f + 1) f]> (files st)) st).
Proof.
  intros Hf Hmax. unfold Hnewref.
  erewrite bind_run; [|unfold FID2REC, gets; rewrite Hf; reflexivity].
  step (get_file_run _ _ _ Hf).
  by destruct (Z.ltb_spec (f_maxref f) 65535); [|lia].
Qed.

(** X18: [HCcreate] with the stdio model on a tag/ref that names no
    element yet, in a writable file with a free access record, a free
    descriptor and memory left, returns the AID of the free slot; it
    allocates the special information (attached once, length
    [COMP_START_BLOCK], a new reference number for the compressed
    data), appends the header to the file, points the descriptor with
    the special tag at it, fills the access record and attaches to the
    file.  The coder type is not checked. *)
Theorem HCcreate_new_element (st : hdf_state L) file_id tag ref coder_type c_info
    f slot a b j blk d0 n0 :
  files st !! file_id = Some f ->
  f_refcount f <> 0 ->
  SPECIALTAG tag = false ->
  MKSPECIALTAG tag <> DFTAG_NULL ->
  Z.land (f_access f) DFACC_WRITE <> 0 ->
  find_index (fun a => negb (used a)) (access_records st) 0 = Some slot ->
  access_records st !! slot = Some a ->
  HIlookup_dd (Some file_id) tag ref st = Some (None, st) ->
  HIlookup_dd (Some file_id) DFTAG_NULL DFREF_WILDCARD st
  = Some (Some ((file_id, b), j), st) ->
  f_ddblocks f !! b = Some blk ->
  blk !! j = Some d0 ->
  heap_avail st = S n0 ->
  f_maxref f < 65535 ->
  is_int32 (f_attach f + 1) ->
  (forall ar i, (mstdio_stwrite ar i (lower st)).1 <> FAIL) ->
  exists st' p i',
    HCcreate file_id tag ref COMP_MODEL_STDIO coder_type c_info st
    = Some (ASLOT2ID (Z.of_nat slot), st')
    /\ heap st !! p = None
    /\ heap st' !! p = Some i'
    /\ attached i' = 1
    /\ ci_length i' = COMP_START_BLOCK
    /\ comp_ref i' = to_uint16 (f_maxref f + 1)
    /\ model_type (minfo i') = COMP_MODEL_STDIO
    /\ access_records st' !! slot
       = Some (AccRec true file_id (file_id, b) j 0 DFACC_RDWR SPECIAL_COMP (Some p)
                      (Some comp_funcs) false false)
    /\ lookup_dd (files st') ((file_id, b), j)
       = Some (DD (MKSPECIALTAG tag) ref (Z.of_nat (length (f_bytes f)))
                  (Z.of_nat (length (header_bytes i'))))
    /\ file_region st' file_id (Z.of_nat (length (f_bytes f)))
                   (Z.of_nat (length (header_bytes i')))
       = Some (header_bytes i')
    /\ f_attach <$> files st' !! file_id = Some (f_attach f + 1)
    /\ f_maxref <$> files st' !! file_id = Some (Z.max ref (f_maxref f + 1)).
Proof.
  intros Hf Href Htag Hmk Hrw Hslot Ha Hnone Hfree Hblk Hd0 Havail Hmaxref Hattach Hmodel.
  pose proof FAIL_negative as Hfneg. pose proof FAIL_neq_SUCCEED as Hfs.
  apply Z.eqb_neq in Href, Hmk, Hrw.
  assert (Hslt : (slot < length (access_records st))%nat) by (by eapply lookup_lt_Some).
  apply find_index_Some in Hslot as Hslot'.
  destruct Hslot' as (a' & _ & Ha' & Hunused). rewrite Nat.sub_0_r, Ha in Ha'.
  injection Ha' as <-. apply negb_true_iff in Hunused.
  unfold HCcreate.
  erewrite bind_run; [|reflexivity].
  erewrite bind_run; [|reflexivity].
  cbn [files set_errstack].
  step (BADFREC_FID2REC_run (set_errstack [] st) file_id).
  cbn [files set_errstack]. rewrite Hf, Href, Htag, Hmk. cbn [orb].
  erewrite bind_run; [|by apply get_file_run]. rewrite Hrw.
  (* HIget_access_slot *)
  set (st1 := set_access_records (<[slot := set_used true a]> (access_records st))
                (set_errstack [] st)).
  assert (Hget : HIget_access_slot (set_errstack [] st) = Some (Z.of_nat slot, st1)).
  { unfold HIget_access_slot. erewrite bind_run; [|reflexivity].
    cbn [access_records set_errstack]. rewrite Hslot.
    erewrite bind_run; [|by apply get_accrec_run]. reflexivity. }
  step Hget.
  destruct (Z.eqb_spec (Z.of_nat slot) FAIL) as [|_]; [lia|].
  rewrite Nat2Z.id.
  (* no element at (tag, ref) *)
  erewrite bind_run;
    [|erewrite bind_run; [|eapply (HIlookup_dd_files st); [done|exact Hnone]];
      reflexivity].
  cbv beta iota.
  (* the free DD *)
  set (st2 := set_access_records
                (<[slot := set_block_idx (file_id, b) j (set_used true a)]>
                   (access_records st))
                (set_files (<[file_id := set_f_null (file_id, b) j f]> (files st)) st1)).
  erewrite (bind_run _ _ _ _ st2).
  2:{ erewrite bind_run; [|eapply (HIlookup_dd_files st); [done|exact Hfree]].
      cbv beta iota.
      erewrite bind_run; [|by apply get_file_run].
      erewrite bind_run; [|reflexivity].
      erewrite bind_run;
        [|apply get_accrec_run; cbn; by apply list_lookup_insert_eq].
      erewrite bind_run; [|reflexivity].
      unfold Continue, ret. do 2 f_equal. unfold st2, st1. cbn.
      by rewrite list_insert_insert_eq. }
  cbv beta iota.
  set (ar2 := set_block_idx (file_id, b) j (set_used true a)).
  assert (Har2 : access_records st2 !! slot = Some ar2)
    by (unfold st2; cbn; by apply list_lookup_insert_eq).
  erewrite bind_run; [|by apply get_accrec_run].
  cbn [block idx set_block_idx ar2].
  (* HDmalloc *)
  set (p := fresh (dom (heap st))).
  assert (Hfresh : heap st !! p = None) by (apply not_elem_of_dom, is_fresh).
  erewrite bind_run;
    [|unfold HDmalloc; unfold st2 at 1, st1 at 1; cbn [heap_avail set_access_records
        set_files set_errstack]; rewrite Havail; reflexivity].
  erewrite bind_run; [|reflexivity].
  change (fresh (dom (heap st2))) with p.
  change (junk_compinfo st2) with (junk_compinfo st).
  erewrite bind_run; [|reflexivity].
  set (i3 := set_comp_ref (to_uint16 (f_maxref f + 1))
               (set_attached 1 (set_ci_length COMP_START_BLOCK (junk_compinfo st)))).
  set (i4 := set_minfo (ModelInfo COMP_MODEL_STDIO mstdio_funcs) i3).
  set (f3 := set_f_maxref (f_maxref f + 1) (set_f_null (file_id, b) j f)).
  set (ars3 := <[slot := set_special_info (Some p) ar2]> (access_records st)).
  run_get_info. run_put. run_get_info. run_put.
  erewrite bind_run;
    [|eapply Hnewref_run; [cbn; by apply lookup_insert_eq|done]].
  run_get_info. run_put.
  erewrite (bind_run _ _ _ _
              (HdfState [] (<[file_id := f3]> (files st)) ars3 (<[p := i4]> (heap st)) n0
                        (junk_compinfo st) (junk_comp_info st) (lower st))).
  2:{ unfold HCIinit_model. run_get_info. rewrite Z.eqb_refl. run_put.
      unfold ret. do 2 f_equal. unfold set_heap, set_files, set_access_records. cbn.
      rewrite !insert_insert_eq, list_insert_insert_eq. reflexivity. }
  set (st4 := HdfState [] (<[file_id := f3]> (files st)) ars3 (<[p := i4]> (heap st)) n0
                       (junk_compinfo st) (junk_comp_info st) (lower st)).
  assert (Hp4 : heap st4 !! p = Some i4) by (cbn; by apply lookup_insert_eq).
  destruct (HCIinit_coder_total p i4 coder_type c_info st4 Hp4) as (rc & ci & e & Hcoder).
  step Hcoder.
  set (i5 := set_cinfo ci i4).
  set (st5 := set_errstack e _).
  assert (Hf5 : files st5 !! file_id = Some f3) by (cbn; by apply lookup_insert_eq).
  assert (Hp5 : heap st5 !! p = Some i5) by (cbn; by apply lookup_insert_eq).
  assert (Har5 : access_records st5 !! slot = Some (set_special_info (Some p) ar2))
    by (cbn; by apply list_lookup_insert_eq).
  assert (Hw5 : Z.land (f_access f3) DFACC_WRITE <> 0) by (by apply Z.eqb_neq).
  step (HCIwrite_header_run st5 file_id f3 b j blk d0 slot _ p i5 (MKSPECIALTAG tag) ref
          Hf5 Hw5 Hblk Hd0 Har5 Hp5).
  destruct (Z.eqb_spec SUCCEED FAIL) as [|_]; [done|].
  set (fw := file_with_header f3 b j blk (MKSPECIALTAG tag) ref i5).
  erewrite bind_run; [|by apply get_accrec_run].
  run_put.
  erewrite bind_run; [|apply get_file_run; cbn; by apply lookup_insert_eq].
  run_put.
  set (ar7 := set_flush false _).
  set (f7 := if _ >? _ then _ else _).
  match goal with |- exists _ _ _, bind _ _ ?s = _ /\ _ => set (st7 := s) end.
  assert (Hatt7 : attached_to st7 slot ar7 p i5).
  { split.
    { unfold st7. cbn. apply list_lookup_insert_eq. unfold ars3.
      by rewrite length_insert. }
    split; [done|]. split; [|done]. unfold st7. cbn. by apply lookup_insert_eq. }
  step (model_call_run _ _ _ _ _ mstdio_stwrite Hatt7).
  destruct (Z.eqb_spec (mstdio_stwrite ar7 i5 (lower st7)).1 FAIL) as [Hbad|_].
  { by apply Hmodel in Hbad. }
  erewrite bind_run; [|reflexivity]. cbv beta iota.
  eexists _, p, i5. split; [reflexivity|].
  split; [done|]. cbn [heap set_lower].
  split; [unfold st7; cbn; by apply lookup_insert_eq|].
  split; [done|]. split; [done|]. split; [done|]. split; [done|].
  split.
  { cbn [access_records set_lower]. destruct Hatt7 as [-> _].
    unfold ar7, ar2. cbn. done. }
  assert (Hfiles7 : files (set_lower (mstdio_stwrite ar7 i5 (lower st7)).2 st7) !! file_id
                    = Some f7).
  { unfold st7. cbn. by apply lookup_insert_eq. }
  assert (Hf7 : f7 = set_f_maxref (Z.max ref (f_maxref f + 1))
                       (set_f_attach (f_attach f + 1) fw)).
  { unfold f7. cbn [f_attach f_maxref set_f_attach fw file_with_header f3 set_f_maxref
                    set_f_null].
    rewrite (to_int32_id _ Hattach).
    destruct (Z.gtb_spec ref (f_maxref f + 1)).
    - by rewrite Z.max_l by lia.
    - rewrite Z.max_r by lia. done. }
  split.
  { unfold lookup_dd. cbn [fst snd]. rewrite Hfiles7, Hf7. cbn.
    rewrite list_lookup_insert_eq by (by eapply lookup_lt_Some). cbn.
    by rewrite list_lookup_insert_eq by (by eapply lookup_lt_Some). }
  split.
  { unfold file_region. rewrite Hfiles7, Hf7. cbn. f_equal.
    rewrite !Nat2Z.id, drop_app_length. apply firstn_all. }
  split; [by rewrite Hfiles7, Hf7|]. by rewrite Hfiles7, Hf7.
Qed.

End CreateProperties2.

Section SeekProperties.

Context `{Hh : hdf_h} {L : Type} `{ML : model_layer L}.

(** X19: HCPseek accepts a position past the end of the element; a read
    of [len > 0] bytes from there fails with [DFE_RANGE], and a read
    with [len = 0] returns the negative count [length - posn] and moves
    the position back to the end. *)
Theorem seek_past_end_then_read (st : hdf_state L) access_rec ar p i target r l1 :
  attached_to st access_rec ar p i ->
  is_int32 target ->
  is_int32 (ci_length i) ->
  ci_length i < target ->
  0 <= target ->
  mstdio_seek ar i target DF_START (lower st) = (r, l1) ->
  r <> FAIL ->
  let st1 := with_posn access_rec target (set_lower l1 st) in
  HCPseek access_rec target DF_START st = Some (r, st1)
  /\ (forall len data,
        0 < len -> is_int32 (target + len) ->
        HCPread access_rec len data st1
        = Some ((FAIL, data), with_error DFE_RANGE st1))
  /\ (forall data r2 d l2,
        is_int32 (ci_length i - target) ->
        mstdio_read (set_posn target ar) i (ci_length i - target) l1 = ((r2, d), l2) ->
        r2 <> FAIL ->
        HCPread access_rec 0 data st1
        = Some ((ci_length i - target, d),
                with_posn access_rec (ci_length i) (set_lower l2 st1))).
Proof.
  intros Hatt Htarget Hlen Hpast Hpos Hseek Hok st1.
  pose proof Hatt as (Har & Hp & Hi & Hm).
  pose proof DF_START_neq_CURRENT. pose proof DF_START_neq_END.
  assert (Hlt : (access_rec < length (access_records st))%nat)
    by (by eapply lookup_lt_Some).
  assert (Hatt1 : attached_to st1 access_rec (set_posn target ar) p i).
  { unfold st1, with_posn. cbn. rewrite Har.
    split; [cbn; by apply list_lookup_insert_eq|done]. }
  split; [|split].
  - rewrite (HCPseek_run _ _ _ _ _ _ _ Hatt). cbv zeta.
    destruct (Z.eqb_spec DF_START DF_CURRENT); [done|].
    destruct (Z.eqb_spec DF_START DF_END); [done|].
    destruct (Z.ltb_spec target 0); [lia|]. rewrite Hseek.
    by destruct (Z.eqb_spec r FAIL).
  - intros len data Hlenpos Hsum.
    rewrite (HCPread_run _ _ _ _ _ _ _ Hatt1).
    destruct (Z.ltb_spec len 0); [lia|]. cbv zeta.
    destruct (Z.eqb_spec len 0); [lia|]. cbn [posn set_posn].
    rewrite (to_int32_id _ Hsum).
    by destruct (Z.gtb_spec (target + len) (ci_length i)); [|lia].
  - intros data r2 d l2 Hcount Hread Hok2.
    rewrite (HCPread_run _ _ _ _ _ _ _ Hatt1). cbn [Z.ltb Z.compare Z.eqb].
    cbv zeta. cbn [posn set_posn]. rewrite (to_int32_id _ Hcount).
    replace (lower st1) with l1 by (unfold st1, with_posn; cbn; by rewrite Har).
    rewrite Hread. destruct (Z.eqb_spec r2 FAIL); [done|].
    do 3 f_equal. rewrite to_int32_id; [f_equal; lia|].
    by replace (target + (ci_length i - target)) with (ci_length i) by lia.
Qed.

End SeekProperties.

Section FailingExamples.

#[local] Existing Instance hdf4_h.
#[local] Existing Instance failing_layer.

Lemma failing_attached : attached_to failing_state 0 sample_accrec 1 sample_info.
Proof. repeat split; vm_compute; reflexivity. Defined.

(** The sample element over the layer that fails. *)
Lemma model_failure_reported_witness :
  HCPseek 0 1 DF_START failing_state
  = Some (FAIL, with_error DFE_MODEL (set_lower tt failing_state))
  /\ HCPread 0 2 [] failing_state
     = Some ((FAIL, []), with_error DFE_MODEL (set_lower tt failing_state))
  /\ HCPwrite 0 2 [8; 9] failing_state
     = Some (FAIL, with_error DFE_MODEL (set_lower tt failing_state)).
Proof.
  destruct (model_failure_reported failing_state 0 sample_accrec 1 sample_info
              failing_attached ltac:(unfold is_int32; cbn; lia))
    as (Hseek & Hread & Hwrite).
  split; [|split].
  - apply (Hseek 1 DF_START tt); [by left|unfold is_int32; cbn; lia|cbn; lia|reflexivity].
  - apply (Hread 2 [] [] tt); try (unfold is_int32; cbn; lia). reflexivity.
  - apply (Hwrite 2 [8; 9] tt); [lia|reflexivity].
Defined.

(** An access record whose file is not open, and the sample
    element over the layer that fails. *)
Lemma HCPendaccess_errors_witness :
  @HCPendaccess hdf4_h buffer_model buffer_layer 1 sample_state
  = Some (FAIL, with_error DFE_INTERNAL sample_state)
  /\ exists st',
       HCPendaccess 0 failing_state = Some (SUCCEED, st')
       /\ errstack st' = [DFE_MODEL]
       /\ heap st' = heap failing_state
       /\ used <$> access_records st' !! 0%nat = Some false
       /\ f_attach <$> files st' !! 7 = Some 0.
Proof.
  split.
  - apply (proj1 (@HCPendaccess_errors hdf4_h buffer_model buffer_layer sample_state 1
                    blank_accrec eq_refl)).
    left. vm_compute. reflexivity.
  - destruct (proj2 (HCPendaccess_errors failing_state 0 sample_accrec eq_refl)
                1%positive sample_info sample_file tt eq_refl
                ltac:(vm_compute; reflexivity) eq_refl ltac:(vm_compute; reflexivity)
                ltac:(vm_compute; discriminate) ltac:(unfold is_int32; cbn; lia)
                eq_refl)
      as (st' & Hrun & Herr & Hheap & Hars & Hfiles).
    exists st'. split; [exact Hrun|]. split; [exact Herr|]. split; [exact Hheap|].
    split; [by rewrite Hars|]. by rewrite Hfiles.
Defined.

(** An attach over the layer that fails. *)
Lemma HCPstread_model_failure_witness :
  exists st' p i',
    HCPstread 0 failing_unattached_state = Some (FAIL, st')
    /\ errstack st' = [DFE_MODEL]
    /\ used <$> access_records st' !! 0%nat = Some false
    /\ heap failing_unattached_state !! p = None
    /\ heap st' !! p = Some i'
    /\ f_attach <$> files st' !! 7 = Some 2.
Proof.
  pose (st1 := default failing_unattached_state
                 (snd <$> HCIstaccess 0 DFACC_READ failing_unattached_state)).
  assert (H1 : HCIstaccess 0 DFACC_READ failing_unattached_state
               = Some (ASLOT2ID 0, st1)) by (vm_compute; reflexivity).
  assert (H2 : ASLOT2ID 0 <> FAIL) by (vm_compute; discriminate).
  assert (H3 : forall a i,
             (mstdio_stread a i (lower failing_unattached_state)).1 = FAIL)
    by (intros; reflexivity).
  destruct (HCPstread_model_failure failing_unattached_state 0 (ASLOT2ID 0) st1
              H1 H2 H3)
    as (st' & ar & f & p & i' & Hrun & Herr & Har & Hused & Hfresh & Hp & Hf & Hattach).
  exists st', p, i'. split; [exact Hrun|]. split; [exact Herr|]. split; [exact Hused|].
  split; [exact Hfresh|]. split; [exact Hp|].
  vm_compute in Har. injection Har as <-.
  vm_compute in Hf. injection Hf as <-. exact Hattach.
Defined.

End FailingExamples.

Section Examples2.

#[local] Existing Instance hdf4_h.
#[local] Existing Instance buffer_layer.

(** A write past the end on a file opened read-only: it fails, and
    the length field of the file keeps the old length 5. *)
Lemma HCPwrite_extends_before_update_witness :
  let run := HCPwrite 0 4 [1; 2; 3; 4] read_only_attached_state in
  returned run = Some FAIL
  /\ posn_of (final run) 0 = Some 6
  /\ length_of (final run) 1 = Some 6
  /\ file_region (final run) 7 8 4 = Some [0; 0; 0; 5].
Proof.
  intros run.
  assert (Hatt : attached_to read_only_attached_state 0 sample_accrec 1 sample_info)
    by (repeat split; vm_compute; reflexivity).
  assert (Hok : fst (mstdio_write sample_accrec sample_info 4 [1; 2; 3; 4]
                       (lower read_only_attached_state)) <> FAIL)
    by (vm_compute; discriminate).
  assert (Hrun : HCPwrite 0 4 [1; 2; 3; 4] read_only_attached_state
                 = Some (FAIL, final run)) by (vm_compute; reflexivity).
  destruct (HCPwrite_extends_before_update read_only_attached_state 0 sample_accrec 1
              sample_info 4 [1; 2; 3; 4] FAIL (final run) Hatt ltac:(lia)
              ltac:(unfold is_int32; cbn; lia) ltac:(cbn; lia) Hok Hrun)
    as (Hposn & Hlen & _ & _).
  split; [vm_compute; reflexivity|]. split; [exact Hposn|]. split; [exact Hlen|].
  vm_compute. reflexivity.
Defined.

(** Four bytes written at position 2 of the sample element. *)
Lemma HCPinquire_after_write_witness :
  let st1 := final (HCPwrite 0 4 [1; 2; 3; 4] sample_state) in
  HCPinquire 0 st1 = Some ((SUCCEED, (7, 17104, 1, 6, 4, 6, 3, 3)), st1).
Proof.
  intros st1.
  exact (HCPinquire_after_write sample_state 0 sample_accrec 1 sample_info
           (DD 17104 1 4 14) 4 [1; 2; 3; 4] 4 st1 sample_attached
           ltac:(vm_compute; reflexivity) ltac:(lia) ltac:(unfold is_int32; cbn; lia)
           ltac:(vm_compute; reflexivity) ltac:(vm_compute; discriminate)).
Defined.

(** The sample element closed. *)
Lemma HCPendaccess_releases_witness :
  exists st',
    HCPendaccess 0 sample_state = Some (SUCCEED, st')
    /\ used <$> access_records st' !! 0%nat = Some false
    /\ f_attach <$> files st' !! 7 = Some 0
    /\ heap st' !! 1%positive = None.
Proof.
  destruct (HCPendaccess_releases sample_state 0 sample_accrec 1 sample_info sample_file
              sample_attached ltac:(vm_compute; reflexivity)
              ltac:(vm_compute; discriminate) ltac:(unfold is_int32; cbn; lia)
              ltac:(unfold is_int32; cbn; lia) ltac:(vm_compute; discriminate))
    as (st' & Hrun & Hars & Hfiles & Hheap & _).
  exists st'. split; [exact Hrun|]. split; [by rewrite Hars|].
  split; [by rewrite Hfiles|]. by rewrite Hheap.
Defined.

(** A file that is not open, a tag with no special form, and a
    state with no free access record. *)
Lemma HCcreate_rejects_witness :
  HCcreate 99 720 1 0 1 (CInfo 0 0 0 0 0 0) sample_state
  = Some (FAIL, set_errstack [DFE_ARGS] sample_state)
  /\ HCcreate 7 32768 1 0 1 (CInfo 0 0 0 0 0 0) sample_state
     = Some (FAIL, set_errstack [DFE_ARGS] sample_state)
  /\ HCcreate 7 720 1 0 1 (CInfo 0 0 0 0 0 0) full_state
     = Some (FAIL, set_errstack [DFE_TOOMANY] full_state).
Proof.
  split; [|split].
  - apply (proj1 (HCcreate_rejects sample_state 99 720 1 0 1 (CInfo 0 0 0 0 0 0))).
    left. vm_compute. reflexivity.
  - apply (proj1 (proj2 (HCcreate_rejects sample_state 7 32768 1 0 1
                           (CInfo 0 0 0 0 0 0)))).
    vm_compute. reflexivity.
  - apply (proj2 (proj2 (HCcreate_rejects full_state 7 720 1 0 1 (CInfo 0 0 0 0 0 0)))
             sample_file);
      vm_compute; (reflexivity || discriminate).
Defined.

(** A file opened read-only, and a state with no memory left. *)
Lemma attach_refused_witness :
  HCPstwrite 0 read_only_unattached_state
  = Some (FAIL,
          set_access_records [set_used false bound_accrec; bound_accrec]
            (set_errstack [DFE_DENIED; DFE_ARGS] read_only_unattached_state))
  /\ exists st',
       HCPstread 0 no_memory_state = Some (FAIL, st')
       /\ errstack st' = [DFE_DENIED; DFE_NOSPACE]
       /\ heap st' = heap no_memory_state.
Proof.
  split.
  - exact (proj1 (attach_refused read_only_unattached_state 0 bound_accrec read_only_file
                    eq_refl ltac:(vm_compute; reflexivity))
             ltac:(vm_compute; reflexivity)).
  - destruct (proj2 (attach_refused no_memory_state 0 bound_accrec sample_file
                       eq_refl ltac:(vm_compute; reflexivity))
                ltac:(vm_compute; discriminate) ltac:(vm_compute; discriminate)
                eq_refl)
      as (st' & Hrun & Herr & Hheap & _).
    exists st'. split; [exact Hrun|]. split; [exact Herr|exact Hheap].
Defined.

(** An element whose header names an unknown coder. *)
Lemma failed_attach_frees_witness :
  let run := HCIstaccess 0 DFACC_READ bad_coder_state in
  returned run = Some FAIL
  /\ heap (final run) = heap bad_coder_state
  /\ heap_avail (final run) = heap_avail bad_coder_state.
Proof.
  intros run.
  assert (Hslot : ASLOT2ID (Z.of_nat 0) <> FAIL) by (vm_compute; discriminate).
  assert (Hrun : HCIstaccess 0 DFACC_READ bad_coder_state = Some (FAIL, final run))
    by (vm_compute; reflexivity).
  destruct (failed_attach_frees bad_coder_state 0 DFACC_READ (final run) Hslot Hrun)
    as (Hheap & Havail & _).
  split; [vm_compute; reflexivity|]. split; [exact Hheap|exact Havail].
Defined.

(** The sample element attached and closed again. *)
Lemma attach_endaccess_roundtrip_witness :
  let st1 := final (HCPstread 0 unattached_state) in
  exists st2,
    HCPendaccess 0 st1 = Some (SUCCEED, st2)
    /\ heap st2 = heap unattached_state
    /\ heap_avail st2 = heap_avail unattached_state
    /\ f_attach <$> files st2 !! 7 = Some 1
    /\ used <$> access_records st2 !! 0%nat = Some false.
Proof.
  intros st1.
  destruct (attach_endaccess_roundtrip unattached_state 0 bound_accrec sample_file
              (ASLOT2ID 0) st1 eq_refl ltac:(vm_compute; reflexivity)
              ltac:(unfold is_int32; cbn; lia) ltac:(unfold is_int32; cbn; lia)
              ltac:(intros; vm_compute; discriminate)
              ltac:(vm_compute; reflexivity) ltac:(vm_compute; discriminate))
    as (st2 & Hrun & Hheap & Havail & Hattach & Hused & _).
  exists st2. split; [exact Hrun|]. split; [exact Hheap|]. split; [exact Havail|].
  split; [exact Hattach|exact Hused].
Defined.

(** The header of the sample element written and read back. *)
Lemma common_header_roundtrip_witness :
  exists st1 c st2,
    HCIwrite_header (Some 7) 0 (Some 1%positive) ((7, 0%nat), 1%nat) 17105 1
                    (header_state sample_info)
    = Some (SUCCEED, st1)
    /\ HCIread_header (Some 7) 0 (Some 1%positive) ((7, 0%nat), 1%nat)
                      (CInfo 0 0 0 0 0 0) st1
       = Some ((SUCCEED, c), st2)
    /\ heap st2 !! 1%positive = Some sample_info.
Proof.
  exact (common_header_roundtrip (header_state sample_info) 7 sample_file 0 1
           [DD 17104 1 4 14; DD 1 0 0 0; DD 1 0 0 0] (DD 1 0 0 0) 0 sample_accrec
           1 sample_info 1 sample_info 17105 1 (CInfo 0 0 0 0 0 0)
           ltac:(vm_compute; reflexivity) ltac:(vm_compute; discriminate)
           eq_refl eq_refl eq_refl ltac:(vm_compute; reflexivity)
           ltac:(vm_compute; reflexivity)
           ltac:(unfold is_int32; cbn; lia) ltac:(unfold is_int32; cbn; lia)
           ltac:(unfold is_uint16; cbn; lia) ltac:(unfold is_uint16; cbn; lia)
           ltac:(unfold is_uint16; cbn; lia)).
Defined.

(** Four bytes written at position 2 of the sample element. *)
Lemma written_length_read_back_witness :
  let st1 := final (HCPwrite 0 4 [1; 2; 3; 4] sample_state) in
  exists r' c st2,
    HCIread_header (Some 7) 0 (Some 1%positive) ((7, 0%nat), 0%nat)
                   (CInfo 0 0 0 0 0 0) st1
    = Some ((r', c), st2)
    /\ length_of st2 1 = Some 6.
Proof.
  intros st1.
  exact (written_length_read_back sample_state 0 sample_accrec 1 sample_info
           (DD 17104 1 4 14) sample_file 4 [1; 2; 3; 4] 4 st1 1 sample_info
           (CInfo 0 0 0 0 0 0) 3 0 5 2 0 1 [] sample_attached eq_refl
           ltac:(vm_compute; reflexivity) ltac:(vm_compute; reflexivity)
           ltac:(vm_compute; reflexivity) ltac:(cbn; lia)
           ltac:(unfold is_int32; cbn; lia) ltac:(vm_compute; reflexivity)
           ltac:(lia) ltac:(unfold is_int32; cbn; lia) ltac:(cbn; lia)
           ltac:(vm_compute; reflexivity) ltac:(vm_compute; discriminate)).
Defined.

(** A new compressed element 721/1 in the sample file. *)
Lemma HCcreate_new_element_witness :
  exists st' p i',
    HCcreate 7 721 1 COMP_MODEL_STDIO COMP_CODE_RLE (CInfo 0 0 0 0 0 0) sample_state
    = Some (ASLOT2ID 1, st')
    /\ heap st' !! p = Some i'
    /\ ci_length i' = 1
    /\ comp_ref i' = 3
    /\ lookup_dd (files st') ((7, 0%nat), 1%nat)
       = Some (DD 17105 1 18 (Z.of_nat (length (header_bytes i')))).
Proof.
  destruct (HCcreate_new_element sample_state 7 721 1 COMP_CODE_RLE (CInfo 0 0 0 0 0 0)
              sample_file 1%nat blank_accrec 0%nat 1%nat
              [DD 17104 1 4 14; DD 1 0 0 0; DD 1 0 0 0] (DD 1 0 0 0) 3%nat
              ltac:(vm_compute; reflexivity) ltac:(vm_compute; discriminate)
              ltac:(vm_compute; reflexivity) ltac:(vm_compute; discriminate)
              ltac:(vm_compute; discriminate) ltac:(vm_compute; reflexivity)
              eq_refl ltac:(vm_compute; reflexivity) ltac:(vm_compute; reflexivity)
              eq_refl eq_refl eq_refl ltac:(cbn; lia)
              ltac:(unfold is_int32; cbn; lia)
              ltac:(intros; vm_compute; discriminate))
    as (st' & p & i' & Hrun & _ & Hp & _ & Hlen & Hcref & _ & _ & Hdd & _).
  exists st', p, i'. split; [exact Hrun|]. split; [exact Hp|]. split; [exact Hlen|].
  split; [exact Hcref|exact Hdd].
Defined.

(** A seek to position 10 of the sample element, of length 5. *)
Lemma seek_past_end_then_read_witness :
  let st1 := with_posn 0 10 (set_lower (BufferModel 10 [10; 20; 30; 40; 50])
                                       sample_state) in
  HCPseek 0 10 DF_START sample_state = Some (0, st1)
  /\ HCPread 0 1 [] st1 = Some ((FAIL, []), with_error DFE_RANGE st1)
  /\ HCPread 0 0 [] st1
     = Some ((-5, []),
             with_posn 0 5 (set_lower (BufferModel 5 [10; 20; 30; 40; 50]) st1)).
Proof.
  intros st1.
  assert (Hseek0 : mstdio_seek sample_accrec sample_info 10 DF_START (lower sample_state)
                   = (0, BufferModel 10 [10; 20; 30; 40; 50]))
    by (vm_compute; reflexivity).
  assert (Hok : 0 <> FAIL) by (vm_compute; discriminate).
  destruct (seek_past_end_then_read sample_state 0 sample_accrec 1 sample_info 10 0
              (BufferModel 10 [10; 20; 30; 40; 50]) sample_attached
              ltac:(unfold is_int32; cbn; lia) ltac:(unfold is_int32; cbn; lia)
              ltac:(cbn; lia) ltac:(lia) Hseek0 Hok)
    as (Hseek & Hread & Hzero).
  split; [exact Hseek|]. split.
  - apply (Hread 1 []); [lia|unfold is_int32; cbn; lia].
  - apply (Hzero [] 0 [] (BufferModel 5 [10; 20; 30; 40; 50]));
      [unfold is_int32; cbn; lia|reflexivity|vm_compute; discriminate].
Defined.

End Examples2.

End HCompFacts.
